(** * The streaming chat pipeline of the customer-service bot

    A shallow embedding of the request handlers of [main.py] (the
    [/api/chat] and [/api/bot-chat] handlers with their streaming
    generators and prompt composition, the endpoints of the knowledge
    base and [/api/web/parse]), of [KnowledgeManager] and [VectorStore]
    (searching, adding, reading, updating, listing, deleting and
    uploading), of [OllamaClient.chat_stream] and
    [OllamaClient.get_embeddings], and of the text cleaning of
    [WebScraper], with the properties the specification states about
    them and further properties of the code.

    The services behind the code, the Ollama endpoints, the Chroma
    collection, the database of bots, the clock and the sources of
    identifiers and random numbers, are parameters of the sections
    that use them: a property holds for every behaviour of theirs.

    Python values are modelled as follows.
    - [str] is a list of Unicode code points; literals of the source are
      written [py "..."] and decoded from UTF-8.
    - [float] is IEEE binary64, the kernel's primitive [float].
    - a [dict] with string keys is a [gmap str _].
    - a call that may raise returns a [result]; [try/except Exception] is
      [try_except].
    - an async generator is the list of chunks it yields together with the
      exception, if any, that ends it.
    - a method of the knowledge base returns a [traced] value: the calls
      it has made to the embedding service and to the collection, in
      order, and what it returns or raises. *)

From Stdlib Require Import List NArith ZArith Lia Floats Ascii String DecimalString.
From Stdlib Require Import Sorted Permutation.
From Equations Require Import Equations.
From stdpp Require Import base option list gmap.
Import ListNotations.

Set Warnings "-inexact-float".
Local Open Scope N_scope.

(** ** Python strings *)

Definition char := N.
Definition str := list char.

(** UTF-8 decoding, used for the literals of the source only. *)
Fixpoint utf8_decode (bs : list N) : str :=
  match bs with
  | [] => []
  | b0 :: r =>
      if b0 <? 0x80 then b0 :: utf8_decode r
      else if b0 <? 0xE0 then
        match r with
        | b1 :: r1 =>
            N.lor (N.shiftl (N.land b0 0x1F) 6) (N.land b1 0x3F) :: utf8_decode r1
        | _ => []
        end
      else if b0 <? 0xF0 then
        match r with
        | b1 :: b2 :: r2 =>
            N.lor (N.shiftl (N.land b0 0x0F) 12)
              (N.lor (N.shiftl (N.land b1 0x3F) 6) (N.land b2 0x3F))
            :: utf8_decode r2
        | _ => []
        end
      else
        match r with
        | b1 :: b2 :: b3 :: r3 =>
            N.lor (N.shiftl (N.land b0 0x07) 18)
              (N.lor (N.shiftl (N.land b1 0x3F) 12)
                 (N.lor (N.shiftl (N.land b2 0x3F) 6) (N.land b3 0x3F)))
            :: utf8_decode r3
        | _ => []
        end
  end.

Definition py (s : string) : str :=
  utf8_decode (map N_of_ascii (list_ascii_of_string s)).
Arguments py : simpl never.

(** [bool(s)] for a string. *)
Definition truthy (s : str) : bool :=
  match s with [] => false | _ => true end.

(** [s.startswith(p)]. *)
Fixpoint startswith (p s : str) : bool :=
  match p, s with
  | [], _ => true
  | _ :: _, [] => false
  | a :: p', b :: s' => (a =? b) && startswith p' s'
  end.

(** [s.find(sub)]: the index of the first occurrence. *)
Fixpoint find (sub s : str) : option nat :=
  if startswith sub s then Some 0%nat
  else match s with
       | [] => None
       | _ :: s' => S <$> find sub s'
       end.

(** [sub in s]. *)
Definition str_in (sub s : str) : bool :=
  match find sub s with Some _ => true | None => false end.

(** [s.split(sep, 1)] for a non-empty separator: one piece when [sep] does
    not occur, two pieces around its first occurrence otherwise. *)
Definition split1 (sep s : str) : list str :=
  match find sep s with
  | None => [s]
  | Some i => [take i s; drop (i + length sep) s]
  end.

(** The characters [str.strip()] removes: [Py_UNICODE_ISSPACE]. *)
Definition isspace (c : char) : bool :=
  ((0x09 <=? c) && (c <=? 0x0D)) || ((0x1C <=? c) && (c <=? 0x20))
  || (c =? 0x85) || (c =? 0xA0) || (c =? 0x1680)
  || ((0x2000 <=? c) && (c <=? 0x200A))
  || (c =? 0x2028) || (c =? 0x2029) || (c =? 0x202F) || (c =? 0x205F)
  || (c =? 0x3000).

Fixpoint lstrip (s : str) : str :=
  match s with
  | [] => []
  | c :: s' => if isspace c then lstrip s' else s
  end.

Definition rstrip (s : str) : str := rev (lstrip (rev s)).

Definition strip (s : str) : str := rstrip (lstrip s).

(** ** Exceptions *)

Inductive exn :=
| Exception (msg : str)
| ValueError (msg : str)
| TypeError (msg : str)
| AttributeError (msg : str)
| KeyError (key : str)
| HTTPException (status : Z) (detail : str).

(** The hexadecimal digits of [n], in lower case, on [width] places. *)
Fixpoint hex_digits (width : nat) (n : N) : str :=
  match width with
  | O => []
  | S width' =>
      hex_digits width' (n / 16)
      ++ [if n mod 16 <? 10 then 48 + n mod 16 else 87 + n mod 16]
  end.

(** [c.isprintable()]: the control characters, the separators other
    than the space, the format characters, the surrogates and the
    private use areas are not printable (the table is that of Unicode
    14). The code points that are not assigned are not printable
    either; they change with the version of the tables and are taken to
    be printable here. *)
Definition isprintable (c : char) : bool :=
  negb ((c <? 0x20) || ((0x7F <=? c) && (c <=? 0xA0)) || (c =? 0xAD)
        || ((0x600 <=? c) && (c <=? 0x605)) || (c =? 0x61C) || (c =? 0x6DD)
        || (c =? 0x70F) || ((0x890 <=? c) && (c <=? 0x891)) || (c =? 0x8E2)
        || (c =? 0x1680) || (c =? 0x180E)
        || ((0x2000 <=? c) && (c <=? 0x200F))
        || ((0x2028 <=? c) && (c <=? 0x202F))
        || ((0x205F <=? c) && (c <=? 0x206F))
        || (c =? 0x3000)
        || ((0xD800 <=? c) && (c <=? 0xF8FF))
        || (c =? 0xFEFF) || ((0xFFF9 <=? c) && (c <=? 0xFFFB))
        || (c =? 0x110BD) || (c =? 0x110CD)
        || ((0x13430 <=? c) && (c <=? 0x13438))
        || ((0x1BCA0 <=? c) && (c <=? 0x1BCA3))
        || ((0x1D173 <=? c) && (c <=? 0x1D17A))
        || (c =? 0xE0001) || ((0xE0020 <=? c) && (c <=? 0xE007F))
        || (0xF0000 <=? c)).

(** One character of [repr(s)] between the quotes [quote]. *)
Definition repr_char (quote c : char) : str :=
  if (c =? quote) || (c =? 92) then [92; c]
  else if c =? 9 then py "\t"
  else if c =? 10 then py "\n"
  else if c =? 13 then py "\r"
  else if isprintable c then [c]
  else if c <? 0x100 then py "\x" ++ hex_digits 2 c
  else if c <? 0x10000 then py "\u" ++ hex_digits 4 c
  else py "\U" ++ hex_digits 8 c.

(** [repr(s)] for a string: between double quotes when it holds a
    single quote and no double quote, between single quotes otherwise. *)
Definition py_repr (s : str) : str :=
  let quote :=
    if existsb (N.eqb 39) s && negb (existsb (N.eqb 34) s) then 34 else 39 in
  [quote] ++ concat (map (repr_char quote) s) ++ [quote].

(** [str(e)]; a [KeyError] shows the [repr] of its key. *)
Definition str_of_exn (e : exn) : str :=
  match e with
  | Exception msg | ValueError msg | TypeError msg | AttributeError msg => msg
  | KeyError key => py_repr key
  | HTTPException _ detail => detail
  end.

Inductive result (A : Type) :=
| Ok (a : A)
| Raise (e : exn).
Arguments Ok {A} a.
Arguments Raise {A} e.

#[global] Instance result_ret : MRet result := fun A a => Ok a.

#[global] Instance result_bind : MBind result := fun A B k r =>
  match r with
  | Ok a => k a
  | Raise e => Raise e
  end.

(** [try: body except Exception as e: handler(e)]. *)
Definition try_except {A} (body : result A) (handler : exn -> result A) : result A :=
  match body with
  | Ok a => Ok a
  | Raise e => handler e
  end.

(** [a, b = pieces]. *)
Definition unpack2 (pieces : list str) : result (str * str) :=
  match pieces with
  | [a; b] => Ok (a, b)
  | [] | [_] =>
      Raise (ValueError (py "not enough values to unpack (expected 2, got "
                         ++ (if pieces is [] then py "0" else py "1") ++ py ")"))
  | _ => Raise (ValueError (py "too many values to unpack (expected 2)"))
  end.

(** ** The plain-chat stream segmenter: [chat_stream.generate] *)

Definition OPEN : str := py "<think>".
Definition CLOSE : str := py "</think>".

(** The variables the [while] loop of [generate] reads and writes. *)
Record loop_vars := LoopVars {
  lv_in_thinking : bool;
  lv_current_text : str;
  lv_parts : list str;
  lv_thinking_buffer : str
}.

(** [parts.append(before_think)] under [if before_think.strip()]. *)
Definition append_if_visible (parts : list str) (before_think : str) : list str :=
  if truthy (strip before_think) then parts ++ [before_think] else parts.

(** Matching on a value while keeping the equation that names it. *)
Definition inspect {A : Type} (a : A) : { b : A | a = b } := exist _ a eq_refl.

(** The loop
    [while "<think>" in current_text or "</think>" in current_text or in_thinking],
    one clause per branch of its [if/elif/else]; every iteration that does
    not [break] continues on the text after a marker. *)
Equations? scan (in_thinking : bool) (current_text : str) (parts : list str)
    (thinking_buffer : str) : result loop_vars
    by wf (length current_text) lt :=
  scan in_thinking current_text parts thinking_buffer
    with str_in OPEN current_text || str_in CLOSE current_text || in_thinking := {
    | false => Ok (LoopVars in_thinking current_text parts thinking_buffer)
    | true with negb in_thinking && str_in OPEN current_text := {
      | true with inspect (unpack2 (split1 OPEN current_text)) := {
        | exist _ (Ok (before_think, after_think)) _ =>
            scan true after_think (append_if_visible parts before_think) thinking_buffer
        | exist _ (Raise e) _ => Raise e }
      | false with in_thinking && str_in CLOSE current_text := {
        | true with inspect (unpack2 (split1 CLOSE current_text)) := {
          | exist _ (Ok (thinking_content, after_think)) _ =>
              scan false after_think parts thinking_buffer
          | exist _ (Raise e) _ => Raise e }
        | false with in_thinking := {
          | true => Ok (LoopVars in_thinking [] parts current_text)
          | false => Ok (LoopVars in_thinking current_text parts thinking_buffer) } } } }.
Proof.
  all: match goal with
       | H : unpack2 (split1 ?sep ?s) = Ok _ |- _ =>
           unfold split1 in H; destruct (find sep s) as [i|] eqn:Hf; [|discriminate];
           cbn [unpack2] in H; injection H as _ <-; rewrite length_drop;
           assert (0 < length sep)%nat by (vm_compute; lia);
           destruct s; [vm_compute in Hf; discriminate|simpl; lia]
       end.
Qed.

(** The generator's local variables between two chunks. *)
Record seg_state := SegState {
  response_content : str;
  in_thinking : bool;
  thinking_buffer : str
}.

Definition initial_state : seg_state := SegState [] false [].

(** What the generator yields: [{"content": c, "done": d}] or
    [{"error": msg}], each framed as one [data:] line. *)
Inductive event :=
| Data (content : str) (done : bool)
| ErrorEvent (error : str).

(** [part.strip()] as a condition. *)
Definition visible (part : str) : bool := truthy (strip part).

(** The body of [async for chunk in ...]: the new state and the events
    yielded for this chunk. *)
Definition on_chunk (st : seg_state) (chunk : str) : result (seg_state * list event) :=
  let chunk_with_buffer := thinking_buffer st ++ chunk in
  lv ← scan (in_thinking st) chunk_with_buffer [] [];
  let parts :=
    if negb (lv_in_thinking lv) && truthy (lv_current_text lv)
    then lv_parts lv ++ [lv_current_text lv]
    else lv_parts lv in
  let sent := List.filter visible parts in
  Ok (SegState (response_content st ++ concat sent)
               (lv_in_thinking lv) (lv_thinking_buffer lv),
      map (fun part => Data part false) sent).

(** The upstream async generator [ollama_client.chat_stream(...)]: the
    chunks it yields and the exception that ends it, if one does. *)
Record upstream := Upstream {
  up_chunks : list str;
  up_raises : option exn
}.

(** The [async for] loop: the events yielded, and the state at its end or
    the exception that left it. *)
Fixpoint drain (st : seg_state) (chunks : list str) : list event * result seg_state :=
  match chunks with
  | [] => ([], Ok st)
  | chunk :: rest =>
      match on_chunk st chunk with
      | Raise e => ([], Raise e)
      | Ok (st', evs) =>
          let (evs', r) := drain st' rest in (evs ++ evs', r)
      end
  end.

Definition run (up : upstream) : list event * result seg_state :=
  let (evs, r) := drain initial_state (up_chunks up) in
  (evs, st ← r; match up_raises up with
                | Some e => Raise e
                | None => Ok st
                end).

(** [generate()]: the events of the loop, then the completion event, or
    the error event of the [except] clause. *)
Definition generate (up : upstream) : list event :=
  let (evs, r) := run up in
  match r with
  | Ok _ => evs ++ [Data [] true]
  | Raise e => evs ++ [ErrorEvent (py "生成响应时出错: " ++ str_of_exn e)]
  end.

(** The concatenation of the visible content fragments of a stream. *)
Definition contents (evs : list event) : str :=
  concat (map (fun ev => match ev with Data c false => c | _ => [] end) evs).

Definition is_done (ev : event) : bool :=
  match ev with Data _ true => true | _ => false end.

(** *** Predicates on the stream *)

(** A fragment event: visible content, not the completion marker. *)
Definition fragment (ev : event) : Prop :=
  exists c, ev = Data c false /\ visible c = true.

(** While outside a reasoning block the pending buffer is empty. *)
Definition buffer_inv (st : seg_state) : Prop :=
  in_thinking st = true \/ thinking_buffer st = [].

(** The last event of a stream: completion when the upstream ended, the
    error event when it raised. *)
Definition terminal (up : upstream) : event :=
  match up_raises up with
  | None => Data [] true
  | Some e => ErrorEvent (py "生成响应时出错: " ++ str_of_exn e)
  end.

(** A text delivered one character per chunk. *)
Definition chars (text : str) : list str := map (fun c => [c]) text.

(** A chunk that contains neither marker. *)
Definition no_marker (chunk : str) : Prop :=
  str_in OPEN chunk = false /\ str_in CLOSE chunk = false.

(** ** The bot-chat stream: [bot_chat.generate] *)

(** What the bot-chat generator yields: [data: {"content": c}] or the
    sentinel [data: [DONE]]. *)
Inductive bot_event :=
| BotData (content : str)
| BotDone.

Definition bot_error_message : str :=
  py "抱歉，我暂时无法回答您的问题，请稍后再试。".

(** The [async for] loop: every chunk that is not empty is forwarded as it
    is, reasoning markers and reasoning text included. *)
Fixpoint bot_drain (chunks : list str) : list bot_event :=
  match chunks with
  | [] => []
  | chunk :: rest =>
      (if truthy chunk then [BotData chunk] else []) ++ bot_drain rest
  end.

(** [generate()] of the streaming branch with the knowledge base enabled:
    the sentinel ends the stream, after the apology when the upstream
    raised. *)
Definition bot_generate (up : upstream) : list bot_event :=
  match up_raises up with
  | None => bot_drain (up_chunks up) ++ [BotDone]
  | Some e => bot_drain (up_chunks up) ++ [BotData bot_error_message; BotDone]
  end.

Definition bot_contents (evs : list bot_event) : str :=
  concat (map (fun ev => match ev with BotData c => c | BotDone => [] end) evs).

Definition is_sentinel (ev : bot_event) : bool :=
  match ev with BotDone => true | BotData _ => false end.

(** ** Retrieval: [KnowledgeManager.search_knowledge] *)

(** [max(a, b)] on floats: the first argument, unless the second is
    greater. *)
Definition py_max (a b : float) : float :=
  if (a <? b)%float then b else a.

(** The conversion from the store's distance to a similarity. *)
Definition similarity_of (distance : float) : float :=
  if (distance <? 0)%float then py_max 0 (1 + distance)
  else py_max 0 (1 - distance).

(** [s.split(",")]. *)
Fixpoint split_char (sep : char) (s : str) : list str :=
  match s with
  | [] => [[]]
  | c :: s' =>
      if c =? sep then [] :: split_char sep s'
      else match split_char sep s' with
           | piece :: pieces => (c :: piece) :: pieces
           | [] => [[c]]
           end
  end.

(** A match as [VectorStore.search_similar] returns it. The keys
    [metadata] and [distance] are read with [dict.get], so they may be
    missing; the metadata values read here are strings. *)
Record store_result := StoreResult {
  sr_id : str;
  sr_content : str;
  sr_metadata : option (gmap str str);
  sr_distance : option float
}.

(** A formatted search result. *)
Record document := Document {
  doc_id : str;
  doc_title : str;
  doc_content : str;
  doc_category : str;
  doc_tags : list str;
  doc_similarity : float;
  doc_distance : float;
  doc_created_at : option str
}.

(** The body of the loop [for result in results]. *)
Definition format_result (hit : store_result) : document :=
  let metadata := default ∅ (sr_metadata hit) in
  let tags_str := default [] (metadata !! py "tags") in
  let tags_list := if truthy tags_str then split_char 44 tags_str else [] in
  let distance := default 1%float (sr_distance hit) in
  let similarity := similarity_of distance in
  Document (sr_id hit)
           (default (py "无标题") (metadata !! py "title"))
           (sr_content hit)
           (default (py "general") (metadata !! py "category"))
           tags_list similarity distance
           (metadata !! py "created_at").

(** [formatted_results.sort(key=lambda x: x["similarity"], reverse=True)].
    Python's sort is stable, compares the keys with [<] only and, with
    [reverse=True], still keeps the elements with equal keys in their
    original order: an element goes behind the later elements that are
    more similar, and before all the others. *)
Fixpoint insert_desc (x : document) (sorted : list document) : list document :=
  match sorted with
  | [] => [x]
  | y :: rest =>
      if (doc_similarity x <? doc_similarity y)%float
      then y :: insert_desc x rest
      else x :: sorted
  end.

Definition sort_by_similarity_desc (docs : list document) : list document :=
  foldr insert_desc [] docs.

(** A float that is a number: it equals itself. *)
Definition is_number (x : float) : bool := (x =? x)%float.

(** [a] may stand before [b] in the result: it is not less similar. *)
Definition not_less_similar (a b : document) : Prop :=
  (doc_similarity a <? doc_similarity b)%float = false.

Section Retrieval.

(** The two collaborators of the knowledge manager:
    [ollama_client.get_embeddings] and [vector_store.search_similar]. *)
Variable get_embeddings : list str -> result (list (list float)).
Variable search_similar :
  list float -> Z -> option (gmap str str) -> result (list store_result).

(** [query_embeddings[0]]. *)
Definition first_embedding (query_embeddings : list (list float))
  : result (list float) :=
  match query_embeddings with
  | v :: _ => Ok v
  | [] => Raise (Exception (py "list index out of range"))
  end.

Definition search_knowledge (query : str) (top_k : Z) (category : option str)
  : result (list document) :=
  try_except
    (if negb (truthy (strip query)) then Ok []
     else
       query_embeddings ← get_embeddings [query];
       if negb (match query_embeddings with [] => false | _ => true end)
       then Ok []
       else
         let filter_metadata :=
           match category with
           | Some c => if truthy c then Some {[ py "category" := c ]} else None
           | None => None
           end in
         query_embedding ← first_embedding query_embeddings;
         results ← search_similar query_embedding top_k filter_metadata;
         let formatted_results := map format_result results in
         Ok (sort_by_similarity_desc formatted_results))
    (fun e => Ok []).

End Retrieval.

(** The three store results of the similarity-ordering example, in the
    order the store returns them; each is named after its distance. *)
Definition example_results : list store_result :=
  [StoreResult (py "doc 0.1") (py "first") None (Some 0.1%float);
   StoreResult (py "doc 0.5") (py "second") None (Some 0.5%float);
   StoreResult (py "doc -0.2") (py "third") None (Some (-0.2)%float)].

(** A document with a given similarity. *)
Definition doc_with (id : str) (similarity : float) : document :=
  Document id [] [] [] [] similarity (1 - similarity)%float None.

(** Three documents, two of them equally similar. *)
Definition tied_documents : list document :=
  [doc_with (py "a") 0.5; doc_with (py "b") 0.9; doc_with (py "c") 0.5].

Definition similarity_is (s : float) (d : document) : bool :=
  (doc_similarity d =? s)%float.

(** ** The chat handler: [chat_stream] of [/api/chat] *)

Definition nl : str := [10].

(** [sep.join(pieces)]. *)
Fixpoint str_join (sep : str) (pieces : list str) : str :=
  match pieces with
  | [] => []
  | [piece] => piece
  | piece :: rest => piece ++ sep ++ str_join sep rest
  end.

(** The request body. *)
Record ChatMessage := {
  message : str;
  conversation_id : option str;
  history : option (list (gmap str str));
  session_id : option str;
  coding_rule : option (gmap str str)
}.

(** [bool(d)] for an optional dict: [None] and the empty dict are false. *)
Definition dict_truthy (d : option (gmap str str)) : bool :=
  match d with
  | Some fields => negb (bool_decide (fields = ∅))
  | None => false
  end.

(** [message.coding_rule.get(key, 'N/A')]. *)
Definition rule_field (rule : gmap str str) (key : str) : str :=
  default (py "N/A") (rule !! key).

Definition rule_system_prompt (rule : gmap str str) : str :=
  str_join nl
    [py "你是一个专业的代码分析和改进助手。用户已选择了以下编码规则：";
     [];
     py "==== 编码规则信息 ====";
     py "规则标题：" ++ rule_field rule (py "title");
     py "规则描述：" ++ rule_field rule (py "description");
     py "编程语言：" ++ rule_field rule (py "language");
     py "规则分类：" ++ rule_field rule (py "category");
     [];
     py "==== 编码规则内容 ====";
     rule_field rule (py "content");
     [];
     py "==== 编码规则示例 ====";
     rule_field rule (py "example");
     [];
     py "==== 任务要求 ====";
     py "请根据上述编码规则来分析和改进用户提供的代码。你需要：";
     py "1. 仔细学习并理解提供的编码规则";
     py "2. 分析用户的代码是否符合该规则";
     py "3. 如果不符合，提供具体的改进建议和修改后的代码";
     py "4. 解释为什么要这样修改，体现规则的价值";
     py "5. 确保修改后的代码更加规范、可读性更强";
     py "6. 使用中文进行详细说明";
     py "7. 提供完整可运行的改进后代码";
     [];
     py "请严格按照提供的编码规则来指导代码改进！"].

Definition rule_user_content (message : str) : str :=
  str_join nl
    [py "请根据已选择的编码规则来分析和改进以下代码：";
     [];
     message;
     [];
     py "请提供详细的分析、改进建议，并输出符合编码规则的完整代码。"].

Definition knowledge_system_prompt : str :=
  str_join nl
    [py "你是一个专业的智能客服助手。请根据提供的知识库信息回答用户问题。";
     [];
     py "回答要求：";
     py "1. 优先使用知识库中的信息";
     py "2. 保持回答准确、友好、专业";
     py "3. 如果知识库中没有相关信息，请诚实地告知用户";
     py "4. 提供具体的帮助建议";
     py "5. 使用中文回答"].

(** One line of the context block: the title and the content, cut to 300
    characters with an ellipsis when it is longer. *)
Definition context_line (doc : document) : str :=
  if (300 <? length (doc_content doc))%nat
  then py "• " ++ doc_title doc ++ py ": " ++ take 300 (doc_content doc) ++ py "..."
  else py "• " ++ doc_title doc ++ py ": " ++ doc_content doc.

Definition context_info (relevant_docs : list document) : str :=
  nl ++ nl ++ py "[相关知识库信息]" ++ nl
  ++ str_join nl (map context_line relevant_docs).

(** One turn of the message list sent to the model. *)
Record chat_turn := ChatTurn {
  role : str;
  content : str
}.

(** The loop over [message.history[-10:]]: the turns that have a role and
    a content, both not empty. *)
Definition history_turns (history : option (list (gmap str str))) : list chat_turn :=
  match history with
  | Some ((_ :: _) as turns) =>
      omap (fun hist_msg : gmap str str =>
              match hist_msg !! py "role", hist_msg !! py "content" with
              | Some r, Some c =>
                  if truthy r && truthy c then Some (ChatTurn r c) else None
              | _, _ => None
              end)
           (drop (length turns - 10) turns)
  | _ => []
  end.

(** The calls the handler makes to its collaborators, in order. *)
Inductive call :=
| SearchKnowledge (query : str) (top_k : Z)
| ChatStream (messages : list chat_turn) (system : str) (keep_alive : str).

Definition is_search (c : call) : bool :=
  match c with SearchKnowledge _ _ => true | ChatStream _ _ _ => false end.

Section Orchestrator.

Variable get_embeddings : list str -> result (list (list float)).
Variable search_similar :
  list float -> Z -> option (gmap str str) -> result (list store_result).
(** [ollama_client.chat_stream(messages=, system=, keep_alive=)]. *)
Variable ollama_chat_stream : list chat_turn -> str -> str -> upstream.

(** The handler: the calls it makes and what it answers, the events of
    the streaming response or the [HTTPException] of its [except]
    clause. *)
Definition chat_stream (m : ChatMessage) : list call * result (list event) :=
  let '(calls, composed) :=
    if dict_truthy (coding_rule m) then
      let rule := default ∅ (coding_rule m) in
      ([], Ok (rule_system_prompt rule, rule_user_content (message m)))
    else
      ([SearchKnowledge (message m) 3],
       relevant_docs ←
         search_knowledge get_embeddings search_similar (message m) 3 None;
       let user_content :=
         match relevant_docs with
         | [] => message m
         | _ => message m ++ context_info relevant_docs
         end in
       Ok (knowledge_system_prompt, user_content)) in
  match composed with
  | Raise e =>
      (calls, Raise (HTTPException 500 (py "聊天服务错误: " ++ str_of_exn e)))
  | Ok (system_prompt, user_content) =>
      let messages :=
        history_turns (history m) ++ [ChatTurn (py "user") user_content] in
      (calls ++ [ChatStream messages system_prompt (py "10m")],
       Ok (generate (ollama_chat_stream messages system_prompt (py "10m"))))
  end.

End Orchestrator.

(** ** The embedding adapter: [OllamaClient.get_embeddings] *)

(** A value decoded from JSON. *)
#[warnings="-register-all"]
Inductive json :=
| JNull
| JBool (b : bool)
| JInt (n : Z)
| JFloat (x : float)
| JStr (s : str)
| JList (items : list json)
| JDict (fields : gmap str json).

(** [bool(v)]. *)
Definition json_truthy (v : json) : bool :=
  match v with
  | JNull => false
  | JBool b => b
  | JInt n => negb (n =? 0)%Z
  | JFloat x => negb (x =? 0)%float
  | JStr s => truthy s
  | JList items => match items with [] => false | _ => true end
  | JDict fields => negb (size fields =? 0)%nat
  end.

(** [type(v).__name__]. *)
Definition type_name (v : json) : str :=
  match v with
  | JNull => py "NoneType"
  | JBool _ => py "bool"
  | JInt _ => py "int"
  | JFloat _ => py "float"
  | JStr _ => py "str"
  | JList _ => py "list"
  | JDict _ => py "dict"
  end.

(** [len(v)]. *)
Definition json_len (v : json) : result nat :=
  match v with
  | JStr s => Ok (length s)
  | JList items => Ok (length items)
  | JDict fields => Ok (size fields)
  | _ => Raise (TypeError (py "object of type '" ++ type_name v ++ py "' has no len()"))
  end.

(** [data.get(key, fallback)]. *)
Definition json_get (data : json) (key : str) (fallback : json) : result json :=
  match data with
  | JDict fields => Ok (default fallback (fields !! key))
  | _ => Raise (AttributeError (py "'" ++ type_name data
                                ++ py "' object has no attribute 'get'"))
  end.

(** [JStr key ∈ items], decided on the strings of a list. *)
Definition json_is_str (key : str) (v : json) : bool :=
  match v with
  | JStr s => bool_decide (s = key)
  | _ => false
  end.

(** [key in data] for a string [key]. *)
Definition json_contains (key : str) (data : json) : result bool :=
  match data with
  | JDict fields => Ok (bool_decide (is_Some (fields !! key)))
  | JList items => Ok (existsb (json_is_str key) items)
  | JStr s => Ok (str_in key s)
  | _ => Raise (TypeError (py "argument of type '" ++ type_name data
                           ++ py "' is not iterable"))
  end.

(** [data[key]] for a string [key]. *)
Definition json_item (data : json) (key : str) : result json :=
  match data with
  | JDict fields =>
      match fields !! key with
      | Some v => Ok v
      | None => Raise (KeyError key)
      end
  | JList _ => Raise (TypeError (py "list indices must be integers or slices, not str"))
  | JStr _ => Raise (TypeError (py "string indices must be integers, not 'str'"))
  | _ => Raise (TypeError (py "'" ++ type_name data ++ py "' object is not subscriptable"))
  end.

(** [str(n)] for an integer. *)
Definition str_of_Z (n : Z) : str :=
  py (NilZero.string_of_int (Z.to_int n)).

(** What [client.post] returns; [response.json()] may raise. *)
Record http_response := HttpResponse {
  status_code : Z;
  text : str;
  json_body : result json
}.

Record OllamaClient := {
  base_url : str;
  chat_model : str;
  embedding_model : str
}.

(** [[0.0] * 768]. *)
Definition zero_vector : json := JList (replicate 768 (JFloat 0)).

(** [[[0.0] * 768] * n]. *)
Definition zero_vectors (n : nat) : json := JList (replicate n zero_vector).

(** [model or self.embedding_model]. *)
Definition model_or_default (self : OllamaClient) (model : option str) : str :=
  match model with
  | Some name => if truthy name then name else embedding_model self
  | None => embedding_model self
  end.

Section Embeddings.

Variable self : OllamaClient.
(** [client.post(base_url + "/api/embed", json={model, input, truncate,
    keep_alive})]: a response, or the exception of a failed request. *)
Variable post_embed : str -> list str -> bool -> str -> result http_response.
(** The [n]-th [client.post(base_url + "/api/embeddings", json={model,
    prompt})] of the legacy loop. *)
Variable post_embeddings : nat -> str -> str -> result http_response.

(** The loop [for text in texts] of the legacy path, from its [n]-th
    turn on. *)
Fixpoint legacy_loop (n : nat) (texts : list str) (model : str)
    (embeddings : list json) : result (list json) :=
  match texts with
  | [] => Ok embeddings
  | text :: rest =>
      response ← post_embeddings n model text;
      if negb (status_code response =? 200)%Z
      then legacy_loop (S n) rest model (embeddings ++ [zero_vector])
      else
        data ← json_body response;
        present ← json_contains (py "embedding") data;
        if (present : bool) then
          embedding ← json_item data (py "embedding");
          legacy_loop (S n) rest model (embeddings ++ [embedding])
        else legacy_loop (S n) rest model (embeddings ++ [zero_vector])
  end.

Definition _get_embeddings_legacy (texts : list str) (model : str) : result json :=
  try_except
    (embeddings ← legacy_loop 0 texts model [];
     Ok (JList embeddings))
    (fun e => Ok (zero_vectors (length texts))).

(** [texts] is a string or a list of strings. *)
Definition get_embeddings (texts : str + list str) (model : option str)
    (truncate : bool) (keep_alive : str) : result json :=
  let model := model_or_default self model in
  let input_texts := match texts with inl one => [one] | inr many => many end in
  try_except
    (response ← post_embed model input_texts truncate keep_alive;
     if negb (status_code response =? 200)%Z
     then Raise (Exception (py "Ollama Embed API 错误: "
                            ++ str_of_Z (status_code response)
                            ++ py ", 响应: " ++ text response))
     else
       data ← json_body response;
       embeddings ← json_get data (py "embeddings") (JList []);
       if negb (json_truthy embeddings)
       then Ok (zero_vectors (length input_texts))
       else
         _ ← json_len embeddings;
         Ok embeddings)
    (fun e => _get_embeddings_legacy input_texts model).

End Embeddings.

(** The entry that a turn of the legacy loop appends for the answer to
    its request: the zero vector for a status other than 200 and for a
    body without the key ["embedding"], the value under that key
    otherwise. *)
Definition legacy_entry (response : http_response) : result json :=
  if negb (status_code response =? 200)%Z then Ok zero_vector
  else
    data ← json_body response;
    present ← json_contains (py "embedding") data;
    if (present : bool) then json_item data (py "embedding") else Ok zero_vector.

(** A backend that answers the batch endpoint with a single embedding,
    whatever the number of texts. *)
Definition one_embedding_response : http_response :=
  HttpResponse 200 []
    (Ok (JDict {[ py "embeddings" := JList [JList [JFloat 0.5]] ]})).

Definition local_client : OllamaClient :=
  {| base_url := py "http://localhost:11434";
     chat_model := py "deepseek-r1:latest";
     embedding_model := py "modelscope.cn/Qwen/Qwen3-Embedding-8B-GGUF:latest" |}.

(** ** Tactics *)

(** Unfold the loop one clause at a time, deciding each guard from the
    hypotheses on the markers. *)
Ltac scan_simp :=
  repeat progress
    (autorewrite with scan;
     repeat match goal with
            | H : str_in _ _ = _ |- _ => rewrite H
            end;
     cbn [orb andb negb];
     rewrite ?orb_true_r, ?orb_false_r, ?andb_true_r, ?andb_false_r).

(** Splitting comparisons of exponents and mantissas into their cases. *)
Ltac compare_cases :=
  rewrite ?Pos.compare_cont_spec; cbn [Pos.switch_Eq];
  repeat match goal with
         | |- context [(?x ?= ?y)%Z] => destruct (Z.compare_spec x y)
         | |- context [(?x ?= ?y)%positive] => destruct (Pos.compare_spec x y)
         end;
  cbn; try reflexivity; try discriminate; intros; exfalso; lia.

(** An event that does not show a whole opening marker. *)
Definition hides_marker (ev : event) : Prop :=
  match ev with
  | Data c _ => str_in OPEN c = false
  | ErrorEvent _ => True
  end.

(** ** The vector store: [VectorStore.search_similar] *)

(** What [collection.query] returns: for each query embedding one row of
    ids, of documents, of metadatas and of distances; the last three
    lists may be [None]. *)
Record query_result := QueryResult {
  qr_ids : list (list str);
  qr_documents : option (list (list str));
  qr_metadatas : option (list (list (gmap str str)));
  qr_distances : option (list (list float))
}.

(** [collection.query(query_embeddings, n_results, where)]. *)
Definition collection_query : Type :=
  list (list float) -> Z -> option (gmap str str) -> result query_result.

(** [items[i]]. *)
Definition list_index {A} (items : list A) (i : nat) : result A :=
  match items !! i with
  | Some item => Ok item
  | None => Raise (Exception (py "list index out of range"))
  end.

(** [rows[0][i] if rows else fallback]. *)
Definition cell_or {A} (rows : option (list (list A))) (i : nat) (fallback : A)
  : result A :=
  match rows with
  | Some ((_ :: _) as rows) => row ← list_index rows 0; list_index row i
  | _ => Ok fallback
  end.

(** The loop [for i in range(len(results["documents"][0]))], over the
    indices still to visit. The distance that stands for a missing list
    of distances is the integer [0]. *)
Fixpoint format_rows (results : query_result) (documents : list (list str))
    (indices : list nat) (formatted_results : list store_result)
  : result (list store_result) :=
  match indices with
  | [] => Ok formatted_results
  | i :: rest =>
      ids ← list_index (qr_ids results) 0;
      id ← list_index ids i;
      row ← list_index documents 0;
      content ← list_index row i;
      metadata ← cell_or (qr_metadatas results) i ∅;
      distance ← cell_or (qr_distances results) i 0%float;
      format_rows results documents rest
        (formatted_results ++ [StoreResult id content (Some metadata) (Some distance)])
  end.

(** [self.collection] is [None] until [initialize] has run. The
    [except] clause logs and raises the exception again. *)
Definition search_similar (collection : option collection_query)
    (query_embedding : list float) (top_k : Z)
    (filter_metadata : option (gmap str str)) : result (list store_result) :=
  match collection with
  | None => Raise (Exception (py "向量数据库未初始化"))
  | Some query =>
      results ← query [query_embedding] top_k filter_metadata;
      match qr_documents results with
      | Some ((((_ :: _) as row) :: _) as documents) =>
          format_rows results documents (seq 0 (length row)) []
      | _ => Ok []
      end
  end.

(** The first row of a possibly missing list of rows. *)
Definition first_row {A} (rows : option (list (list A))) : list A :=
  match rows with
  | Some (row :: _) => row
  | _ => []
  end.

(** A store that answers every query with two documents and nothing
    else about them but their ids. *)
Definition two_bare_documents : collection_query :=
  fun _ _ _ =>
    Ok (QueryResult [[py "id-1"; py "id-2"]] (Some [[py "one"; py "two"]]) None None).

(** ** The bot handler: [bot_chat] of [/api/bot-chat] *)

(** The request body. *)
Record BotChatRequest := {
  item_bot_id : str;
  item_message : str;
  item_conversation_id : option str;
  item_stream : option bool
}.

(** A value of a row of the [bots] table, whose columns are [TEXT],
    [BOOLEAN] and [TIMESTAMP] columns written from strings and booleans:
    [NULL], an integer or a text. *)
Inductive sql_value :=
| SqlNull
| SqlInt (n : Z)
| SqlText (s : str).

(** [bool(v)]. *)
Definition sql_truthy (v : sql_value) : bool :=
  match v with
  | SqlNull => false
  | SqlInt n => negb (n =? 0)%Z
  | SqlText s => truthy s
  end.

(** [str(v)], as an f-string formats it. *)
Definition sql_str (v : sql_value) : str :=
  match v with
  | SqlNull => py "None"
  | SqlInt n => str_of_Z n
  | SqlText s => s
  end.

(** [f"{bot.get(key, fallback)}"]. *)
Definition bot_field (bot : gmap str sql_value) (key fallback : str) : str :=
  match bot !! key with
  | Some v => sql_str v
  | None => fallback
  end.

(** [bot.get('knowledge_base_enabled', True)] as a condition. *)
Definition knowledge_base_enabled (bot : gmap str sql_value) : bool :=
  match bot !! py "knowledge_base_enabled" with
  | Some v => sql_truthy v
  | None => true
  end.

(** The system prompt of the bot; the streaming branch adds a sixth
    requirement. *)
Definition bot_system_prompt (bot : gmap str sql_value) (streaming : bool) : str :=
  str_join nl
    ([py "你是" ++ bot_field bot (py "name") (py "智能助手") ++ py "。"
        ++ bot_field bot (py "description") [];
      [];
      py "回答要求：";
      py "1. 优先使用知识库中的信息";
      py "2. 保持回答准确、友好、专业";
      py "3. 如果知识库中没有相关信息，请诚实地告知用户";
      py "4. 提供具体的帮助建议";
      py "5. 使用中文回答"]
     ++ (if streaming
         then [py "6. 对于复杂问题，可以在<think></think>标签中展示思考过程"]
         else [])).

Definition simple_responses (bot : gmap str sql_value) : list str :=
  [py "感谢您使用" ++ bot_field bot (py "name") (py "智能助手") ++ py "！";
   py "这是一个很好的问题。";
   py "我正在为您查找相关信息。";
   py "请问还有其他问题吗？";
   py "很高兴为您服务！我是" ++ bot_field bot (py "name") (py "智能助手") ++ py "。"].

(** [random.choice(seq)] for a sequence that is not empty: the element at
    a position below [len(seq)], which the random source [entropy]
    selects. *)
Definition random_choice (entropy : nat) (seq : list str) : str :=
  default [] (seq !! (entropy mod length seq)%nat).

(** The loop of the non-streaming branch: a chunk is added to the answer
    unless it contains a marker. *)
Fixpoint bot_collect (chunks : list str) (response_content : str) : str :=
  match chunks with
  | [] => response_content
  | chunk :: rest =>
      bot_collect rest
        (if negb (str_in OPEN chunk) && negb (str_in CLOSE chunk)
         then response_content ++ chunk
         else response_content)
  end.

(** The answer of the non-streaming branch: the collected text, or the
    apology when it is blank or the model call raised; trimmed. *)
Definition bot_answer (up : upstream) : str :=
  let response_content :=
    match up_raises up with
    | Some e => bot_error_message
    | None =>
        let response_content := bot_collect (up_chunks up) [] in
        if negb (truthy (strip response_content)) then bot_error_message
        else response_content
    end in
  strip response_content.

(** What the handler returns: a streaming response, or the [data] of the
    JSON answer. *)
Inductive bot_response :=
| Streaming (events : list bot_event)
| Answer (response : str) (conversation_id : str).

(** [item.conversation_id or f"conv_{int(time.time())}"]. *)
Definition conversation_id_or (conversation_id : option str) (now : Z) : str :=
  match conversation_id with
  | Some c => if truthy c then c else py "conv_" ++ str_of_Z now
  | None => py "conv_" ++ str_of_Z now
  end.

Section BotOrchestrator.

(** [bot_manager.get_bot_by_id]: the row as a dict, [None] when there
    is none, or the exception of the database. *)
Variable get_bot_by_id : str -> result (option (gmap str sql_value)).
Variable get_embeddings : list str -> result (list (list float)).
Variable search_similar :
  list float -> Z -> option (gmap str str) -> result (list store_result).
Variable ollama_chat_stream : list chat_turn -> str -> str -> upstream.
(** The random source and [int(time.time())]. *)
Variable entropy : nat.
Variable now : Z.

(** The branches with the knowledge base enabled, up to the model call:
    the search, the system prompt and the one user message. *)
Definition bot_model_call (bot : gmap str sql_value) (item : BotChatRequest)
    (streaming : bool) : result (list chat_turn * str) :=
  relevant_docs ←
    search_knowledge get_embeddings search_similar (item_message item) 3 None;
  let system_prompt := bot_system_prompt bot streaming in
  let user_content :=
    match relevant_docs with
    | [] => item_message item
    | _ => item_message item ++ context_info relevant_docs
    end in
  Ok ([ChatTurn (py "user") user_content], system_prompt).

(** The body of the [try] block: the calls made and the response, or
    the exception that left it. A row dict is never empty, so [not bot]
    holds for [None] only. *)
Definition bot_chat_body (item : BotChatRequest) : list call * result bot_response :=
  match get_bot_by_id (item_bot_id item) with
  | Raise e => ([], Raise e)
  | Ok None => ([], Raise (HTTPException 404 (py "机器人不存在")))
  | Ok (Some bot) =>
      let streaming := match item_stream item with Some true => true | _ => false end in
      if knowledge_base_enabled bot then
        match bot_model_call bot item streaming with
        | Raise e => ([SearchKnowledge (item_message item) 3], Raise e)
        | Ok (messages, system_prompt) =>
            let up := ollama_chat_stream messages system_prompt (py "10m") in
            ([SearchKnowledge (item_message item) 3;
              ChatStream messages system_prompt (py "10m")],
             Ok (if streaming then Streaming (bot_generate up)
                 else Answer (bot_answer up)
                        (conversation_id_or (item_conversation_id item) now)))
        end
      else
        let response := random_choice entropy (simple_responses bot) in
        ([],
         Ok (if streaming then Streaming [BotData response; BotDone]
             else Answer response
                    (conversation_id_or (item_conversation_id item) now)))
  end.

(** The handler: an [HTTPException] passes, any other exception becomes
    the status 500. *)
Definition bot_chat (item : BotChatRequest) : list call * result bot_response :=
  let '(calls, outcome) := bot_chat_body item in
  (calls,
   match outcome with
   | Ok response => Ok response
   | Raise (HTTPException status detail) => Raise (HTTPException status detail)
   | Raise e => Raise (HTTPException 500 (str_of_exn e))
   end).

End BotOrchestrator.

(** A bot row, with the knowledge base enabled or not. *)
Definition example_bot (enabled : Z) : gmap str sql_value :=
  {[ py "id" := SqlText (py "b1");
     py "name" := SqlText (py "Ada");
     py "description" := SqlNull;
     py "knowledge_base_enabled" := SqlInt enabled;
     py "embed_url" := SqlText (py "/bot/b1") ]}.

(** ** The knowledge base: [VectorStore] and [KnowledgeManager] *)

(** What [collection.get] returns. *)
Record get_result := GetResult {
  gr_ids : list str;
  gr_documents : option (list str);
  gr_metadatas : option (list (gmap str json))
}.

(** The collection of the store, as the calls the code makes on it;
    [add], [update] and [delete] return nothing or raise,
    [collection_list] is [collection.get(where, limit, offset)].
    Metadata values are JSON scalars. *)
Record Collection := {
  collection_add :
    list str -> list (list float) -> list (gmap str json) -> list str -> option exn;
  collection_get : list str -> result get_result;
  collection_update :
    list str -> list str -> list (list float) -> list (gmap str json) -> option exn;
  collection_list : option (gmap str str) -> Z -> Z -> result get_result;
  collection_count : result Z;
  collection_delete : list str -> option exn
}.

(** The calls a request makes to the embedding service and to the
    collection. *)
Inductive store_call :=
| GetEmbeddings (texts : list str)
| CollectionAdd (documents : list str) (embeddings : list (list float))
    (metadatas : list (gmap str json)) (ids : list str)
| CollectionGet (ids : list str)
| CollectionUpdate (ids : list str) (documents : list str)
    (embeddings : list (list float)) (metadatas : list (gmap str json))
| CollectionList (filter_metadata : option (gmap str str)) (limit offset : Z)
| CollectionCount
| CollectionDelete (ids : list str).

(** A computation that makes calls and returns or raises. *)
Record traced (A : Type) := Traced {
  calls : list store_call;
  outcome : result A
}.
Arguments Traced {A} calls outcome.
Arguments calls {A} t.
Arguments outcome {A} t.

#[global] Instance traced_ret : MRet traced := fun A a => Traced [] (Ok a).

#[global] Instance traced_bind : MBind traced := fun A B k m =>
  match outcome m with
  | Ok a => Traced (calls m ++ calls (k a)) (outcome (k a))
  | Raise e => Traced (calls m) (Raise e)
  end.

(** A call, with what it returned. *)
Definition called {A} (c : store_call) (returned : result A) : traced A :=
  Traced [c] returned.

(** A step that makes no call. *)
Definition pure {A} (r : result A) : traced A := Traced [] r.

(** [try: body except Exception as e: handler(e)]. *)
Definition traced_try {A} (body : traced A) (handler : exn -> traced A) : traced A :=
  match outcome body with
  | Ok a => body
  | Raise e => Traced (calls body ++ calls (handler e)) (outcome (handler e))
  end.

(** A call that returns nothing. *)
Definition unit_result (raised : option exn) : result unit :=
  match raised with
  | None => Ok tt
  | Some e => Raise e
  end.

(** [v.split(",")]. *)
Definition json_split (v : json) (sep : char) : result (list str) :=
  match v with
  | JStr s => Ok (split_char sep s)
  | _ => Raise (AttributeError (py "'" ++ type_name v
                                ++ py "' object has no attribute 'split'"))
  end.

(** [tags_str.split(",") if tags_str else []]. *)
Definition tags_of (tags_str : json) : result (list str) :=
  if json_truthy tags_str then json_split tags_str 44 else Ok [].

(** [",".join(tags) if tags else ""]. *)
Definition tags_str_of (tags : list str) : str :=
  match tags with
  | [] => []
  | _ => str_join (py ",") tags
  end.

(** [given or fallback] for an optional string. *)
Definition str_or (given : option str) (fallback : json) : json :=
  match given with
  | Some s => if truthy s then JStr s else fallback
  | None => fallback
  end.

(** The dict that [VectorStore.get_document] returns. *)
Record stored_document := StoredDocument {
  sd_id : str;
  sd_content : str;
  sd_metadata : gmap str json
}.

(** What [add_knowledge] returns. *)
Record knowledge_entry := KnowledgeEntry {
  ke_id : str;
  ke_title : str;
  ke_category : str;
  ke_tags : option (list str);
  ke_created_at : json
}.

(** What [get_knowledge] returns. *)
Record knowledge_item := KnowledgeItem {
  ki_id : str;
  ki_title : json;
  ki_content : str;
  ki_category : json;
  ki_tags : list str;
  ki_content_length : json;
  ki_created_at : json;
  ki_updated_at : json
}.

Section KnowledgeBase.

(** [self.collection], which is [None] until [initialize] has run. *)
Variable collection : option Collection.
Variable get_embeddings : list str -> result (list (list float)).
(** [datetime.now().isoformat()] and [str(uuid.uuid4())]: the [n]-th
    reading of the clock and the [n]-th identifier drawn during the
    request. *)
Variable now : nat -> str.
Variable uuid4 : nat -> str.

(** [if not self.collection: raise Exception(...)]. *)
Definition require_collection : traced Collection :=
  match collection with
  | Some c => mret c
  | None => pure (Raise (Exception (py "向量数据库未初始化")))
  end.

(** The loop [for metadata in metadatas: metadata["created_at"] = ...],
    which writes into the dicts of the caller; [tick] readings of the
    clock have been made before. *)
Fixpoint stamp_created_at (tick : nat) (metadatas : list (gmap str json))
  : list (gmap str json) :=
  match metadatas with
  | [] => []
  | metadata :: rest =>
      <[py "created_at" := JStr (now tick)]> metadata
      :: stamp_created_at (S tick) rest
  end.

(** [VectorStore.add_documents]: the dicts of [metadatas] as the call
    leaves them, and the ids; [fresh] identifiers have been drawn
    before. *)
Definition add_documents (tick fresh : nat) (documents : list str)
    (embeddings : list (list float)) (metadatas : list (gmap str json))
    (ids : option (list str)) : list (gmap str json) * traced (list str) :=
  match collection with
  | None => (metadatas, pure (Raise (Exception (py "向量数据库未初始化"))))
  | Some c =>
      let ids :=
        match ids with
        | Some ids => ids
        | None => map uuid4 (seq fresh (length documents))
        end in
      let metadatas := stamp_created_at tick metadatas in
      (metadatas,
       _ ← called (CollectionAdd documents embeddings metadatas ids)
             (unit_result (collection_add c documents embeddings metadatas ids));
       mret ids)
  end.

(** [VectorStore.get_document]. *)
Definition get_document (document_id : str) : traced (option stored_document) :=
  traced_try
    (c ← require_collection;
     results ← called (CollectionGet [document_id]) (collection_get c [document_id]);
     match gr_documents results with
     | Some (((_ :: _) as content) :: _) =>
         id ← pure (list_index (gr_ids results) 0);
         metadata ←
           pure (match gr_metadatas results with
                 | Some ((_ :: _) as metadatas) => list_index metadatas 0
                 | _ => Ok ∅
                 end);
         mret (Some (StoredDocument id content metadata))
     | _ => mret None
     end)
    (fun e => mret None).

(** [VectorStore.update_document], after [tick] readings of the clock. *)
Definition update_document (tick : nat) (document_id document : str)
    (embedding : list float) (metadata : gmap str json) : traced bool :=
  traced_try
    (c ← require_collection;
     let metadata := <[py "updated_at" := JStr (now tick)]> metadata in
     _ ← called (CollectionUpdate [document_id] [document] [embedding] [metadata])
           (unit_result
              (collection_update c [document_id] [document] [embedding] [metadata]));
     mret true)
    (fun e => mret false).

(** [KnowledgeManager.add_knowledge]. The dict [metadata] is the one
    that [add_documents] writes into, so that [metadata["created_at"]]
    is read from the dict as the store has left it. *)
Definition add_knowledge (title content category : str) (tags : option (list str))
  : traced knowledge_entry :=
  if negb (truthy (strip content))
  then pure (Raise (ValueError (py "知识内容不能为空")))
  else
    embeddings ← called (GetEmbeddings [content]) (get_embeddings [content]);
    if negb (match embeddings with [] => false | _ => true end)
    then pure (Raise (Exception (py "生成嵌入向量失败")))
    else
      let metadata : gmap str json :=
        {[ py "title" := JStr title;
           py "category" := JStr category;
           py "tags" := JStr (tags_str_of (default [] tags));
           py "content_length" := JInt (Z.of_nat (length content));
           py "created_at" := JStr (now 0) ]} in
      let doc_id := uuid4 0 in
      let '(metadatas, added) :=
        add_documents 1 1 [content] embeddings [metadata] (Some [doc_id]) in
      _ ← added;
      let metadata := default metadata (head metadatas) in
      created_at ← pure (json_item (JDict metadata) (py "created_at"));
      mret (KnowledgeEntry doc_id title category tags created_at).

(** [KnowledgeManager.get_knowledge]. *)
Definition get_knowledge (knowledge_id : str) : traced (option knowledge_item) :=
  traced_try
    (document ← get_document knowledge_id;
     match document with
     | None => mret None
     | Some document =>
         let metadata := sd_metadata document in
         let tags_str := default (JStr []) (metadata !! py "tags") in
         tags_list ← pure (tags_of tags_str);
         mret (Some (KnowledgeItem
                       (sd_id document)
                       (default (JStr (py "无标题")) (metadata !! py "title"))
                       (sd_content document)
                       (default (JStr (py "general")) (metadata !! py "category"))
                       tags_list
                       (default (JInt (Z.of_nat (length (sd_content document))))
                          (metadata !! py "content_length"))
                       (default JNull (metadata !! py "created_at"))
                       (default JNull (metadata !! py "updated_at"))))
     end)
    (fun e => mret None).

(** [KnowledgeManager.update_knowledge]. *)
Definition update_knowledge (knowledge_id : str) (title content category : option str)
    (tags : option (list str)) : traced bool :=
  traced_try
    (existing_doc ← get_document knowledge_id;
     match existing_doc with
     | None => mret false
     | Some existing_doc =>
         let new_content :=
           match content with
           | Some c => if truthy c then c else sd_content existing_doc
           | None => sd_content existing_doc
           end in
         let existing_metadata := sd_metadata existing_doc in
         let existing_tags_str := default (JStr []) (existing_metadata !! py "tags") in
         existing_tags_list ← pure (tags_of existing_tags_str);
         let final_tags := default existing_tags_list tags in
         let tags_str := tags_str_of final_tags in
         let new_metadata : gmap str json :=
           {[ py "title" :=
                str_or title
                  (default (JStr (py "无标题")) (existing_metadata !! py "title"));
              py "category" :=
                str_or category
                  (default (JStr (py "general")) (existing_metadata !! py "category"));
              py "tags" := JStr tags_str;
              py "content_length" := JInt (Z.of_nat (length new_content));
              py "created_at" := default JNull (existing_metadata !! py "created_at");
              py "updated_at" := JStr (now 0) ]} in
         new_embeddings ←
           called (GetEmbeddings [new_content]) (get_embeddings [new_content]);
         new_embedding ←
           (if match content with
               | Some c => truthy c && negb (bool_decide (c = sd_content existing_doc))
               | None => false
               end
            then
              match new_embeddings with
              | [] => pure (Raise (Exception (py "生成新嵌入向量失败")))
              | first :: _ => mret first
              end
            else mret (match new_embeddings with first :: _ => first | [] => [] end));
         update_document 1 knowledge_id new_content new_embedding new_metadata
     end)
    (fun e => mret false).

End KnowledgeBase.

(** Tags that are not empty and contain no comma. *)
Definition plain_tag (tag : str) : Prop := tag <> [] /\ ~ In 44 tag.

(** A collection that holds one document and accepts every write. *)
Definition one_document_collection (id content : str) (metadata : gmap str json)
  : Collection :=
  {| collection_add := fun _ _ _ _ => None;
     collection_get := fun ids => Ok (GetResult [id] (Some [content]) (Some [metadata]));
     collection_update := fun _ _ _ _ => None;
     collection_list := fun _ _ _ =>
       Ok (GetResult [id] (Some [content]) (Some [metadata]));
     collection_count := Ok 1%Z;
     collection_delete := fun _ => None |}.

(** The clock of the examples: its [n]-th reading is ["t"] and the digit
    [n]. *)
Definition example_clock (n : nat) : str := py "t" ++ [48 + N.of_nat n].

(** The metadata of a document added at the second reading of that
    clock. *)
Definition example_metadata : gmap str json :=
  {[ py "title" := JStr (py "T");
     py "category" := JStr (py "general");
     py "tags" := JStr (py "a,b");
     py "content_length" := JInt 4;
     py "created_at" := JStr (py "t1") ]}.

(** *** Listing and deleting *)

(** The dict that [get_collection_stats] returns. *)
Record collection_stats := CollectionStats {
  total_documents : Z;
  collection_name : str;
  persist_directory : str
}.

(** An item of the list that [list_knowledge] returns. *)
Record listed_item := ListedItem {
  li_id : str;
  li_title : json;
  li_content : str;
  li_category : json;
  li_tags : json;
  li_content_length : json;
  li_created_at : json;
  li_updated_at : json
}.

(** What [list_knowledge] returns. *)
Record listing := Listing {
  lp_items : list listed_item;
  lp_total : Z;
  lp_page : Z;
  lp_size : Z;
  lp_pages : Z
}.

(** What [delete_documents] returns; the key [error] is set when the
    deletion has failed. *)
Record delete_result := DeleteResult {
  dr_success : bool;
  dr_deleted_count : nat;
  dr_error : option str
}.

(** What [delete_knowledge_batch] returns. *)
Record batch_result := BatchResult {
  br_success : bool;
  br_deleted_count : nat;
  br_message : str
}.

(** [a // b] on integers. *)
Definition floordiv (a b : Z) : result Z :=
  if (b =? 0)%Z then Raise (Exception (py "integer division or modulo by zero"))
  else Ok (a / b)%Z.

(** The body of the loop of [list_knowledge]. *)
Definition format_listed (doc : stored_document) : listed_item :=
  let metadata := sd_metadata doc in
  ListedItem
    (sd_id doc)
    (default (JStr (py "无标题")) (metadata !! py "title"))
    (if (200 <? length (sd_content doc))%nat
     then take 200 (sd_content doc) ++ py "..."
     else sd_content doc)
    (default (JStr (py "general")) (metadata !! py "category"))
    (default (JList []) (metadata !! py "tags"))
    (default (JInt (Z.of_nat (length (sd_content doc))))
       (metadata !! py "content_length"))
    (default JNull (metadata !! py "created_at"))
    (default JNull (metadata !! py "updated_at")).

Section Listing.

Variable collection : option Collection.
(** [self.persist_directory]. *)
Variable directory : str.

(** The loop [for i in range(len(results["documents"]))] of
    [list_documents], over the indices still to visit. *)
Fixpoint list_rows (results : get_result) (contents : list str)
    (indices : list nat) (documents : list stored_document)
  : result (list stored_document) :=
  match indices with
  | [] => Ok documents
  | i :: rest =>
      id ← list_index (gr_ids results) i;
      content ← list_index contents i;
      metadata ←
        match gr_metadatas results with
        | Some ((_ :: _) as metadatas) => list_index metadatas i
        | _ => Ok ∅
        end;
      list_rows results contents rest
        (documents ++ [StoredDocument id content metadata])
  end.

(** [VectorStore.list_documents]. *)
Definition list_documents (limit offset : Z) (filter_metadata : option (gmap str str))
  : traced (list stored_document) :=
  traced_try
    (c ← require_collection collection;
     results ← called (CollectionList filter_metadata limit offset)
                 (collection_list c filter_metadata limit offset);
     match gr_documents results with
     | Some ((_ :: _) as contents) =>
         pure (list_rows results contents (seq 0 (length contents)) [])
     | _ => mret []
     end)
    (fun e => mret []).

(** [VectorStore.get_collection_stats]. *)
Definition get_collection_stats : traced collection_stats :=
  traced_try
    (c ← require_collection collection;
     count ← called CollectionCount (collection_count c);
     mret (CollectionStats count (py "knowledge_base") directory))
    (fun e => mret (CollectionStats 0 (py "knowledge_base") directory)).

(** [KnowledgeManager.list_knowledge]. *)
Definition list_knowledge (category : option str) (page size : Z) : traced listing :=
  traced_try
    (let offset := ((page - 1) * size)%Z in
     let filter_metadata :=
       match category with
       | Some c => if truthy c then Some {[ py "category" := c ]} else None
       | None => None
       end in
     documents ← list_documents size offset filter_metadata;
     let formatted_docs := map format_listed documents in
     stats ← get_collection_stats;
     let total := total_documents stats in
     pages ← pure (floordiv (total + size - 1) size);
     mret (Listing formatted_docs total page size pages))
    (fun e => mret (Listing [] 0 page size 0)).

(** [VectorStore.delete_documents]. *)
Definition delete_documents (document_ids : list str) : traced delete_result :=
  traced_try
    (c ← require_collection collection;
     match document_ids with
     | [] => mret (DeleteResult false 0 (Some (py "提供的ID列表为空")))
     | _ =>
         _ ← called (CollectionDelete document_ids)
               (unit_result (collection_delete c document_ids));
         mret (DeleteResult true (length document_ids) None)
     end)
    (fun e => mret (DeleteResult false 0 (Some (str_of_exn e)))).

(** [KnowledgeManager.delete_knowledge_batch]. *)
Definition delete_knowledge_batch (knowledge_ids : list str) : traced batch_result :=
  traced_try
    (match knowledge_ids with
     | [] => mret (BatchResult false 0 (py "提供的ID列表为空"))
     | _ =>
         result ← delete_documents knowledge_ids;
         if dr_success result
         then mret (BatchResult true (dr_deleted_count result)
                      (py "成功删除 "
                       ++ str_of_Z (Z.of_nat (dr_deleted_count result))
                       ++ py " 条知识"))
         else mret (BatchResult false 0
                      (py "批量删除失败: "
                       ++ default (py "未知错误") (dr_error result)))
     end)
    (fun e => mret (BatchResult false 0 (py "批量删除失败: " ++ str_of_exn e))).

End Listing.

(** ** The model client: [OllamaClient.chat_stream] *)

(** The body of the request to [/api/chat]; the key [tools] may be
    absent. *)
Record chat_request := ChatRequest {
  req_model : str;
  req_messages : list chat_turn;
  req_stream : bool;
  req_keep_alive : str;
  req_tools : option (list json)
}.

(** The streamed response: its status, the lines that
    [response.aiter_lines()] gives and the exception that ends them, if
    one does. *)
Record stream_response := StreamResponse {
  stream_status : Z;
  stream_lines : list str;
  stream_fails : option exn
}.

(** What the generator yields, and the exception that ends it, if one
    does. A content is yielded as it is decoded, so a chunk is a JSON
    value. *)
Record chunk_stream := ChunkStream {
  cs_chunks : list json;
  cs_raises : option exn
}.

(** How the loop over the lines is left. *)
Inductive line_end :=
| Exhausted
| Broke
| Raised (e : exn).

Section ChatClient.

Variable self : OllamaClient.
(** [client.stream("POST", base_url + "/api/chat", json=request_data)]. *)
Variable post_chat : chat_request -> result stream_response.
(** [json.loads], which raises [JSONDecodeError] on [None], and
    [json.dumps(v, ensure_ascii=False)]. *)
Variable json_loads : str -> option json.
Variable json_dumps : json -> str.
(** The keys of a decoded object in the order of the document, which
    the map does not record. *)
Variable dict_keys : gmap str json -> list str.

(** The values that [for x in v] visits. *)
Definition json_iter (v : json) : result (list json) :=
  match v with
  | JList items => Ok items
  | JStr s => Ok (map (fun c => JStr [c]) s)
  | JDict fields => Ok (map JStr (dict_keys fields))
  | _ => Raise (TypeError (py "'" ++ type_name v ++ py "' object is not iterable"))
  end.

(** The first [if] of the loop body: the content that is yielded. *)
Definition line_content (data : json) : result (list json) :=
  has_message ← json_contains (py "message") data;
  if (has_message : bool) then
    message ← json_item data (py "message");
    has_content ← json_contains (py "content") message;
    if (has_content : bool) then
      content ← json_item message (py "content");
      Ok (if json_truthy content then [content] else [])
    else Ok []
  else Ok [].

(** The second [if]: the tool calls, each yielded as a text. *)
Definition line_tool_calls (data : json) : result (list json) :=
  has_message ← json_contains (py "message") data;
  if (has_message : bool) then
    message ← json_item data (py "message");
    has_tool_calls ← json_contains (py "tool_calls") message;
    if (has_tool_calls : bool) then
      tool_calls ← json_item message (py "tool_calls");
      if json_truthy tool_calls then
        items ← json_iter tool_calls;
        Ok (map (fun tool_call =>
                   JStr (py "<tool_call>" ++ json_dumps tool_call
                         ++ py "</tool_call>"))
              items)
      else Ok []
    else Ok []
  else Ok [].

(** The loop body for a decoded line: what it yields, and whether it
    breaks, goes on or raises. *)
Definition on_line (data : json) : list json * result bool :=
  match line_content data with
  | Raise e => ([], Raise e)
  | Ok contents =>
      match line_tool_calls data with
      | Raise e => (contents, Raise e)
      | Ok tool_calls =>
          (contents ++ tool_calls,
           done ← json_get data (py "done") (JBool false);
           Ok (json_truthy done))
      end
  end.

(** [async for line in response.aiter_lines()]. *)
Fixpoint read_lines (lines : list str) : list json * line_end :=
  match lines with
  | [] => ([], Exhausted)
  | line :: rest =>
      if truthy line then
        match json_loads line with
        | None => read_lines rest
        | Some data =>
            let '(yielded, next) := on_line data in
            match next with
            | Raise e => (yielded, Raised e)
            | Ok true => (yielded, Broke)
            | Ok false =>
                let '(more, ending) := read_lines rest in
                (yielded ++ more, ending)
            end
        end
      else read_lines rest
  end.

(** The request that is sent: the system prompt, when there is one,
    goes first as a message of its own. *)
Definition request_data (messages : list chat_turn) (model system : option str)
    (tools : option (list json)) (keep_alive : str) : chat_request :=
  ChatRequest
    (match model with
     | Some name => if truthy name then name else chat_model self
     | None => chat_model self
     end)
    (match system with
     | Some s => if truthy s then ChatTurn (py "system") s :: messages else messages
     | None => messages
     end)
    true keep_alive
    (match tools with
     | Some (_ :: _) => tools
     | _ => None
     end).

(** [OllamaClient.chat_stream]; its [except] clause logs and raises the
    exception again. *)
Definition client_chat_stream (messages : list chat_turn) (model system : option str)
    (tools : option (list json)) (keep_alive : str) : chunk_stream :=
  match post_chat (request_data messages model system tools keep_alive) with
  | Raise e => ChunkStream [] (Some e)
  | Ok response =>
      if negb (stream_status response =? 200)%Z
      then ChunkStream []
             (Some (Exception (py "Ollama Chat API 错误: "
                               ++ str_of_Z (stream_status response))))
      else
        match read_lines (stream_lines response) with
        | (chunks, Exhausted) => ChunkStream chunks (stream_fails response)
        | (chunks, Broke) => ChunkStream chunks None
        | (chunks, Raised e) => ChunkStream chunks (Some e)
        end
  end.

(** A line that the loop does not skip. *)
Definition decodable (line : str) : bool :=
  truthy line && bool_decide (is_Some (json_loads line)).

End ChatClient.

(** A line of the model as Ollama sends it: an object with a message
    that has a text as content, and the [done] flag. *)
Definition ollama_line (content : str) (done : bool) : json :=
  JDict {[ py "message" := JDict {[ py "role" := JStr (py "assistant");
                                    py "content" := JStr content ]};
           py "done" := JBool done ]}.

(** The chunks of a sequence of such lines: the contents that are not
    empty, up to the first line that is done. *)
Fixpoint ollama_chunks (lines : list (str * bool)) : list str :=
  match lines with
  | [] => []
  | (content, done) :: rest =>
      (if truthy content then [content] else [])
      ++ (if done then [] else ollama_chunks rest)
  end.

(** A decoder for two lines: ["more"] carries a content, ["last"] a
    content and the end of the answer. *)
Definition example_loads (line : str) : option json :=
  if bool_decide (line = py "more") then Some (ollama_line (py "Hel") false)
  else if bool_decide (line = py "last") then Some (ollama_line (py "lo") true)
  else None.

(** ** The endpoints of the knowledge base *)

(** The body of the requests that add or update an item; the defaults
    of the optional fields are ["general"] and the empty list. *)
Record KnowledgeItemBody := {
  item_title : str;
  item_content : str;
  item_category : option str;
  item_tags : option (list str)
}.

(** [except HTTPException: raise] followed by [except Exception as e:
    raise HTTPException(status_code=500, detail=str(e))]. *)
Definition http_errors {A} (body : traced A) : traced A :=
  match outcome body with
  | Ok _ => body
  | Raise (HTTPException _ _) => body
  | Raise e => Traced (calls body) (Raise (HTTPException 500 (str_of_exn e)))
  end.

(** [except Exception as e: raise HTTPException(status_code=500,
    detail=str(e))] alone. *)
Definition http_500 {A} (body : traced A) : traced A :=
  match outcome body with
  | Ok _ => body
  | Raise e => Traced (calls body) (Raise (HTTPException 500 (str_of_exn e)))
  end.

Section KnowledgeEndpoints.

Variable collection : option Collection.
Variable get_embeddings : list str -> result (list (list float)).
Variable now : nat -> str.
Variable uuid4 : nat -> str.

(** [POST /api/knowledge]. *)
Definition add_knowledge_endpoint (item : KnowledgeItemBody) : traced knowledge_entry :=
  http_500
    (add_knowledge collection get_embeddings now uuid4
       (item_title item) (item_content item)
       (match item_category item with
        | Some c => if truthy c then c else py "general"
        | None => py "general"
        end)
       (match item_tags item with
        | Some (_ :: _) => item_tags item
        | _ => Some []
        end)).

(** [GET /api/knowledge/{item_id}]. *)
Definition get_knowledge_endpoint (item_id : str) : traced knowledge_item :=
  http_errors
    (result ← get_knowledge collection item_id;
     match result with
     | None => pure (Raise (HTTPException 404 (py "知识库条目不存在")))
     | Some item => mret item
     end).

(** [PUT /api/knowledge/{item_id}]. The collection is one mutable
    object: [collection.update] changes what it returns afterwards, so
    the item of the answer is read from the collection as the update
    left it, [after_update c] for the collection [c] the update was
    made on. *)
Definition update_knowledge_endpoint (after_update : Collection -> Collection)
    (item_id : str) (item : KnowledgeItemBody)
  : traced (option knowledge_item) :=
  http_errors
    (success ← update_knowledge collection get_embeddings now item_id
                 (Some (item_title item)) (Some (item_content item))
                 (item_category item) (item_tags item);
     if negb success
     then pure (Raise (HTTPException 404 (py "知识库条目不存在或更新失败")))
     else get_knowledge (after_update <$> collection) item_id).

End KnowledgeEndpoints.

(** ** Web pages: [WebScraper] and [parse_web_url] *)

(** The cleaning of the text of a page at the end of
    [WebScraper._extract_content]: the lines are trimmed, those of at
    most ten characters are dropped, and the text is cut to 5000
    characters with an ellipsis. *)
Definition clean_text (text_content : str) : str :=
  let lines := split_char 10 text_content in
  let cleaned_lines :=
    List.filter (fun line => truthy line && (10 <? length line)%nat)
      (map strip lines) in
  let content := str_join nl cleaned_lines in
  if (5000 <? length content)%nat then take 5000 content ++ py "..." else content.

(** The note that [scrape_url] adds to a content of less than 100
    characters when the description is missing or shorter than ten. *)
Definition with_short_note (content description : str) : str :=
  if (length content <? 100)%nat
     && (negb (truthy description) || (length description <? 10)%nat)
  then content ++ nl ++ nl
       ++ py "注意：内容提取可能不完整，该网站可能限制了自动内容抓取。建议直接从浏览器打开链接并手动复制内容。"
  else content.

(** The dict that [scrape_url] returns; all its values are strings. *)
Record scraped_page := ScrapedPage {
  page_url : str;
  page_title : str;
  page_description : str;
  page_content : str;
  page_keywords : str;
  page_domain : str
}.

(** The end of [scrape_url], from what the parser has extracted: the
    title, the description, the text of the content element and the
    keywords. *)
Definition scraped (url domain title description text_content keywords : str)
  : scraped_page :=
  ScrapedPage url title description
    (with_short_note (clean_text text_content) description)
    keywords domain.

(** The body of the request to [/api/web/parse]. *)
Record WebUrlRequest := {
  web_url : str;
  web_category : option str;
  auto_add_to_knowledge : option bool
}.

(** The answer of [/api/web/parse]; [knowledge_id] and the detail of
    [error] are present in some answers only. *)
Record parse_response := ParseResponse {
  pr_success : bool;
  pr_data : scraped_page;
  pr_message : str;
  pr_knowledge_id : option str;
  pr_error : option str
}.

(** [final_content]: the source, the summary and the keywords when
    there are any, a rule, and the content or a sentence in its
    place. *)
Definition final_content (scraped_data : scraped_page) : str :=
  str_join (nl ++ nl)
    ([py "📄 来源：" ++ page_url scraped_data]
     ++ (if truthy (page_description scraped_data)
         then [py "📝 摘要：" ++ page_description scraped_data] else [])
     ++ (if truthy (page_keywords scraped_data)
         then [py "🔖 关键词：" ++ page_keywords scraped_data] else [])
     ++ [replicate 50 61]
     ++ [if truthy (page_content scraped_data) then page_content scraped_data
         else py "该网页暂无可提取的文本内容，但已保存基本信息供参考。"]).

(** The tags of a page that is added to the knowledge base. *)
Definition web_tags (scraped_data : scraped_page) (category : option str) : list str :=
  [py "网页内容"]
  ++ (if truthy (page_domain scraped_data) then [page_domain scraped_data] else [])
  ++ (match category with
      | Some c =>
          if truthy c && negb (bool_decide (c = py "web_content")) then [c] else []
      | None => []
      end).

Section WebParse.

Variable collection : option Collection.
Variable get_embeddings : list str -> result (list (list float)).
Variable now : nat -> str.
Variable uuid4 : nat -> str.
(** [web_scraper.validate_url] and [web_scraper.scrape_url]. *)
Variable validate_url : str -> bool.
Variable scrape_url : str -> result scraped_page.

(** [parse_web_url]. The values of the scraped dict are strings, so
    that the [isinstance] tests of the handler hold. *)
Definition parse_web_url (request : WebUrlRequest) : traced parse_response :=
  http_errors
    (if negb (validate_url (web_url request))
     then pure (Raise (HTTPException 400 (py "无效的URL格式")))
     else
       scraped_data ← pure (scrape_url (web_url request));
       let auto_add :=
         match auto_add_to_knowledge request with Some true => true | _ => false end in
       if auto_add then
         let title := page_title scraped_data in
         let domain := page_domain scraped_data in
         let added :=
           add_knowledge collection get_embeddings now uuid4
             (if bool_decide (title = py "网页内容")
              then py "网页内容 - " ++ domain else title)
             (final_content scraped_data)
             (match web_category request with
              | Some c => if truthy c then c else py "web_content"
              | None => py "web_content"
              end)
             (Some (web_tags scraped_data (web_category request))) in
         match outcome added with
         | Raise ke =>
             Traced (calls added)
               (Ok (ParseResponse true scraped_data
                      (py "网页解析成功，但添加到知识库失败: " ++ str_of_exn ke)
                      None (Some (str_of_exn ke))))
         | Ok result =>
             let knowledge_id := ke_id result in
             Traced (calls added)
               (Ok (ParseResponse true scraped_data
                      (py "网页解析成功"
                       ++ (if truthy knowledge_id then py "，已添加到知识库" else []))
                      (if truthy knowledge_id then Some knowledge_id else None)
                      None))
         end
       else
         mret (ParseResponse true scraped_data (py "网页解析成功") None None)).

End WebParse.

(** A page with a title and a short text. *)
Definition example_page : scraped_page :=
  scraped (py "http://example.org/") (py "example.org") (py "Example") []
    (py "a line of the page") [].

(** ** Uploading a file: [KnowledgeManager.upload_file] *)

(** [s.endswith(suffix)]. *)
Definition endswith (suffix s : str) : bool := startswith (rev suffix) (rev s).

(** What [upload_file] returns. *)
Record upload_result := UploadResult {
  up_count : nat;
  up_filename : str
}.

(** The documents of the calls that add to the collection, in order. *)
Definition added_documents (cs : list store_call) : list str :=
  concat (map (fun c => match c with
                        | CollectionAdd documents _ _ _ => documents
                        | _ => []
                        end) cs).

Section Upload.

Variable collection : option Collection.
Variable get_embeddings : list str -> result (list (list float)).
Variable now : nat -> str.
Variable uuid4 : nat -> str.
(** [str.lower], the exception of [file.read()] if it raises one,
    [content.decode('utf-8')] and the parsers of the other file types,
    which return no text when they fail. *)
Variable lower : str -> str.
Variable read_fails : option exn.
Variable decode_utf8 : result str.
Variable _parse_pdf _parse_docx _parse_excel _parse_json : list str.

(** The loop [for i, text in enumerate(texts)], from the text of index
    [i] on, after [count] texts have been added; every call of
    [add_knowledge] reads the clock twice and draws one identifier. *)
Fixpoint upload_texts (filename : str) (texts : list str) (i count : nat)
  : traced nat :=
  match texts with
  | [] => mret count
  | text :: rest =>
      if truthy (strip text) then
        _ ← add_knowledge collection get_embeddings
              (fun n => now (2 * count + n)%nat) (fun n => uuid4 (count + n)%nat)
              (filename ++ py " - 片段 " ++ str_of_Z (Z.of_nat i + 1))
              (strip text) (py "uploaded") (Some [py "uploaded"; filename]);
        upload_texts filename rest (S i) (S count)
      else upload_texts filename rest (S i) count
  end.

(** [upload_file]; its [except] clause logs and raises the exception
    again. *)
Definition upload_file (filename : option str) : traced upload_result :=
  match filename with
  | Some ((_ :: _) as name) =>
      _ ← pure (unit_result read_fails);
      let lowered := lower name in
      texts ←
        pure (if endswith (py ".txt") lowered then
                text ← decode_utf8; Ok [text]
              else if endswith (py ".pdf") lowered then Ok _parse_pdf
              else if endswith (py ".docx") lowered then Ok _parse_docx
              else if endswith (py ".xlsx") lowered || endswith (py ".xls") lowered
                   then Ok _parse_excel
              else if endswith (py ".json") lowered then Ok _parse_json
              else Raise (ValueError (py "不支持的文件类型: " ++ lowered)));
      count ← upload_texts name texts 0 0;
      mret (UploadResult count name)
  | _ => pure (Raise (ValueError (py "文件名不能为空")))
  end.

End Upload.

(** * Properties *)

(** ** Strings *)

(** The literals are decoded into code points: one, two, three and four
    bytes. *)
Lemma py_decodes_utf8 :
  py "A<" = [65; 60] /\ py "é" = [233] /\ py "• " = [8226; 32]
  /\ py "生成" = [29983; 25104] /\ py "😀" = [128512].
Proof. vm_compute. repeat split. Qed.

Lemma truthy_rev (s : str) : truthy (rev s) = truthy s.
Proof.
  destruct s as [|c s]; [reflexivity|]. simpl.
  destruct (rev s ++ [c]) eqn:E; [|reflexivity].
  apply app_eq_nil in E as [_ [=]].
Qed.

Lemma truthy_lstrip (s : str) : truthy (lstrip s) = negb (forallb isspace s).
Proof.
  induction s as [|c s IH]; [reflexivity|]. simpl.
  destruct (isspace c); [exact IH|reflexivity].
Qed.

Lemma forallb_isspace_lstrip (s : str) :
  forallb isspace (lstrip s) = forallb isspace s.
Proof.
  induction s as [|c s IH]; [reflexivity|]. simpl.
  destruct (isspace c) eqn:E; [exact IH|]. simpl. rewrite E. reflexivity.
Qed.

Lemma forallb_rev {A} (f : A -> bool) (l : list A) :
  forallb f (rev l) = forallb f l.
Proof.
  induction l as [|a l IH]; [reflexivity|]. simpl.
  rewrite forallb_app, IH. simpl. rewrite andb_true_r. apply andb_comm.
Qed.

(** A string survives [strip()] exactly when it has a character that is
    not white space. *)
Lemma visible_spec (s : str) : visible s = negb (forallb isspace s).
Proof.
  unfold visible, strip, rstrip.
  rewrite truthy_rev, truthy_lstrip, forallb_rev. f_equal.
  apply forallb_isspace_lstrip.
Qed.

Lemma visible_char (s : str) :
  visible s = true <-> exists c, In c s /\ isspace c = false.
Proof.
  rewrite visible_spec, negb_true_iff. split.
  - intros H. induction s as [|c s IH]; [discriminate|].
    simpl in H. destruct (isspace c) eqn:E.
    + destruct (IH H) as (c' & Hin & Hc'). exists c'. split; [now right|exact Hc'].
    + exists c. split; [now left|exact E].
  - intros (c & Hin & Hc). destruct (forallb isspace s) eqn:E; [|reflexivity].
    rewrite forallb_forall in E. rewrite (E c Hin) in Hc. discriminate.
Qed.

Lemma visible_char_chunk (c : char) : visible [c] = negb (isspace c).
Proof. rewrite visible_spec. simpl. now rewrite andb_true_r. Qed.

Lemma str_in_find sep s : str_in sep s = bool_decide (is_Some (find sep s)).
Proof.
  unfold str_in. destruct (find sep s).
  - symmetry. apply bool_decide_eq_true. eauto.
  - symmetry. apply bool_decide_eq_false. intros [? [=]].
Qed.

Lemma str_in_true sep s i : find sep s = Some i -> str_in sep s = true.
Proof. unfold str_in. now intros ->. Qed.

Lemma str_in_false sep s : find sep s = None -> str_in sep s = false.
Proof. unfold str_in. now intros ->. Qed.

Lemma str_in_split1 sep s :
  str_in sep s = true ->
  exists i, find sep s = Some i /\
            unpack2 (split1 sep s) = Ok (take i s, drop (i + length sep) s).
Proof.
  unfold str_in, split1. destruct (find sep s) as [i|]; [|discriminate].
  intros _. exists i. split; reflexivity.
Qed.

Lemma startswith_marker_char marker (c : char) :
  (1 < length marker)%nat -> startswith marker [c] = false.
Proof.
  destruct marker as [|a [|b marker]]; simpl; intros H; [lia..|].
  apply andb_false_r.
Qed.

Lemma str_in_char marker (c : char) :
  (1 < length marker)%nat -> str_in marker [c] = false.
Proof.
  intros H. unfold str_in. simpl.
  rewrite (startswith_marker_char _ _ H).
  destruct marker; [simpl in H; lia|reflexivity].
Qed.

(** *** First occurrences *)

Lemma startswith_spec (p s : str) : startswith p s = true <-> exists r, s = p ++ r.
Proof.
  revert s. induction p as [|a p IH]; intros s; simpl.
  - split; [intros _; now exists s|reflexivity].
  - destruct s as [|b s].
    + split; [discriminate|]. intros [r [=]].
    + rewrite andb_true_iff, N.eqb_eq, IH. split.
      * intros [-> [r ->]]. now exists r.
      * intros [r [= -> ->]]. split; [reflexivity|now exists r].
Qed.

Lemma startswith_app (p r : str) : startswith p (p ++ r) = true.
Proof. apply startswith_spec. now exists r. Qed.

(** A marker whose first character does not occur again in it cannot
    overlap itself, so behind a text that does not contain it, its first
    occurrence is where the text ends. *)
Lemma find_behind (c : char) (p' a b : str) :
  ~ In c p' -> find (c :: p') a = None ->
  find (c :: p') (a ++ (c :: p') ++ b) = Some (length a).
Proof.
  intros Hc. induction a as [|x a IH]; intros Hf.
  - change (find (c :: p') ((c :: p') ++ b) = Some 0%nat).
    destruct p'; simpl; rewrite N.eqb_refl; [reflexivity|].
    simpl. now rewrite N.eqb_refl, startswith_app.
  - cbn [find] in Hf. destruct (startswith (c :: p') (x :: a)) eqn:Hs; [discriminate|].
    destruct (find (c :: p') a) eqn:Hfa; [discriminate|].
    change ((x :: a) ++ (c :: p') ++ b) with (x :: (a ++ (c :: p') ++ b)).
    cbn [find].
    destruct (startswith (c :: p') (x :: a ++ (c :: p') ++ b)) eqn:Hs'.
    + exfalso. apply startswith_spec in Hs' as [r Hr].
      change (x :: a ++ (c :: p') ++ b) with ((x :: a) ++ (c :: p') ++ b) in Hr.
      symmetry in Hr. apply app_eq_app in Hr as [l [[Hp Hl]|[Hs1 _]]].
      * destruct l as [|y l].
        -- rewrite app_nil_r in Hp. rewrite <- Hp in Hs.
           assert (startswith (c :: p') (c :: p') = true) as Hs2
             by (apply startswith_spec; exists []; now rewrite app_nil_r).
           congruence.
        -- injection Hp as _ Hp'. injection Hl as Hy _. subst y.
           apply Hc. rewrite Hp'. apply in_or_app. right. now left.
      * assert (startswith (c :: p') (x :: a) = true) as Hs2
          by (apply startswith_spec; eauto).
        congruence.
    + rewrite (IH eq_refl). reflexivity.
Qed.

Lemma find_behind_OPEN (a b : str) :
  str_in OPEN a = false -> find OPEN (a ++ OPEN ++ b) = Some (length a).
Proof.
  intros H. unfold str_in in H. destruct (find OPEN a) eqn:Hf; [discriminate|].
  apply find_behind; [|exact Hf]. vm_compute. intuition discriminate.
Qed.

Lemma find_behind_CLOSE (a b : str) :
  str_in CLOSE a = false -> find CLOSE (a ++ CLOSE ++ b) = Some (length a).
Proof.
  intros H. unfold str_in in H. destruct (find CLOSE a) eqn:Hf; [discriminate|].
  apply find_behind; [|exact Hf]. vm_compute. intuition discriminate.
Qed.

(** [find] returns an occurrence. *)
Lemma find_occurrence (p s : str) (i : nat) :
  find p s = Some i -> exists r, s = take i s ++ p ++ r.
Proof.
  revert i. induction s as [|x s IH]; intros i; cbn [find].
  - destruct (startswith p []) eqn:Hs; [|discriminate]. intros [= <-].
    apply startswith_spec in Hs as [r Hr]. now exists r.
  - destruct (startswith p (x :: s)) eqn:Hs.
    + intros [= <-]. apply startswith_spec in Hs as [r Hr]. now exists r.
    + destruct (find p s) as [j|]; [|discriminate]. intros [= <-].
      destruct (IH j eq_refl) as [r Hr]. exists r. cbn [take app]. now f_equal.
Qed.

(** [find] returns the first occurrence. *)
Lemma find_first (p u r : str) : exists i, find p (u ++ p ++ r) = Some i /\ (i <= length u)%nat.
Proof.
  induction u as [|x u (i & Hi & Hle)].
  - exists 0%nat. cbn [app]. destruct (p ++ r) eqn:E; cbn [find];
      rewrite <- E, startswith_app; split; (reflexivity || (simpl; lia)).
  - cbn [app find]. destruct (startswith p (x :: u ++ p ++ r)).
    + exists 0%nat. split; [reflexivity|simpl; lia].
    + exists (S i). rewrite Hi. split; [reflexivity|simpl; lia].
Qed.

(** A text that ends with its first closing marker has no closing marker
    in any shorter prefix. *)
Lemma closing_marker_completes (B text rest : str) :
  str_in CLOSE B = false -> text ++ rest = B ++ CLOSE ->
  str_in CLOSE text = true -> rest = [] /\ text = B ++ CLOSE.
Proof.
  intros HB Hfull Hin. unfold str_in in Hin.
  destruct (find CLOSE text) as [i|] eqn:Hf; [|discriminate].
  destruct (find_occurrence _ _ _ Hf) as [r Hr].
  pose proof (find_behind_CLOSE B [] HB) as Hfirst. rewrite app_nil_r in Hfirst.
  destruct (find_first CLOSE (take i text) (r ++ rest)) as (j & Hj & Hle).
  assert (Hsame : take i text ++ CLOSE ++ r ++ rest = B ++ CLOSE).
  { rewrite <- Hfull.
    transitivity ((take i text ++ CLOSE ++ r) ++ rest);
      [now rewrite <- !app_assoc|now rewrite <- Hr]. }
  rewrite Hsame, Hfirst in Hj. injection Hj as <-.
  apply (f_equal (@length _)) in Hsame. rewrite !length_app in Hsame.
  assert (rest = []) as -> by (destruct rest; [reflexivity|simpl in Hsame; lia]).
  split; [reflexivity|]. now rewrite app_nil_r in Hfull.
Qed.

(** ** The loop of the segmenter *)

(** The guards of the loop keep the unpacking of [split] from raising. *)
Lemma scan_ok in_thinking current_text parts thinking_buffer :
  exists lv, scan in_thinking current_text parts thinking_buffer = Ok lv.
Proof.
  funelim (scan in_thinking current_text parts thinking_buffer).
  all: try (eexists; reflexivity).
  all: try assumption.
  all: match goal with
       | Hc : _ && str_in ?sep ?s = true, Hr : unpack2 (split1 ?sep ?s) = Raise _ |- _ =>
           apply andb_true_iff in Hc as [_ Hc];
           destruct (str_in_split1 _ _ Hc) as (i & _ & Hu); congruence
       end.
Qed.

(** One turn of the loop, read off the first occurrence of the marker the
    current state looks for: outside a reasoning block only the opening
    marker counts (a stray closing marker is plain text), inside only the
    closing one; a text without that marker ends the loop. *)
Lemma scan_turn in_thinking current_text parts thinking_buffer :
  scan in_thinking current_text parts thinking_buffer =
  if in_thinking then
    match find CLOSE current_text with
    | Some i =>
        scan false (drop (i + length CLOSE) current_text) parts thinking_buffer
    | None => Ok (LoopVars true [] parts current_text)
    end
  else
    match find OPEN current_text with
    | Some i =>
        scan true (drop (i + length OPEN) current_text)
          (append_if_visible parts (take i current_text)) thinking_buffer
    | None => Ok (LoopVars false current_text parts thinking_buffer)
    end.
Proof.
  destruct in_thinking.
  - destruct (find CLOSE current_text) as [i|] eqn:Hf.
    + pose proof (str_in_true _ _ _ Hf) as Hc.
      funelim (scan true current_text parts thinking_buffer); try congruence.
      all: rewrite ?Hc, ?orb_true_r in *; cbn [negb andb orb] in *; try discriminate.
      all: destruct (str_in_split1 _ _ Hc) as (j & Hj & Hu); congruence.
    + pose proof (str_in_false _ _ Hf) as Hc. scan_simp. reflexivity.
  - destruct (find OPEN current_text) as [i|] eqn:Hf.
    + pose proof (str_in_true _ _ _ Hf) as Ho.
      funelim (scan false current_text parts thinking_buffer); try congruence.
      all: rewrite ?Ho in *; cbn [negb andb orb] in *; try discriminate.
      all: destruct (str_in_split1 _ _ Ho) as (j & Hj & Hu); congruence.
    + pose proof (str_in_false _ _ Hf) as Ho.
      destruct (str_in CLOSE current_text) eqn:Hc; scan_simp; reflexivity.
Qed.

(** The loop ends either outside a reasoning block, with the pending
    buffer as it found it, or inside one, with the rest of the text held
    back. The fragments are only ever appended to. *)
Lemma scan_result in_thinking current_text parts thinking_buffer lv :
  scan in_thinking current_text parts thinking_buffer = Ok lv ->
  (lv_in_thinking lv = false /\ lv_thinking_buffer lv = thinking_buffer)
  \/ (lv_in_thinking lv = true /\ lv_current_text lv = []).
Proof.
  funelim (scan in_thinking current_text parts thinking_buffer);
    try discriminate; try (intros [= <-]; simpl; tauto).
  all: try match goal with IH : forall lv, _ -> _ |- _ => exact (IH lv) end.
  apply orb_false_iff in Heq as [_ ->]. intros [= <-]. simpl. tauto.
Qed.

(** ** One chunk *)

Lemma on_chunk_inv st chunk :
  exists lv sent,
    scan (in_thinking st) (thinking_buffer st ++ chunk) [] [] = Ok lv /\
    Forall (fun part => visible part = true) sent /\
    on_chunk st chunk
    = Ok (SegState (response_content st ++ concat sent)
            (lv_in_thinking lv) (lv_thinking_buffer lv),
          map (fun part => Data part false) sent).
Proof.
  destruct (scan_ok (in_thinking st) (thinking_buffer st ++ chunk) [] []) as [lv Hlv].
  unfold on_chunk. rewrite Hlv. cbn.
  eexists lv, _. split; [reflexivity|]. split; [|reflexivity].
  apply Forall_forall. intros part Hin. apply list_elem_of_In, filter_In in Hin. tauto.
Qed.

Lemma on_chunk_ok st chunk : exists st' evs, on_chunk st chunk = Ok (st', evs).
Proof. destruct (on_chunk_inv st chunk) as (lv & sent & _ & _ & ->). eauto. Qed.

Lemma on_chunk_fragments st chunk st' evs :
  on_chunk st chunk = Ok (st', evs) -> Forall fragment evs.
Proof.
  destruct (on_chunk_inv st chunk) as (lv & sent & _ & Hv & ->). intros [= _ <-].
  induction Hv as [|part sent Hpart _ IH]; constructor; [|exact IH].
  exists part. split; [reflexivity|exact Hpart].
Qed.

Lemma on_chunk_buffer_inv st chunk st' evs :
  on_chunk st chunk = Ok (st', evs) -> buffer_inv st'.
Proof.
  destruct (on_chunk_inv st chunk) as (lv & sent & Hlv & _ & ->). intros [= <- _].
  unfold buffer_inv. simpl. apply scan_result in Hlv as [[_ ->]|[-> _]]; tauto.
Qed.

(** Outside a reasoning block, a chunk without a whole opening marker is
    forwarded as it is when it is visible, dropped when it is blank, and
    nothing of it is held back. *)
Lemma on_chunk_outside response chunk :
  str_in OPEN chunk = false ->
  on_chunk (SegState response false []) chunk
  = Ok (SegState (response ++ (if visible chunk then chunk else [])) false [],
        if visible chunk then [Data chunk false] else []).
Proof.
  intros Ho. unfold on_chunk. cbn [thinking_buffer in_thinking response_content app].
  rewrite scan_turn. unfold str_in in Ho.
  destruct (find OPEN chunk); [discriminate|]. cbn.
  destruct chunk as [|c chunk']; [reflexivity|]. cbn.
  destruct (visible (c :: chunk')); cbn; rewrite ?app_nil_r; reflexivity.
Qed.

Lemma on_chunk_visible response chunk :
  visible chunk = true -> str_in OPEN chunk = false ->
  on_chunk (SegState response false []) chunk
  = Ok (SegState (response ++ chunk) false [], [Data chunk false]).
Proof. intros Hv Ho. rewrite (on_chunk_outside _ _ Ho), Hv. reflexivity. Qed.

(** Outside a reasoning block, a chunk that opens one: the text before
    the marker is sent when it is visible, the text behind it is held
    back as long as no closing marker is in it. *)
Lemma on_chunk_opening response before inside :
  str_in OPEN before = false -> str_in CLOSE inside = false ->
  on_chunk (SegState response false []) (before ++ OPEN ++ inside)
  = Ok (SegState (response ++ (if visible before then before else [])) true inside,
        if visible before then [Data before false] else []).
Proof.
  intros Ho Hc. unfold on_chunk. cbn [thinking_buffer in_thinking response_content app].
  rewrite scan_turn, (find_behind_OPEN _ _ Ho).
  rewrite take_app_length, <- drop_drop, !drop_app_length.
  rewrite scan_turn. unfold str_in in Hc. destruct (find CLOSE inside); [discriminate|].
  cbn. unfold append_if_visible. fold (visible before).
  destruct (visible before) eqn:Hv; cbn; rewrite ?Hv; cbn; rewrite ?app_nil_r;
    reflexivity.
Qed.

Lemma on_chunk_marker response inside :
  str_in CLOSE inside = false ->
  on_chunk (SegState response false []) (OPEN ++ inside)
  = Ok (SegState response true inside, []).
Proof.
  intros Hc. pose proof (on_chunk_opening response [] inside eq_refl Hc) as H.
  cbn [app] in H. rewrite H. change (visible []) with false. cbv iota.
  now rewrite app_nil_r.
Qed.

(** Inside a reasoning block, a chunk that brings no closing marker is
    added to the pending buffer and nothing is sent. *)
Lemma on_chunk_inside response buffer chunk :
  str_in CLOSE (buffer ++ chunk) = false ->
  on_chunk (SegState response true buffer) chunk
  = Ok (SegState response true (buffer ++ chunk), []).
Proof.
  intros Hc. unfold on_chunk. cbn [thinking_buffer in_thinking response_content].
  rewrite scan_turn. unfold str_in in Hc.
  destruct (find CLOSE (buffer ++ chunk)); [discriminate|].
  cbn. now rewrite app_nil_r.
Qed.

(** ** The whole stream *)

(** The loop over the chunks never raises by itself; it yields fragments
    only, and keeps the pending buffer empty outside reasoning blocks. *)
Lemma drain_inv st chunks :
  exists frags st',
    drain st chunks = (frags, Ok st') /\ Forall fragment frags /\
    (buffer_inv st -> buffer_inv st').
Proof.
  revert st. induction chunks as [|chunk rest IH]; intros st; simpl.
  - exists [], st. repeat split; [constructor|tauto].
  - destruct (on_chunk_ok st chunk) as (st1 & evs & Hst1). rewrite Hst1.
    destruct (IH st1) as (frags & st' & -> & Hfr & Hinv).
    exists (evs ++ frags), st'. split; [reflexivity|]. split.
    + apply Forall_app. split; [eapply on_chunk_fragments; eassumption|exact Hfr].
    + intros _. apply Hinv. eapply on_chunk_buffer_inv; eassumption.
Qed.

Lemma generate_shape up :
  exists frags st,
    drain initial_state (up_chunks up) = (frags, Ok st) /\
    Forall fragment frags /\ buffer_inv st /\
    generate up = frags ++ [terminal up].
Proof.
  destruct (drain_inv initial_state (up_chunks up)) as (frags & st & Hd & Hfr & Hinv).
  exists frags, st. split; [exact Hd|]. split; [exact Hfr|].
  split; [apply Hinv; right; reflexivity|].
  unfold generate, run, terminal. rewrite Hd.
  destruct (up_raises up); reflexivity.
Qed.

(** Chunks without a whole opening marker, met outside a reasoning block,
    go through one by one; the blank ones are dropped. *)
Lemma drain_outside response chunks :
  Forall (fun chunk => str_in OPEN chunk = false) chunks ->
  drain (SegState response false []) chunks
  = (map (fun chunk => Data chunk false) (List.filter visible chunks),
     Ok (SegState (response ++ concat (List.filter visible chunks)) false [])).
Proof.
  intros H. revert response.
  induction H as [|chunk rest Hc _ IH]; intros response; simpl.
  - rewrite app_nil_r. reflexivity.
  - rewrite (on_chunk_outside _ _ Hc), IH.
    destruct (visible chunk); simpl; rewrite ?app_nil_r, <- ?app_assoc; reflexivity.
Qed.

Lemma contents_fragments (chunks : list str) :
  contents (map (fun chunk => Data chunk false) chunks) = concat chunks.
Proof.
  unfold contents. rewrite map_map. induction chunks; simpl; congruence.
Qed.

Lemma contents_app evs1 evs2 : contents (evs1 ++ evs2) = contents evs1 ++ contents evs2.
Proof. unfold contents. rewrite map_app. apply concat_app. Qed.

Lemma filter_visible_chars (text : str) :
  List.filter visible (chars text)
  = chars (List.filter (fun c => negb (isspace c)) text).
Proof.
  induction text as [|c text IH]; [reflexivity|]. simpl.
  rewrite visible_char_chunk, IH. destruct (isspace c); reflexivity.
Qed.

Lemma concat_chars (text : str) : concat (chars text) = text.
Proof. induction text; simpl; congruence. Qed.

Lemma chars_no_open (text : str) :
  Forall (fun chunk => str_in OPEN chunk = false) (chars text).
Proof.
  apply Forall_map, Forall_forall. intros c _.
  apply str_in_char. vm_compute. lia.
Qed.

Lemma concat_nil_inv (chunks : list str) :
  concat chunks = [] -> Forall (fun chunk => chunk = []) chunks.
Proof.
  induction chunks as [|c rest IH]; [constructor|]. simpl. intros H.
  apply app_eq_nil in H as [-> H]. constructor; [reflexivity|now apply IH].
Qed.

Lemma drain_empty_chunks response chunks :
  Forall (fun chunk => chunk = []) chunks ->
  drain (SegState response false []) chunks = ([], Ok (SegState response false [])).
Proof.
  intros H. rewrite drain_outside.
  - induction H as [|c rest -> _ IH]; simpl; [now rewrite app_nil_r|].
    change (visible []) with false. cbv iota. exact IH.
  - eapply Forall_impl; [exact H|]. intros c ->. reflexivity.
Qed.

(** Inside a reasoning block the text is held back until the closing
    marker is whole, so the marker is found however it is split over the
    chunks: nothing is sent, and the block is left. *)
Lemma drain_closing_any_split (B : str) response buffer chunks :
  str_in CLOSE B = false -> str_in CLOSE buffer = false ->
  buffer ++ concat chunks = B ++ CLOSE ->
  drain (SegState response true buffer) chunks
  = ([], Ok (SegState response false [])).
Proof.
  intros HB. revert buffer. induction chunks as [|chunk rest IH]; intros buffer Hbuf Hfull.
  - simpl in Hfull. rewrite app_nil_r in Hfull. subst buffer.
    pose proof (find_behind_CLOSE B [] HB) as Hf. rewrite app_nil_r in Hf.
    rewrite (str_in_true _ _ _ Hf) in Hbuf. discriminate.
  - cbn [concat] in Hfull. rewrite app_assoc in Hfull. cbn [drain].
    destruct (str_in CLOSE (buffer ++ chunk)) eqn:Hin.
    + destruct (closing_marker_completes _ _ _ HB Hfull Hin) as [Hrest Htext].
      assert (Hstep : on_chunk (SegState response true buffer) chunk
                      = Ok (SegState response false [], [])).
      { unfold on_chunk. cbn [thinking_buffer in_thinking response_content].
        rewrite Htext, scan_turn.
        pose proof (find_behind_CLOSE B [] HB) as Hf. rewrite app_nil_r in Hf.
        rewrite Hf, <- drop_drop, drop_app_length, drop_all.
        rewrite scan_turn. change (find OPEN []) with (@None nat).
        cbn. now rewrite app_nil_r. }
      rewrite Hstep, (drain_empty_chunks _ _ (concat_nil_inv _ Hrest)). reflexivity.
    + rewrite (on_chunk_inside _ _ _ Hin), (IH _ Hin Hfull). reflexivity.
Qed.

(** ** The claims on the plain-chat stream *)

(** C1. The plain-chat generator yields the same fragments whether the
    upstream ends or raises. When the upstream ends, the completion event
    [done = true] follows them, once and last. When the upstream raises,
    exactly one error event follows them, carrying the readable message,
    and the stream stops there: no completion event is sent after the
    error, against what the claim requires. So for an upstream that
    yields ["partial"] and then raises, the stream is the fragment and
    the error event, and nothing else. *)
Theorem C1_error_ends_without_completion :
  generate (Upstream [py "partial"] (Some (Exception (py "connection lost"))))
  = [Data (py "partial") false;
     ErrorEvent (py "生成响应时出错: connection lost")]
  /\ forall (chunks : list str) (e : exn),
       exists frags,
         Forall fragment frags /\
         generate (Upstream chunks None) = frags ++ [Data [] true] /\
         generate (Upstream chunks (Some e))
         = frags ++ [ErrorEvent (py "生成响应时出错: " ++ str_of_exn e)] /\
         Forall (fun ev => is_done ev = false)
           (generate (Upstream chunks (Some e))).
Proof.
  split; [vm_compute; reflexivity|]. intros chunks e.
  destruct (generate_shape (Upstream chunks None)) as (frags & st & Hd & Hfr & _ & Hn).
  destruct (generate_shape (Upstream chunks (Some e))) as (frags' & st' & Hd' & _ & _ & He).
  simpl in Hd, Hd'. rewrite Hd in Hd'. injection Hd' as <- <-.
  exists frags. split; [exact Hfr|]. split; [exact Hn|]. split; [exact He|].
  rewrite He. apply Forall_app. split.
  - eapply Forall_impl; [exact Hfr|]. intros ev (c & -> & _). reflexivity.
  - constructor; [reflexivity|constructor].
Qed.

(** C2. The opening marker is seen only when the whole of it lies in one
    chunk, so the stream depends on how the upstream cuts it: sent one
    character per chunk, ["<think>"] comes out as seven visible fragments
    and the state stays outside, while sent as one chunk it yields
    nothing and enters the reasoning block; and a reasoning block whose
    opening marker is cut in two is sent to the client, markers and all.
    Outside a reasoning block nothing is ever held back: a chunk without
    a whole ["<think>"] is sent as it is when it is not blank, a suffix
    that is a proper prefix of the marker included, and the pending
    buffer stays empty; any text sent one character per chunk comes out
    character by character, without its white space. The closing marker
    does not have this defect: inside a reasoning block the text is held
    back until the marker is whole, however it is cut. *)
Theorem C2_split_opening_marker_is_missed (text response chunk B : str)
    (chunks : list str) :
  str_in OPEN chunk = false ->
  str_in CLOSE B = false -> concat chunks = B ++ CLOSE ->
  run (Upstream (chars OPEN) None)
  = (map (fun c => Data [c] false) OPEN, Ok (SegState OPEN false []))
  /\ run (Upstream [OPEN] None) = ([], Ok (SegState [] true []))
  /\ generate (Upstream [py "<th"; py "ink>"; py "secret"; CLOSE; py "answer"] None)
     = [Data (py "<th") false; Data (py "ink>") false; Data (py "secret") false;
        Data CLOSE false; Data (py "answer") false; Data [] true]
  /\ generate (Upstream [py "<think>"; py "secret"; CLOSE; py "answer"] None)
     = [Data (py "answer") false; Data [] true]
  /\ on_chunk (SegState response false []) chunk
     = Ok (SegState (response ++ (if visible chunk then chunk else [])) false [],
           if visible chunk then [Data chunk false] else [])
  /\ run (Upstream (chars text) None)
     = (map (fun c => Data [c] false) (List.filter (fun c => negb (isspace c)) text),
        Ok (SegState (List.filter (fun c => negb (isspace c)) text) false []))
  /\ (forall any, exists frags st,
        run (Upstream any None) = (frags, Ok st) /\ buffer_inv st)
  /\ drain (SegState response true []) chunks
     = ([], Ok (SegState response false [])).
Proof.
  intros Ho HB Hchunks.
  assert (Hchars : forall t, run (Upstream (chars t) None)
            = (map (fun c => Data [c] false) (List.filter (fun c => negb (isspace c)) t),
               Ok (SegState (List.filter (fun c => negb (isspace c)) t) false []))).
  { intros t. unfold run, initial_state. cbn [up_chunks up_raises].
    rewrite (drain_outside _ _ (chars_no_open t)).
    rewrite filter_visible_chars, concat_chars. unfold chars. rewrite map_map.
    reflexivity. }
  split; [exact (Hchars OPEN)|]. split; [vm_compute; reflexivity|].
  split; [vm_compute; reflexivity|]. split; [vm_compute; reflexivity|].
  split; [exact (on_chunk_outside _ _ Ho)|]. split; [exact (Hchars text)|]. split.
  - intros any.
    destruct (generate_shape (Upstream any None)) as (frags & st & Hd & _ & Hinv & _).
    exists frags, st. split; [|exact Hinv].
    unfold run. simpl in Hd. cbn [up_chunks up_raises]. rewrite Hd. reflexivity.
  - apply (drain_closing_any_split B); [exact HB|reflexivity|exact Hchunks].
Qed.

Lemma C2_split_opening_marker_is_missed_witness :
  on_chunk (SegState [] false []) (py "<thi")
  = Ok (SegState (py "<thi") false [], [Data (py "<thi") false])
  /\ drain (SegState [] true []) [py "sec"; py "ret</th"; py "ink>"]
     = ([], Ok (SegState [] false [])).
Proof.
  destruct (C2_split_opening_marker_is_missed (py "hi there") [] (py "<thi")
              (py "secret") [py "sec"; py "ret</th"; py "ink>"]
              eq_refl eq_refl eq_refl)
    as (_ & _ & _ & _ & Hchunk & _ & _ & Hclose).
  split; [exact Hchunk|exact Hclose].
Defined.

(** C3, as the claim states it, fails: a chunk of white space between two
    words has no marker in it, and is dropped. *)
Lemma C3_counterexample :
  ~ (forall chunks, Forall no_marker chunks ->
       contents (generate (Upstream chunks None)) = concat chunks).
Proof.
  intros H. specialize (H [py "Hello"; py " "; py "world"]).
  assert (Hn : Forall no_marker [py "Hello"; py " "; py "world"])
    by (repeat constructor).
  apply H in Hn. vm_compute in Hn. discriminate.
Qed.

(** C3, amended. For every chunk sequence in which no chunk contains
    ["<think>"] or ["</think>"], the visible fragments concatenate to the
    concatenation of the chunks that are not blank, in order: the chunks
    that are empty or white space only are dropped, nothing else is. *)
Theorem C3_lossless_up_to_blank_chunks (chunks : list str) :
  Forall no_marker chunks ->
  contents (generate (Upstream chunks None)) = concat (List.filter visible chunks).
Proof.
  intros H.
  assert (Ho : Forall (fun chunk => str_in OPEN chunk = false) chunks)
    by (eapply Forall_impl; [exact H|]; intros chunk [Ho _]; exact Ho).
  unfold generate, run, initial_state. cbn [up_chunks up_raises].
  rewrite (drain_outside _ _ Ho). cbv beta iota delta [mbind result_bind].
  rewrite contents_app, contents_fragments. apply app_nil_r.
Qed.

Lemma C3_lossless_up_to_blank_chunks_witness :
  Forall no_marker [py "Hello"; py " "; py "world"] /\
  contents (generate (Upstream [py "Hello"; py " "; py "world"] None))
  = concat (List.filter visible [py "Hello"; py " "; py "world"]).
Proof.
  assert (Hn : Forall no_marker [py "Hello"; py " "; py "world"])
    by (repeat constructor).
  split; [exact Hn|].
  exact (C3_lossless_up_to_blank_chunks [py "Hello"; py " "; py "world"] Hn).
Defined.

(** C6. The stream ["A" + "<think>" + "B"] that ends without a closing
    marker, for any visible text [A] without an opening marker and any
    text [B] without a closing one, delivered in any of the four ways that
    leave the marker whole: exactly [A] is sent, [B] stays in the pending
    buffer of the open reasoning block and is never sent, and the
    completion event ends the stream. *)
Theorem C6_unterminated_block (A B : str) (chunks : list str) :
  visible A = true -> str_in OPEN A = false -> str_in CLOSE B = false ->
  In chunks [[A; OPEN; B]; [A ++ OPEN; B]; [A; OPEN ++ B]; [A ++ OPEN ++ B]] ->
  generate (Upstream chunks None) = [Data A false; Data [] true]
  /\ snd (run (Upstream chunks None)) = Ok (SegState A true B).
Proof.
  intros Hv Ho Hc Hin.
  pose proof (on_chunk_marker A [] eq_refl) as Hm. rewrite app_nil_r in Hm.
  pose proof (on_chunk_opening [] A [] Ho eq_refl) as Hao.
  rewrite Hv in Hao. cbn [app] in Hao.
  pose proof (on_chunk_opening [] A B Ho Hc) as Haob.
  rewrite Hv in Haob. cbn [app] in Haob.
  pose proof (on_chunk_inside A [] B Hc) as Hb. cbn [app] in Hb.
  pose proof (on_chunk_visible [] A Hv Ho) as Ha. cbn [app] in Ha.
  pose proof (on_chunk_marker A B Hc) as Hob.
  unfold generate, run, initial_state. cbn [up_chunks up_raises].
  cbn [In] in Hin. destruct Hin as [<-|[<-|[<-|[<-|[]]]]]; cbn [drain].
  - rewrite Ha, Hm, Hb. split; reflexivity.
  - rewrite app_nil_r in Hao. rewrite Hao, Hb. split; reflexivity.
  - rewrite Ha, Hob. split; reflexivity.
  - rewrite Haob. split; reflexivity.
Qed.

Lemma C6_unterminated_block_witness :
  generate (Upstream [py "A"; OPEN; py "B"] None)
  = [Data (py "A") false; Data [] true]
  /\ snd (run (Upstream [py "A"; OPEN; py "B"] None))
     = Ok (SegState (py "A") true (py "B")).
Proof.
  apply (C6_unterminated_block (py "A") (py "B")); try reflexivity.
  left. reflexivity.
Defined.

(** C9. Every content fragment of the plain-chat stream, that is every
    event [{content, done: false}], has a character that is not white
    space: the parts that are blank after [strip()] are not sent. *)
Theorem C9_fragments_are_not_blank (up : upstream) (c : str) :
  In (Data c false) (generate up) ->
  visible c = true /\ exists ch, In ch c /\ isspace ch = false.
Proof.
  destruct (generate_shape up) as (frags & st & _ & Hfr & _ & ->).
  intros Hin. apply in_app_or in Hin as [Hin|Hin].
  - rewrite Forall_forall in Hfr. apply list_elem_of_In, Hfr in Hin.
    destruct Hin as (c' & [= <-] & Hv). split; [exact Hv|]. now apply visible_char.
  - unfold terminal in Hin. destruct (up_raises up); simpl in Hin;
      destruct Hin as [Hin|[]]; discriminate.
Qed.

Lemma C9_fragments_are_not_blank_witness :
  In (Data (py "A") false) (generate (Upstream [py " "; py "A"] None)) /\
  (visible (py "A") = true /\ exists ch, In ch (py "A") /\ isspace ch = false).
Proof.
  split.
  - vm_compute. left. reflexivity.
  - apply (C9_fragments_are_not_blank (Upstream [py " "; py "A"] None)).
    vm_compute. left. reflexivity.
Defined.

(** ** The bot-chat stream *)

Lemma bot_drain_contents (chunks : list str) :
  bot_contents (bot_drain chunks) = concat chunks.
Proof.
  unfold bot_contents. induction chunks as [|chunk rest IH]; [reflexivity|].
  simpl. rewrite map_app, concat_app, IH.
  destruct chunk; simpl; rewrite ?app_nil_r; reflexivity.
Qed.

Lemma bot_drain_no_sentinel (chunks : list str) :
  Forall (fun ev => is_sentinel ev = false) (bot_drain chunks).
Proof.
  induction chunks as [|chunk rest IH]; [constructor|]. simpl.
  apply Forall_app. split; [|exact IH].
  destruct (truthy chunk); repeat constructor.
Qed.

Lemma bot_contents_app evs1 evs2 :
  bot_contents (evs1 ++ evs2) = bot_contents evs1 ++ bot_contents evs2.
Proof. unfold bot_contents. rewrite map_app. apply concat_app. Qed.

(** C7. In the bot-chat stream nothing is filtered: whatever the split of
    ["A" + "<think>" + "B" + "</think>" + "C"] into chunks, the content
    events concatenate to the whole text, markers and reasoning included,
    so [A], [B] and [C] come out in their order. The stream ends with the
    sentinel, which occurs once, whether the upstream ends or raises;
    after an error the apology is sent as one more content event before
    it. *)
Theorem C7_bot_stream_passes_everything (A B C : str) (chunks : list str)
    (failure : option exn) :
  concat chunks = A ++ OPEN ++ B ++ CLOSE ++ C ->
  exists evs,
    bot_generate (Upstream chunks failure) = evs ++ [BotDone] /\
    Forall (fun ev => is_sentinel ev = false) evs /\
    bot_contents evs
    = A ++ OPEN ++ B ++ CLOSE ++ C
      ++ (if failure is Some _ then bot_error_message else []).
Proof.
  intros Hc. unfold bot_generate. cbn [up_raises up_chunks].
  destruct failure as [e|].
  - exists (bot_drain chunks ++ [BotData bot_error_message]).
    rewrite <- app_assoc. split; [reflexivity|]. split.
    + apply Forall_app. split; [apply bot_drain_no_sentinel|repeat constructor].
    + rewrite bot_contents_app, bot_drain_contents, Hc.
      unfold bot_contents. cbn [map concat]. rewrite app_nil_r, <- !app_assoc.
      reflexivity.
  - exists (bot_drain chunks). split; [reflexivity|].
    split; [apply bot_drain_no_sentinel|].
    rewrite bot_drain_contents, Hc, app_nil_r. reflexivity.
Qed.

Lemma C7_bot_stream_passes_everything_witness :
  exists evs,
    bot_generate (Upstream [py "A<th"; py "ink>B</think"; py ">C"]
                    (Some (Exception (py "connection lost"))))
    = evs ++ [BotDone] /\
    Forall (fun ev => is_sentinel ev = false) evs /\
    bot_contents evs
    = py "A" ++ OPEN ++ py "B" ++ CLOSE ++ py "C" ++ bot_error_message.
Proof.
  apply (C7_bot_stream_passes_everything (py "A") (py "B") (py "C")
           [py "A<th"; py "ink>B</think"; py ">C"]
           (Some (Exception (py "connection lost")))).
  vm_compute. reflexivity.
Defined.

(** ** Similarity and ordering of the search results *)

Lemma float_ltb_irrefl (x : float) : (x <? x)%float = false.
Proof.
  rewrite ltb_spec. unfold SpecFloat.SFltb.
  destruct (Prim2SF x) as [s|s| |s m e]; simpl; try reflexivity.
  - destruct s; reflexivity.
  - rewrite Z.compare_refl, Pos.compare_cont_refl. destruct s; reflexivity.
Qed.

(** A float above zero is not below it. *)
Lemma float_pos_not_neg (x : float) :
  (0 <? x)%float = true -> (x <? 0)%float = false.
Proof.
  rewrite !ltb_spec. unfold SpecFloat.SFltb.
  change (Prim2SF 0) with (SpecFloat.S754_zero false).
  destruct (Prim2SF x) as [s|s| |s m e]; simpl; try discriminate;
    destruct s; simpl; try discriminate; reflexivity.
Qed.

(** The similarity is never negative, whatever the distance. *)
Lemma similarity_of_not_negative (distance : float) :
  (similarity_of distance <? 0)%float = false.
Proof.
  unfold similarity_of, py_max.
  destruct (distance <? 0)%float.
  - destruct (0 <? 1 + distance)%float eqn:E; [now apply float_pos_not_neg|reflexivity].
  - destruct (0 <? 1 - distance)%float eqn:E; [now apply float_pos_not_neg|reflexivity].
Qed.

(** *** The order of the floats *)

Lemma SFltb_negatively_transitive (a b c : SpecFloat.spec_float) :
  SpecFloat.SFeqb b b = true ->
  SpecFloat.SFltb a b = false -> SpecFloat.SFltb b c = false ->
  SpecFloat.SFltb a c = false.
Proof.
  unfold SpecFloat.SFltb, SpecFloat.SFeqb.
  destruct a as [sa|sa| |sa ma ea], b as [sb|sb| |sb mb eb], c as [sc|sc| |sc mc ec];
    cbn [SpecFloat.SFcompare]; try reflexivity; try discriminate;
    try (destruct sa, sb, sc; cbn; intros; congruence);
    try (destruct sa, sb; cbn; intros; congruence);
    try (destruct sa, sc; cbn; intros; congruence);
    try (destruct sb, sc; cbn; intros; congruence).
  all: intros _.
  all: destruct sa, sb, sc; try discriminate; try reflexivity.
  all: compare_cases.
Qed.

Lemma SFltb_asymmetric (a b : SpecFloat.spec_float) :
  SpecFloat.SFltb a b = true -> SpecFloat.SFltb b a = false.
Proof.
  unfold SpecFloat.SFltb.
  destruct a as [sa|sa| |sa ma ea], b as [sb|sb| |sb mb eb];
    cbn [SpecFloat.SFcompare]; try reflexivity; try discriminate;
    try (destruct sa, sb; cbn; intros; congruence);
    try (destruct sa; cbn; intros; congruence);
    try (destruct sb; cbn; intros; congruence).
  destruct sa, sb; try discriminate; try reflexivity.
  all: compare_cases.
Qed.

Lemma SFltb_is_number (a b : SpecFloat.spec_float) :
  SpecFloat.SFltb a b = true -> SpecFloat.SFeqb b b = true.
Proof.
  unfold SpecFloat.SFltb, SpecFloat.SFeqb.
  destruct b as [sb|sb| |sb mb eb]; cbn [SpecFloat.SFcompare].
  - reflexivity.
  - destruct sb; reflexivity.
  - destruct a; discriminate.
  - intros _. destruct sb; compare_cases.
Qed.

Lemma float_ltb_asym (x y : float) : (x <? y)%float = true -> (y <? x)%float = false.
Proof. rewrite !ltb_spec. apply SFltb_asymmetric. Qed.

(** Among numbers, "not less" is transitive. *)
Lemma float_not_less_trans (a b c : float) :
  is_number b = true ->
  (a <? b)%float = false -> (b <? c)%float = false -> (a <? c)%float = false.
Proof.
  unfold is_number. rewrite !ltb_spec, FloatAxioms.eqb_spec. apply SFltb_negatively_transitive.
Qed.

Lemma float_ltb_is_number (a b : float) : (a <? b)%float = true -> is_number b = true.
Proof. unfold is_number. rewrite ltb_spec, FloatAxioms.eqb_spec. apply SFltb_is_number. Qed.

(** The similarity is always a number, even when the distance is not. *)
Lemma similarity_of_is_number (distance : float) :
  is_number (similarity_of distance) = true.
Proof.
  unfold similarity_of, py_max.
  destruct (distance <? 0)%float.
  - destruct (0 <? 1 + distance)%float eqn:E;
      [now apply float_ltb_is_number in E|reflexivity].
  - destruct (0 <? 1 - distance)%float eqn:E;
      [now apply float_ltb_is_number in E|reflexivity].
Qed.

Lemma insert_desc_In x y sorted : In y (insert_desc x sorted) <-> y = x \/ In y sorted.
Proof.
  induction sorted as [|z rest IH]; simpl; [intuition congruence|].
  destruct (doc_similarity x <? doc_similarity z)%float; simpl; rewrite ?IH;
    intuition congruence.
Qed.

Lemma sort_by_similarity_desc_In y docs :
  In y (sort_by_similarity_desc docs) <-> In y docs.
Proof.
  induction docs as [|x docs IH]; [reflexivity|]. simpl.
  rewrite insert_desc_In, IH. intuition congruence.
Qed.

Lemma insert_desc_filter (tie : document -> bool) x sorted :
  (forall y, In y sorted -> tie x = true -> tie y = true ->
             (doc_similarity x <? doc_similarity y)%float = false) ->
  List.filter tie (insert_desc x sorted) = List.filter tie (x :: sorted).
Proof.
  induction sorted as [|y rest IH]; intros H; [reflexivity|].
  cbn [insert_desc].
  destruct (doc_similarity x <? doc_similarity y)%float eqn:E; [|reflexivity].
  cbn [List.filter]. rewrite IH by (intros z Hz; apply H; now right).
  cbn [List.filter].
  destruct (tie x) eqn:Hx, (tie y) eqn:Hy; try reflexivity.
  rewrite (H y) in E by (auto; now left). discriminate.
Qed.

(** The sort is stable: documents none of which is less similar than
    another keep the order in which the store returned them. *)
Lemma sort_by_similarity_desc_stable (tie : document -> bool) docs :
  (forall x y, In x docs -> In y docs -> tie x = true -> tie y = true ->
               (doc_similarity x <? doc_similarity y)%float = false) ->
  List.filter tie (sort_by_similarity_desc docs) = List.filter tie docs.
Proof.
  induction docs as [|x docs IH]; intros H; [reflexivity|].
  cbn [sort_by_similarity_desc foldr]. fold (sort_by_similarity_desc docs).
  rewrite insert_desc_filter.
  - cbn [List.filter]. rewrite IH; [reflexivity|].
    intros a b Ha Hb. apply H; now right.
  - intros y Hy. apply H; [now left|]. right. now apply sort_by_similarity_desc_In.
Qed.

(** *** The result is in descending order *)

Lemma insert_desc_sorted x sorted :
  Forall (fun d => is_number (doc_similarity d) = true) sorted ->
  StronglySorted not_less_similar sorted ->
  StronglySorted not_less_similar (insert_desc x sorted).
Proof.
  intros Hnum Hs. induction Hs as [|y rest Hrest IH Hy]; cbn [insert_desc].
  - repeat constructor.
  - apply Forall_cons_1 in Hnum as [Hynum Hnum].
    destruct (doc_similarity x <? doc_similarity y)%float eqn:E.
    + constructor; [exact (IH Hnum)|].
      apply List.Forall_forall. intros z Hz.
      apply (proj1 (insert_desc_In _ _ _)) in Hz.
      destruct Hz as [->|Hz]; [now apply float_ltb_asym|].
      rewrite List.Forall_forall in Hy. now apply Hy.
    + constructor; [now constructor|]. constructor; [exact E|].
      eapply Forall_impl; [exact Hy|]. intros z Hz.
      exact (float_not_less_trans _ _ _ Hynum E Hz).
Qed.

(** Sorting documents whose similarities are numbers puts every document
    before all those that are less similar, and loses none. *)
Lemma sort_by_similarity_desc_sorted docs :
  Forall (fun d => is_number (doc_similarity d) = true) docs ->
  StronglySorted not_less_similar (sort_by_similarity_desc docs).
Proof.
  induction 1 as [|x docs Hx Hdocs IH]; [constructor|].
  cbn [sort_by_similarity_desc foldr]. fold (sort_by_similarity_desc docs).
  apply insert_desc_sorted; [|exact IH].
  apply List.Forall_forall. intros y Hy.
  apply (proj1 (sort_by_similarity_desc_In _ _)) in Hy.
  rewrite List.Forall_forall in Hdocs. now apply Hdocs.
Qed.

Lemma insert_desc_perm x sorted : Permutation (insert_desc x sorted) (x :: sorted).
Proof.
  induction sorted as [|y rest IH]; [reflexivity|]. cbn [insert_desc].
  destruct (doc_similarity x <? doc_similarity y)%float; [|reflexivity].
  rewrite IH. apply perm_swap.
Qed.

Lemma sort_by_similarity_desc_perm docs :
  Permutation (sort_by_similarity_desc docs) docs.
Proof.
  induction docs as [|x docs IH]; [reflexivity|].
  cbn [sort_by_similarity_desc foldr]. fold (sort_by_similarity_desc docs).
  rewrite insert_desc_perm. now constructor.
Qed.

(** Whatever the store returns, the formatted results come back highest
    similarity first. *)
Lemma formatted_results_sorted (results : list store_result) :
  StronglySorted not_less_similar
    (sort_by_similarity_desc (map format_result results)).
Proof.
  apply sort_by_similarity_desc_sorted, Forall_map, Forall_forall.
  intros r _. apply similarity_of_is_number.
Qed.

(** With an embedding at hand, the search formats what the store returns
    and sorts it. *)
Lemma search_knowledge_found get_embeddings search_similar query top_k v vs results :
  visible query = true ->
  get_embeddings [query] = Ok (v :: vs) ->
  search_similar v top_k None = Ok results ->
  search_knowledge get_embeddings search_similar query top_k None
  = Ok (sort_by_similarity_desc (map format_result results)).
Proof.
  intros Hq He Hs. unfold search_knowledge. fold (visible query).
  rewrite Hq. cbn [negb]. rewrite He. cbn. rewrite Hs. reflexivity.
Qed.

(** C4, as the claim states it, fails: for the distance [-0.2] the code
    computes [1 + distance], which is [0.8] and not [1.0], so that
    document comes second, behind the one at distance [0.1]. *)
Lemma C4_counterexample :
  ~ (map doc_similarity (map format_result example_results) = [0.9; 0.5; 1]%float
     /\ map doc_id (sort_by_similarity_desc (map format_result example_results))
        = [py "doc -0.2"; py "doc 0.1"; py "doc 0.5"]).
Proof. intros [_ H]. vm_compute in H. discriminate. Qed.

(** C4, amended. Given store results with distances [0.1], [0.5] and
    [-0.2], the similarities are [0.9], [0.5] and [0.8]: a negative
    distance [d] gives [max(0, 1 + d)], the others [max(0, 1 - d)]. Each
    lies in [[0, 1]], and no distance at all gives a negative similarity.
    The search returns the documents highest similarity first: the one at
    distance [0.1], then the one at [-0.2], then the one at [0.5]; so it
    does for whatever the store returns, without losing a result.
    Documents none of which is less similar than another keep the order
    of the store: the sort is stable. *)
Theorem C4_similarity_and_order get_embeddings search_similar
    (query : str) (v : list float) (vs : list (list float))
    (docs : list document) (tie : document -> bool) :
  visible query = true ->
  get_embeddings [query] = Ok (v :: vs) ->
  search_similar v 3%Z None = Ok example_results ->
  (forall x y, In x docs -> In y docs -> tie x = true -> tie y = true ->
               (doc_similarity x <? doc_similarity y)%float = false) ->
  map doc_similarity (map format_result example_results) = [0.9; 0.5; 0.8]%float
  /\ Forall (fun s => ((0 <=? s) && (s <=? 1))%float = true) [0.9; 0.5; 0.8]%float
  /\ (forall distance, (similarity_of distance <? 0)%float = false)
  /\ (exists found,
        search_knowledge get_embeddings search_similar query 3%Z None = Ok found
        /\ map doc_id found = [py "doc 0.1"; py "doc -0.2"; py "doc 0.5"]
        /\ map doc_similarity found = [0.9; 0.8; 0.5]%float)
  /\ (forall results,
        StronglySorted not_less_similar
          (sort_by_similarity_desc (map format_result results))
        /\ Permutation (sort_by_similarity_desc (map format_result results))
             (map format_result results))
  /\ List.filter tie (sort_by_similarity_desc docs) = List.filter tie docs.
Proof.
  intros Hq He Hs Htie. split; [vm_compute; reflexivity|].
  split; [repeat constructor|]. split; [exact similarity_of_not_negative|].
  split; [|split].
  - eexists. split; [exact (search_knowledge_found _ _ _ _ _ _ _ Hq He Hs)|].
    split; vm_compute; reflexivity.
  - intros results. split;
      [apply formatted_results_sorted|apply sort_by_similarity_desc_perm].
  - exact (sort_by_similarity_desc_stable tie docs Htie).
Qed.

Lemma C4_similarity_and_order_witness :
  (exists found,
     search_knowledge (fun _ => Ok [[0%float]]) (fun _ _ _ => Ok example_results)
       (py "refund") 3%Z None = Ok found
     /\ map doc_id found = [py "doc 0.1"; py "doc -0.2"; py "doc 0.5"]
     /\ map doc_similarity found = [0.9; 0.8; 0.5]%float)
  /\ List.filter (similarity_is 0.5) (sort_by_similarity_desc tied_documents)
     = [doc_with (py "a") 0.5; doc_with (py "c") 0.5].
Proof.
  assert (Htie : forall x y, In x tied_documents -> In y tied_documents ->
                   similarity_is 0.5 x = true -> similarity_is 0.5 y = true ->
                   (doc_similarity x <? doc_similarity y)%float = false).
  { intros x y Hx Hy. cbn [In tied_documents] in Hx, Hy.
    destruct Hx as [<-|[<-|[<-|[]]]], Hy as [<-|[<-|[<-|[]]]];
      vm_compute; intros; congruence. }
  pose proof (C4_similarity_and_order
                (fun _ => Ok [[0%float]]) (fun _ _ _ => Ok example_results)
                (py "refund") [0%float] [] tied_documents (similarity_is 0.5)
                eq_refl eq_refl eq_refl Htie) as H.
  destruct H as (_ & _ & _ & Hfound & _ & Hstable).
  split; [exact Hfound|]. rewrite Hstable. reflexivity.
Defined.

(** ** The chat handler *)

(** The system prompt of the rule-guided mode depends on the rule through
    its six fields only. *)
Lemma rule_system_prompt_fields (rule rule' : gmap str str) :
  Forall (fun key => rule !! key = rule' !! key)
    [py "title"; py "description"; py "language"; py "category";
     py "content"; py "example"] ->
  rule_system_prompt rule = rule_system_prompt rule'.
Proof.
  intros H. unfold rule_system_prompt, rule_field.
  repeat match goal with
         | H : Forall _ (_ :: _) |- _ => apply Forall_cons_1 in H as [-> H]
         end.
  reflexivity.
Qed.

(** C8, as the claim states it, fails for a request that carries an empty
    rule: the handler tests the truth value of [coding_rule], and an
    empty dict is false, so the knowledge base is searched. *)
Lemma C8_counterexample :
  ~ (forall m : ChatMessage, is_Some (coding_rule m) ->
       Forall (fun c => is_search c = false)
         (fst (chat_stream (fun _ => Ok []) (fun _ _ _ => Ok [])
                 (fun _ _ _ => Upstream [] None) m))).
Proof.
  intros H.
  specialize (H {| message := py "hello"; conversation_id := None;
                   history := None; session_id := None;
                   coding_rule := Some ∅ |}).
  cbn in H. specialize (H (ex_intro _ _ eq_refl)).
  apply Forall_cons_1 in H as [H _]. discriminate.
Qed.

(** C8, amended. A request whose coding rule is present and not empty is
    answered without any search of the knowledge base: the only call is
    the one to the model, with the code-review prompt built from the
    rule. Every other request, with no rule or with an empty one, makes
    exactly one search, first, for the raw message with [top_k = 3]. *)
Theorem C8_retrieval_follows_rule get_embeddings search_similar ollama_chat_stream
    (m : ChatMessage) :
  if dict_truthy (coding_rule m) then
    exists rule,
      coding_rule m = Some rule /\ rule <> ∅ /\
      fst (chat_stream get_embeddings search_similar ollama_chat_stream m)
      = [ChatStream
           (history_turns (history m)
            ++ [ChatTurn (py "user") (rule_user_content (message m))])
           (rule_system_prompt rule) (py "10m")]
  else
    exists rest,
      fst (chat_stream get_embeddings search_similar ollama_chat_stream m)
      = SearchKnowledge (message m) 3 :: rest /\
      Forall (fun c => is_search c = false) rest.
Proof.
  unfold chat_stream. destruct (dict_truthy (coding_rule m)) eqn:Hr.
  - unfold dict_truthy in Hr. destruct (coding_rule m) as [rule|]; [|discriminate].
    exists rule. split; [reflexivity|]. split; [|reflexivity].
    apply negb_true_iff, bool_decide_eq_false in Hr. exact Hr.
  - destruct (search_knowledge get_embeddings search_similar (message m) 3 None)
      as [docs|e]; cbn.
    + eexists. split; [reflexivity|]. repeat constructor.
    + exists []. split; [reflexivity|constructor].
Qed.

Lemma search_knowledge_no_embedding get_embeddings search_similar query top_k category :
  (exists e, get_embeddings [query] = Raise e) \/ get_embeddings [query] = Ok [] ->
  search_knowledge get_embeddings search_similar query top_k category = Ok [].
Proof.
  intros H. unfold search_knowledge.
  destruct (truthy (strip query)); [|reflexivity]. cbn [negb].
  destruct H as [[e ->]| ->]; reflexivity.
Qed.

(** C5. When the embedding call raises or returns nothing, the search
    returns the empty list instead of raising, for every query, and the
    chat request goes on: the knowledge base is searched once, then the
    model is called with the history and a user turn whose content is the
    raw message alone, and the response streams what the model sends. *)
Theorem C5_search_degrades_to_no_context get_embeddings search_similar
    ollama_chat_stream (m : ChatMessage) (top_k : Z) (category : option str) :
  dict_truthy (coding_rule m) = false ->
  (exists e, get_embeddings [message m] = Raise e)
  \/ get_embeddings [message m] = Ok [] ->
  search_knowledge get_embeddings search_similar (message m) top_k category = Ok []
  /\ let messages := history_turns (history m) ++ [ChatTurn (py "user") (message m)] in
     chat_stream get_embeddings search_similar ollama_chat_stream m
     = ([SearchKnowledge (message m) 3;
         ChatStream messages knowledge_system_prompt (py "10m")],
        Ok (generate (ollama_chat_stream messages knowledge_system_prompt (py "10m")))).
Proof.
  intros Hr He. split; [now apply search_knowledge_no_embedding|].
  unfold chat_stream. rewrite Hr.
  rewrite (search_knowledge_no_embedding _ _ _ _ _ He). reflexivity.
Qed.

Lemma C5_search_degrades_to_no_context_witness :
  search_knowledge (fun _ => Raise (Exception (py "connection refused")))
    (fun _ _ _ => Ok example_results) (py "refund policy") 5 None = Ok []
  /\ fst (chat_stream (fun _ => Raise (Exception (py "connection refused")))
            (fun _ _ _ => Ok example_results)
            (fun _ _ _ => Upstream [py "Hello"] None)
            {| message := py "refund policy"; conversation_id := None;
               history := None; session_id := None; coding_rule := None |})
     = [SearchKnowledge (py "refund policy") 3;
        ChatStream [ChatTurn (py "user") (py "refund policy")]
          knowledge_system_prompt (py "10m")].
Proof.
  pose proof (C5_search_degrades_to_no_context
                (fun _ => Raise (Exception (py "connection refused")))
                (fun _ _ _ => Ok example_results)
                (fun _ _ _ => Upstream [py "Hello"] None)
                {| message := py "refund policy"; conversation_id := None;
                   history := None; session_id := None; coding_rule := None |}
                5 None eq_refl (or_introl (ex_intro _ _ eq_refl))) as [Hs Hc].
  split; [exact Hs|]. cbv zeta in Hc. rewrite Hc. reflexivity.
Defined.

(** ** The embedding adapter *)

Section EmbeddingFacts.

Variable self : OllamaClient.
Variable post_embed : str -> list str -> bool -> str -> result http_response.
Variable post_embeddings : nat -> str -> str -> result http_response.

(** Every turn of the legacy loop adds one entry. *)
Lemma legacy_loop_length n texts model embeddings found :
  legacy_loop post_embeddings n texts model embeddings = Ok found ->
  length found = (length embeddings + length texts)%nat.
Proof.
  revert n embeddings.
  induction texts as [|text rest IH]; intros n embeddings; cbn [legacy_loop].
  - intros [= <-]. simpl. lia.
  - destruct (post_embeddings n model text) as [response|e]; [|discriminate].
    cbn. destruct (status_code response =? 200)%Z; cbn.
    + destruct (json_body response) as [data|e]; [|discriminate]. cbn.
      destruct (json_contains (py "embedding") data) as [[|]|e]; [| |discriminate]; cbn.
      * destruct (json_item data (py "embedding")) as [embedding|e]; [|discriminate].
        cbn. intros H. apply IH in H. rewrite length_app in H. simpl in *. lia.
      * intros H. apply IH in H. rewrite length_app in H. simpl in *. lia.
    + intros H. apply IH in H. rewrite length_app in H. simpl in *. lia.
Qed.

(** The legacy path never raises and returns one entry per text. *)
Lemma get_embeddings_legacy_total texts model :
  exists found,
    _get_embeddings_legacy post_embeddings texts model = Ok (JList found)
    /\ length found = length texts.
Proof.
  unfold _get_embeddings_legacy.
  destruct (legacy_loop post_embeddings 0 texts model []) as [found|e] eqn:E; cbn.
  - exists found. split; [reflexivity|]. now apply legacy_loop_length in E.
  - eexists. split; [reflexivity|]. apply length_replicate.
Qed.

(** A turn of the legacy loop: the request, the entry for its answer,
    and the remaining texts. *)
Lemma legacy_loop_turn n text rest model embeddings :
  legacy_loop post_embeddings n (text :: rest) model embeddings
  = (response ← post_embeddings n model text;
     entry ← legacy_entry response;
     legacy_loop post_embeddings (S n) rest model (embeddings ++ [entry])).
Proof.
  cbn [legacy_loop]. destruct (post_embeddings n model text) as [response|e];
    [|reflexivity].
  cbn [mbind result_bind]. unfold legacy_entry.
  destruct (negb (status_code response =? 200)%Z); [reflexivity|].
  destruct (json_body response) as [data|e]; [|reflexivity].
  cbn [mbind result_bind].
  destruct (json_contains (py "embedding") data) as [[|]|e]; reflexivity.
Qed.

(** What the legacy loop returns: when it ends, one entry for each
    text, the one of the answer to its request; when it raises, the
    exception of a request or of the reading of its answer. *)
Lemma legacy_loop_exact n texts model embeddings :
  match legacy_loop post_embeddings n texts model embeddings with
  | Ok found =>
      exists entries,
        found = embeddings ++ entries /\
        length entries = length texts /\
        forall i text,
          texts !! i = Some text ->
          exists response entry,
            post_embeddings (n + i) model text = Ok response /\
            legacy_entry response = Ok entry /\
            entries !! i = Some entry
  | Raise e =>
      exists i text,
        texts !! i = Some text /\
        (post_embeddings (n + i) model text = Raise e \/
         exists response,
           post_embeddings (n + i) model text = Ok response /\
           legacy_entry response = Raise e)
  end.
Proof.
  revert n embeddings.
  induction texts as [|text rest IH]; intros n embeddings.
  - cbn. exists []. rewrite app_nil_r. split; [reflexivity|].
    split; [reflexivity|]. intros i text [=].
  - rewrite legacy_loop_turn.
    destruct (post_embeddings n model text) as [response|e] eqn:Hpost;
      cbn [mbind result_bind].
    2: { exists 0%nat, text. rewrite Nat.add_0_r. split; [reflexivity|]. now left. }
    destruct (legacy_entry response) as [entry|e] eqn:Hentry;
      cbn [mbind result_bind].
    2: { exists 0%nat, text. rewrite Nat.add_0_r. split; [reflexivity|].
         right. eauto. }
    specialize (IH (S n) (embeddings ++ [entry])).
    destruct (legacy_loop post_embeddings (S n) rest model (embeddings ++ [entry]))
      as [found|e].
    + destruct IH as (entries & -> & Hlen & Hall).
      exists (entry :: entries). rewrite <- app_assoc.
      split; [reflexivity|]. split; [cbn; now rewrite Hlen|].
      intros [|i] t Hi.
      * injection Hi as <-. rewrite Nat.add_0_r. eauto.
      * replace (n + S i)%nat with (S n + i)%nat by lia. exact (Hall i t Hi).
    + destruct IH as (i & t & Hi & H).
      exists (S i), t. replace (n + S i)%nat with (S n + i)%nat by lia.
      split; [exact Hi|exact H].
Qed.

(** The legacy path, in full: it never raises and returns one entry
    per text. When every request is answered and every answer can be
    read, the entry of a text is the one of the answer to its own
    request. When the request of one text raises, or its answer cannot
    be read, every entry is the zero vector. *)
Lemma get_embeddings_legacy_exact texts model :
  exists found,
    _get_embeddings_legacy post_embeddings texts model = Ok (JList found) /\
    length found = length texts /\
    ((forall i text,
        texts !! i = Some text ->
        exists response entry,
          post_embeddings i model text = Ok response /\
          legacy_entry response = Ok entry) ->
     forall i text,
       texts !! i = Some text ->
       exists response entry,
         post_embeddings i model text = Ok response /\
         legacy_entry response = Ok entry /\
         found !! i = Some entry) /\
    (forall i text,
       texts !! i = Some text ->
       (forall response,
          post_embeddings i model text = Ok response ->
          exists e, legacy_entry response = Raise e) ->
       found = replicate (length texts) zero_vector).
Proof.
  unfold _get_embeddings_legacy, try_except.
  pose proof (legacy_loop_exact 0 texts model []) as H.
  destruct (legacy_loop post_embeddings 0 texts model []) as [found|e];
    cbn [mbind result_bind].
  - destruct H as (entries & -> & Hlen & Hall). cbn [app] in *.
    exists entries. split; [reflexivity|]. split; [exact Hlen|]. split.
    + intros _ i text Hi. exact (Hall i text Hi).
    + intros i text Hi Hfail.
      destruct (Hall i text Hi) as (response & entry & Hpost & Hentry & _).
      destruct (Hfail response Hpost) as [e He]. congruence.
  - exists (replicate (length texts) zero_vector).
    split; [reflexivity|]. split; [apply length_replicate|]. split; [|reflexivity].
    intros Hanswered i text Hi. exfalso.
    destruct H as (j & t & Hj & [Hraise|(response & Hpost & Hraise)]);
      destruct (Hanswered j t Hj) as (r & entry & Hr & Hentry); cbn in *; congruence.
Qed.

(** The entry for an answer, case by case. *)
Lemma legacy_entry_cases (response : http_response) :
  (status_code response <> 200%Z -> legacy_entry response = Ok zero_vector) /\
  (status_code response = 200%Z ->
   (forall fields,
      json_body response = Ok (JDict fields) ->
      legacy_entry response = Ok (default zero_vector (fields !! py "embedding"))) /\
   (forall e, json_body response = Raise e -> legacy_entry response = Raise e)).
Proof.
  unfold legacy_entry. split.
  - intros H. apply Z.eqb_neq in H. now rewrite H.
  - intros ->. cbn [negb Z.eqb Pos.eqb]. split.
    + intros fields ->. cbn.
      destruct (fields !! py "embedding") as [v|] eqn:E; cbn; rewrite ?E; reflexivity.
    + intros e ->. reflexivity.
Qed.

(** The legacy path, entry by entry: what it returns when every request
    is answered, and when the request of one text fails. *)
Lemma get_embeddings_legacy_entries (texts : list str) (model : str) :
  exists found,
    _get_embeddings_legacy post_embeddings texts model = Ok (JList found) /\
    length found = length texts /\
    ((forall i text,
        texts !! i = Some text ->
        exists response,
          post_embeddings i model text = Ok response /\
          (status_code response <> 200%Z \/
           exists fields, json_body response = Ok (JDict fields))) ->
     forall i text,
       texts !! i = Some text ->
       exists response,
         post_embeddings i model text = Ok response /\
         found !! i
         = Some (if (status_code response =? 200)%Z
                 then match json_body response with
                      | Ok (JDict fields) =>
                          default zero_vector (fields !! py "embedding")
                      | _ => zero_vector
                      end
                 else zero_vector)) /\
    (forall i text e,
       texts !! i = Some text ->
       post_embeddings i model text = Raise e ->
       found = replicate (length texts) zero_vector) /\
    (forall i text response e,
       texts !! i = Some text ->
       post_embeddings i model text = Ok response ->
       status_code response = 200%Z ->
       json_body response = Raise e ->
       found = replicate (length texts) zero_vector).
Proof.
  destruct (get_embeddings_legacy_exact texts model)
    as (found & Hfound & Hlen & Hanswered & Hfails).
  exists found. split; [exact Hfound|]. split; [exact Hlen|]. split; [|split].
  - intros Hall.
    assert (Hentries : forall i text,
               texts !! i = Some text ->
               exists response entry,
                 post_embeddings i model text = Ok response
                 /\ legacy_entry response = Ok entry).
    { intros i text Hi. destruct (Hall i text Hi) as (response & Hpost & Hshape).
      exists response. destruct (legacy_entry_cases response) as [Hrefused Hread].
      destruct Hshape as [Hs|[fields Hbody]].
      - eauto.
      - destruct (Z.eq_dec (status_code response) 200%Z) as [Hs|Hs]; [|eauto].
        destruct (Hread Hs) as [Hdict _]. eauto. }
    intros i text Hi.
    destruct (Hanswered Hentries i text Hi) as (response & entry & Hpost & Hentry & Hat).
    exists response. split; [exact Hpost|]. rewrite Hat. f_equal.
    destruct (Hall i text Hi) as (response' & Hpost' & Hshape).
    assert (response' = response) as -> by congruence.
    destruct (legacy_entry_cases response) as [Hrefused Hread].
    destruct (status_code response =? 200)%Z eqn:Hs.
    + apply Z.eqb_eq in Hs. destruct Hshape as [Hne|[fields Hbody]]; [congruence|].
      destruct (Hread Hs) as [Hdict _]. rewrite Hbody.
      specialize (Hdict fields Hbody). congruence.
    + apply Z.eqb_neq in Hs. specialize (Hrefused Hs). congruence.
  - intros i text e Hi Hpost. apply (Hfails i text Hi).
    intros response Hr. congruence.
  - intros i text response e Hi Hpost Hs Hbody. apply (Hfails i text Hi).
    intros response' Hr. assert (response' = response) as -> by congruence.
    destruct (legacy_entry_cases response) as [_ Hread].
    destruct (Hread Hs) as [_ Hraise]. eauto.
Qed.

End EmbeddingFacts.

(** C10, as the claim states it, fails: the embeddings of a successful
    answer of the batch endpoint are returned as received, so a backend
    that sends one embedding for two texts makes the adapter return one
    vector for two texts. *)
Lemma C10_counterexample :
  ~ (forall self post_embed post_embeddings (texts : list str) model truncate keep_alive,
       texts <> [] ->
       exists vectors,
         get_embeddings self post_embed post_embeddings (inr texts) model
           truncate keep_alive = Ok (JList vectors)
         /\ length vectors = length texts).
Proof.
  intros H.
  destruct (H local_client (fun _ _ _ _ => Ok one_embedding_response)
              (fun _ _ _ => Raise (Exception (py "connection refused")))
              [py "first"; py "second"] None true (py "5m"))
    as (vectors & Hv & Hlen); [discriminate|].
  vm_compute in Hv. injection Hv as <-. discriminate.
Qed.

(** C10, amended. For every input list of texts that is not empty,
    [get_embeddings] never raises and returns a result that is not empty.
    When the batch endpoint answers 200 with an [embeddings] value that
    is not empty and has a length, the result is that value, as
    received, whatever its length; when it answers 200 with a value that
    is empty or missing,
    the result is one zero vector of dimension 768 per text. When the
    batch endpoint fails, by a request that raises, a status other than
    200 or an answer that cannot be read, the result is that of the
    legacy path: one entry per text, for each text the entry of the
    answer to its own request, the embedding it carries or the zero
    vector, when every request is answered; the zero vector for every
    text when the request of one text raises or its answer cannot be
    read. So, when neither endpoint can be reached, the result is one
    zero vector per text. *)
Theorem C10_get_embeddings_total self post_embed post_embeddings
    (texts : list str) (model : option str) (truncate : bool) (keep_alive : str) :
  texts <> [] ->
  exists found,
    get_embeddings self post_embed post_embeddings (inr texts) model
      truncate keep_alive = Ok found
    /\ json_truthy found = true
    /\ (forall response data embeddings n,
          post_embed (model_or_default self model) texts truncate keep_alive
          = Ok response ->
          status_code response = 200%Z ->
          json_body response = Ok data ->
          json_get data (py "embeddings") (JList []) = Ok embeddings ->
          json_truthy embeddings = true ->
          json_len embeddings = Ok n ->
          found = embeddings)
    /\ (forall response data embeddings,
          post_embed (model_or_default self model) texts truncate keep_alive
          = Ok response ->
          status_code response = 200%Z ->
          json_body response = Ok data ->
          json_get data (py "embeddings") (JList []) = Ok embeddings ->
          json_truthy embeddings = false ->
          found = JList (replicate (length texts) (JList (replicate 768 (JFloat 0)))))
    /\ (((exists e, post_embed (model_or_default self model) texts truncate keep_alive
                    = Raise e)
         \/ (exists response,
               post_embed (model_or_default self model) texts truncate keep_alive
               = Ok response
               /\ (status_code response <> 200%Z
                   \/ (exists e, json_body response = Raise e)
                   \/ (exists data e,
                         json_body response = Ok data
                         /\ json_get data (py "embeddings") (JList []) = Raise e)
                   \/ (exists data embeddings e,
                         json_body response = Ok data
                         /\ json_get data (py "embeddings") (JList []) = Ok embeddings
                         /\ json_truthy embeddings = true
                         /\ json_len embeddings = Raise e)))) ->
        _get_embeddings_legacy post_embeddings texts (model_or_default self model)
        = Ok found)
    /\ (exists vectors,
          _get_embeddings_legacy post_embeddings texts (model_or_default self model)
          = Ok (JList vectors)
          /\ length vectors = length texts
          /\ ((forall i text,
                 texts !! i = Some text ->
                 exists response,
                   post_embeddings i (model_or_default self model) text = Ok response
                   /\ (status_code response <> 200%Z
                       \/ exists fields, json_body response = Ok (JDict fields))) ->
              forall i text,
                texts !! i = Some text ->
                exists response,
                  post_embeddings i (model_or_default self model) text = Ok response
                  /\ vectors !! i
                     = Some (if (status_code response =? 200)%Z
                             then match json_body response with
                                  | Ok (JDict fields) =>
                                      default zero_vector (fields !! py "embedding")
                                  | _ => zero_vector
                                  end
                             else zero_vector))
          /\ (forall i text e,
                texts !! i = Some text ->
                post_embeddings i (model_or_default self model) text = Raise e ->
                vectors = replicate (length texts) zero_vector)
          /\ (forall i text response e,
                texts !! i = Some text ->
                post_embeddings i (model_or_default self model) text = Ok response ->
                status_code response = 200%Z ->
                json_body response = Raise e ->
                vectors = replicate (length texts) zero_vector))
    /\ ((exists e, post_embed (model_or_default self model) texts truncate keep_alive
                   = Raise e) ->
        (forall n text, exists e,
            post_embeddings n (model_or_default self model) text = Raise e) ->
        found = JList (replicate (length texts) (JList (replicate 768 (JFloat 0))))).
Proof.
  intros Hne. unfold get_embeddings.
  set (m := model_or_default self model).
  assert (Hlist : forall vectors : list json,
             length vectors = length texts -> json_truthy (JList vectors) = true).
  { intros [|v vs] Hl; [|reflexivity]. destruct texts; [congruence|discriminate]. }
  destruct (get_embeddings_legacy_entries post_embeddings texts m)
    as (legacy & Hleg & Hlen & Hanswered & Hraises & Hunread).
  assert (Hdown : (forall n text, exists e, post_embeddings n m text = Raise e) ->
                  JList legacy
                  = JList (replicate (length texts) (JList (replicate 768 (JFloat 0))))).
  { intros Hall. destruct texts as [|text rest] eqn:Ht; [congruence|].
    f_equal. destruct (Hall 0%nat text) as [e He].
    exact (Hraises 0%nat text e eq_refl He). }
  assert (Hpath : exists vectors,
                 _get_embeddings_legacy post_embeddings texts m
                 = Ok (JList vectors)
                 /\ length vectors = length texts
                 /\ ((forall i text,
                        texts !! i = Some text ->
                        exists response,
                          post_embeddings i m text = Ok response
                          /\ (status_code response <> 200%Z
                              \/ exists fields, json_body response = Ok (JDict fields))) ->
                     forall i text,
                       texts !! i = Some text ->
                       exists response,
                         post_embeddings i m text = Ok response
                         /\ vectors !! i
                            = Some (if (status_code response =? 200)%Z
                                    then match json_body response with
                                         | Ok (JDict fields) =>
                                             default zero_vector (fields !! py "embedding")
                                         | _ => zero_vector
                                         end
                                    else zero_vector))
                 /\ (forall i text e,
                       texts !! i = Some text ->
                       post_embeddings i m text = Raise e ->
                       vectors = replicate (length texts) zero_vector)
                 /\ (forall i text response e,
                       texts !! i = Some text ->
                       post_embeddings i m text = Ok response ->
                       status_code response = 200%Z ->
                       json_body response = Raise e ->
                       vectors = replicate (length texts) zero_vector)).
  { exists legacy. auto. }
  assert (Hpath' := Hpath). rewrite Hleg in Hpath'.
  destruct (post_embed m texts truncate keep_alive) as [response|e0] eqn:Hpost;
    cbn [try_except mbind result_bind].
  2: { exists (JList legacy). rewrite Hleg.
       split; [reflexivity|]. split; [now apply Hlist|].
       split; [intros ? ? ? ? [=]|]. split; [intros ? ? ? [=]|].
       split; [reflexivity|]. split; [exact Hpath'|]. intros _. exact Hdown. }
  destruct (status_code response =? 200)%Z eqn:Hstatus; cbn [negb].
  2: { apply Z.eqb_neq in Hstatus. exists (JList legacy). cbn. rewrite Hleg.
       split; [reflexivity|]. split; [now apply Hlist|].
       split; [intros r ? ? ? [= <-]; congruence|].
       split; [intros r ? ? [= <-]; congruence|].
       split; [reflexivity|]. split; [exact Hpath'|]. intros [e [=]]. }
  apply Z.eqb_eq in Hstatus.
  destruct (json_body response) as [data|e1] eqn:Hbody; cbn [mbind result_bind].
  2: { exists (JList legacy). cbn. rewrite Hleg.
       split; [reflexivity|]. split; [now apply Hlist|].
       split; [intros r ? ? ? [= <-]; congruence|].
       split; [intros r ? ? [= <-]; congruence|].
       split; [reflexivity|]. split; [exact Hpath'|]. intros [e [=]]. }
  destruct (json_get data (py "embeddings") (JList [])) as [embeddings|e2] eqn:Hget;
    cbn [mbind result_bind].
  2: { exists (JList legacy). cbn. rewrite Hleg.
       split; [reflexivity|]. split; [now apply Hlist|].
       split; [intros r d ? ? [= <-] _ Hd; rewrite Hbody in Hd;
               injection Hd as <-; congruence|].
       split; [intros r d ? [= <-] _ Hd; rewrite Hbody in Hd;
               injection Hd as <-; congruence|].
       split; [reflexivity|]. split; [exact Hpath'|]. intros [e [=]]. }
  destruct (json_truthy embeddings) eqn:Htruthy; cbn [negb].
  2: { exists (zero_vectors (length texts)). cbn.
       split; [reflexivity|].
       split; [apply Hlist, length_replicate|].
       split.
       { intros r d em n [= <-] _ Hd Hg Ht. rewrite Hbody in Hd. injection Hd as <-.
         rewrite Hget in Hg. injection Hg as <-. congruence. }
       split; [reflexivity|].
       split.
       { intros [[e [=]]|(r & [= <-] & [H|[[e H]|[(d & e & Hd & Hg)|(d & em & e & Hd & Hg & Ht & _)]]])];
           try congruence; rewrite Hbody in Hd; injection Hd as <-;
           try congruence; rewrite Hget in Hg; injection Hg as <-; congruence. }
       split; [exact Hpath|]. intros [e [=]]. }
  destruct (json_len embeddings) as [n|e3] eqn:Hlen'; cbn [mbind result_bind].
  2: { exists (JList legacy). cbn. rewrite Hleg.
       split; [reflexivity|]. split; [now apply Hlist|].
       split.
       { intros r d em n [= <-] _ Hd Hg _ Hn. rewrite Hbody in Hd. injection Hd as <-.
         rewrite Hget in Hg. injection Hg as <-. congruence. }
       split.
       { intros r d em [= <-] _ Hd Hg Ht. rewrite Hbody in Hd. injection Hd as <-.
         rewrite Hget in Hg. injection Hg as <-. congruence. }
       split; [reflexivity|]. split; [exact Hpath'|]. intros [e [=]]. }
  exists embeddings. cbn. split; [reflexivity|]. split; [exact Htruthy|].
  split.
  { intros r d em k [= <-] _ Hd Hg _ _. rewrite Hbody in Hd. injection Hd as <-.
    rewrite Hget in Hg. now injection Hg as <-. }
  split.
  { intros r d em [= <-] _ Hd Hg Ht. rewrite Hbody in Hd. injection Hd as <-.
    rewrite Hget in Hg. injection Hg as <-. congruence. }
  split.
  { intros [[e [=]]|(r & [= <-] & [H|[[e H]|[(d & e & Hd & Hg)|(d & em & e & Hd & Hg & Ht & Hn)]]])];
      try congruence; rewrite Hbody in Hd; injection Hd as <-;
      try congruence; rewrite Hget in Hg; injection Hg as <-; congruence. }
  split; [exact Hpath|]. intros [e [=]].
Qed.

Lemma C10_get_embeddings_total_witness :
  get_embeddings local_client
    (fun _ _ _ _ => Raise (Exception (py "connection refused")))
    (fun _ _ _ => Raise (Exception (py "connection refused")))
    (inr [py "first"; py "second"]) None true (py "5m")
  = Ok (JList (replicate 2 (JList (replicate 768 (JFloat 0))))).
Proof.
  destruct (C10_get_embeddings_total local_client
              (fun _ _ _ _ => Raise (Exception (py "connection refused")))
              (fun _ _ _ => Raise (Exception (py "connection refused")))
              [py "first"; py "second"] None true (py "5m"))
    as (found & Hfound & _ & _ & _ & _ & _ & Hdown); [discriminate|].
  rewrite Hfound, Hdown; [reflexivity|eexists; reflexivity|].
  intros n text. eexists. reflexivity.
Defined.

(** * Further properties of the code *)

(** ** The plain-chat stream: what is shown and what is hidden *)

Lemma find_in_range (p s : str) (i : nat) :
  find p s = Some i -> (i + length p <= length s)%nat.
Proof.
  intros H. destruct (find_occurrence _ _ _ H) as [r Hr].
  assert (Hi : (i <= length s)%nat).
  { clear Hr. revert i H. induction s as [|x s IH]; intros i; cbn [find].
    - destruct (startswith p []); [intros [= <-]; simpl; lia|discriminate].
    - destruct (startswith p (x :: s)); [intros [= <-]; simpl; lia|].
      destruct (find p s) as [j|]; [|discriminate]. intros [= <-].
      specialize (IH j eq_refl). simpl. lia. }
  apply (f_equal (@length _)) in Hr.
  rewrite !length_app, length_take in Hr. lia.
Qed.

(** A text splits around the occurrence that [find] returns. *)
Lemma find_split (p s : str) (i : nat) :
  find p s = Some i -> s = take i s ++ p ++ drop (i + length p) s.
Proof.
  intros H. pose proof (find_in_range _ _ _ H) as Hr.
  destruct (find_occurrence _ _ _ H) as [r Hs].
  rewrite Hs at 3. rewrite <- drop_drop.
  rewrite drop_app_length' by (rewrite length_take; lia).
  rewrite drop_app_length. exact Hs.
Qed.

(** Before its first occurrence a marker does not occur. *)
Lemma find_take_none (p s : str) (i : nat) :
  (0 < length p)%nat -> find p s = Some i -> find p (take i s) = None.
Proof.
  intros Hp H. destruct (find p (take i s)) as [j|] eqn:Hj; [|reflexivity].
  exfalso. pose proof (find_in_range _ _ _ Hj) as Hjr.
  pose proof (find_in_range _ _ _ H) as Hir.
  rewrite length_take in Hjr.
  destruct (find_occurrence _ _ _ Hj) as [r Hr].
  destruct (find_first p (take j (take i s)) (r ++ drop i s)) as (k & Hk & Hle).
  assert (Hs : take j (take i s) ++ p ++ r ++ drop i s = s).
  { transitivity ((take j (take i s) ++ p ++ r) ++ drop i s);
      [now rewrite <- !app_assoc|]. rewrite <- Hr. apply take_drop. }
  rewrite Hs, H in Hk. injection Hk as <-.
  rewrite !length_take in Hle. lia.
Qed.

Lemma concat_filter_sublist (f : str -> bool) (parts : list str) :
  concat (List.filter f parts) `sublist_of` concat parts.
Proof.
  induction parts as [|part rest IH]; [constructor|]. simpl.
  destruct (f part); simpl.
  - now apply sublist_app.
  - now apply sublist_inserts_l.
Qed.

(** What the loop does to a text: it cuts it into a consumed part and a
    tail, the remaining text outside a reasoning block or the text held
    back inside one. The parts it collects come from the consumed part,
    in order, and none of them contains an opening marker; neither does
    a tail that remains outside. *)
Lemma scan_pieces n in_thinking current_text parts thinking_buffer lv :
  (length current_text <= n)%nat ->
  scan in_thinking current_text parts thinking_buffer = Ok lv ->
  exists new consumed,
    lv_parts lv = parts ++ new
    /\ current_text
       = consumed ++ (if lv_in_thinking lv then lv_thinking_buffer lv
                      else lv_current_text lv)
    /\ (lv_in_thinking lv = true -> lv_current_text lv = [])
    /\ (lv_in_thinking lv = false -> lv_thinking_buffer lv = thinking_buffer)
    /\ concat new `sublist_of` consumed
    /\ Forall (fun part => str_in OPEN part = false) new
    /\ (lv_in_thinking lv = false -> str_in OPEN (lv_current_text lv) = false).
Proof.
  revert in_thinking current_text parts.
  induction n as [n IH] using lt_wf_ind.
  intros in_thinking current_text parts Hn. rewrite scan_turn.
  destruct in_thinking.
  - destruct (find CLOSE current_text) as [i|] eqn:Hf.
    + pose proof (find_in_range _ _ _ Hf) as Hr.
      assert (Hlen : (0 < length CLOSE)%nat) by (vm_compute; lia).
      intros Hs.
      apply (IH (length (drop (i + length CLOSE) current_text))) in Hs;
        [|rewrite length_drop; lia|lia].
      destruct Hs as (new & consumed & Hp & Ht & Hin & Hout & Hsub & Hno & Htail).
      exists new, (take (i + length CLOSE) current_text ++ consumed).
      split; [exact Hp|]. split.
      { rewrite <- app_assoc, <- Ht. symmetry. apply take_drop. }
      split; [exact Hin|]. split; [exact Hout|].
      split; [now apply sublist_inserts_l|]. split; [exact Hno|exact Htail].
    + intros [= <-]. exists [], []. cbn. rewrite app_nil_r.
      repeat split; try constructor; discriminate.
  - destruct (find OPEN current_text) as [i|] eqn:Hf.
    + pose proof (find_in_range _ _ _ Hf) as Hr.
      assert (Hlen : (0 < length OPEN)%nat) by (vm_compute; lia).
      intros Hs.
      apply (IH (length (drop (i + length OPEN) current_text))) in Hs;
        [|rewrite length_drop; lia|lia].
      destruct Hs as (new & consumed & Hp & Ht & Hin & Hout & Hsub & Hno & Htail).
      pose proof (str_in_false _ _ (find_take_none _ _ _ Hlen Hf)) as Hbefore.
      unfold append_if_visible in Hp. fold (visible (take i current_text)) in Hp.
      exists ((if visible (take i current_text) then [take i current_text] else []) ++ new),
             (take i current_text ++ OPEN ++ consumed).
      split; [destruct (visible (take i current_text)); rewrite Hp, <- ?app_assoc;
              reflexivity|].
      split.
      { rewrite <- !app_assoc, <- Ht. apply find_split, Hf. }
      split; [exact Hin|]. split; [exact Hout|]. split; [|split; [|exact Htail]].
      * rewrite concat_app. apply sublist_app; [|now apply sublist_inserts_l].
        destruct (visible (take i current_text)); simpl;
          [now rewrite app_nil_r|apply sublist_nil_l].
      * apply Forall_app. split; [|exact Hno].
        destruct (visible (take i current_text)); repeat constructor. exact Hbefore.
    + intros [= <-]. exists [], []. cbn. rewrite app_nil_r.
      repeat split; try constructor; try discriminate.
      intros _. now apply str_in_false.
Qed.

Lemma contents_fragment_parts (parts : list str) :
  contents (map (fun part => Data part false) parts) = concat parts.
Proof. apply contents_fragments. Qed.

(** One chunk: the text at hand, pending buffer and chunk, is cut into a
    consumed part, from which the fragments come in order, and the new
    pending buffer. *)
Lemma on_chunk_pieces st chunk st' evs :
  on_chunk st chunk = Ok (st', evs) ->
  exists consumed,
    thinking_buffer st ++ chunk = consumed ++ thinking_buffer st'
    /\ contents evs `sublist_of` consumed
    /\ Forall hides_marker evs.
Proof.
  unfold on_chunk.
  destruct (scan (in_thinking st) (thinking_buffer st ++ chunk) [] []) as [lv|e] eqn:Hs;
    [|discriminate].
  cbn [mbind result_bind]. intros [= <- <-]. cbn [thinking_buffer].
  destruct (scan_pieces _ _ _ _ _ _ (le_n _) Hs)
    as (new & consumed & Hp & Ht & Hin & Hout & Hsub & Hno & Htail).
  cbn [app] in Hp. rewrite contents_fragment_parts.
  assert (Hclean : forall parts, Forall (fun part => str_in OPEN part = false) parts ->
            Forall hides_marker
              (map (fun part => Data part false) (List.filter visible parts))).
  { intros parts H. apply Forall_map. apply List.Forall_forall. intros part Hpart.
    apply filter_In in Hpart as [Hpart _]. rewrite List.Forall_forall in H.
    exact (H part Hpart). }
  destruct (lv_in_thinking lv) eqn:Hit; cbn [negb andb].
  - exists consumed. split; [exact Ht|]. rewrite Hp. split; [|now apply Hclean].
    etransitivity; [apply concat_filter_sublist|exact Hsub].
  - rewrite (Hout eq_refl). exists (consumed ++ lv_current_text lv).
    split; [now rewrite app_nil_r|]. rewrite Hp.
    destruct (truthy (lv_current_text lv)) eqn:Htr.
    + split.
      * etransitivity; [apply concat_filter_sublist|].
        rewrite concat_app. cbn [concat]. rewrite app_nil_r.
        now apply sublist_app.
      * apply Hclean, Forall_app. split; [exact Hno|].
        constructor; [exact (Htail eq_refl)|constructor].
    + split; [|now apply Hclean].
      etransitivity; [apply concat_filter_sublist|]. now apply sublist_inserts_r.
Qed.

Lemma drain_pieces st chunks frags st' :
  drain st chunks = (frags, Ok st') ->
  exists consumed,
    thinking_buffer st ++ concat chunks = consumed ++ thinking_buffer st'
    /\ contents frags `sublist_of` consumed
    /\ Forall hides_marker frags.
Proof.
  revert st frags. induction chunks as [|chunk rest IH]; intros st frags; cbn [drain].
  - intros [= <- <-]. exists []. cbn [concat app]. rewrite app_nil_r.
    split; [reflexivity|]. split; constructor.
  - destruct (on_chunk st chunk) as [[st1 evs]|e] eqn:Hc; [|discriminate].
    destruct (drain st1 rest) as [evs' r] eqn:Hd. intros [= <- ->].
    destruct (on_chunk_pieces _ _ _ _ Hc) as (c1 & H1 & Hs1 & Hm1).
    destruct (IH _ _ Hd) as (c2 & H2 & Hs2 & Hm2).
    exists (c1 ++ c2). split; [|split].
    + cbn [concat]. rewrite app_assoc, H1, <- !app_assoc. now f_equal.
    + rewrite contents_app. now apply sublist_app.
    + now apply Forall_app.
Qed.

(** X1. The visible output of the plain-chat stream is a subsequence of
    the text the model sent: the generator drops text, but never invents,
    repeats or reorders any. *)
Theorem X1_visible_output_is_subsequence (up : upstream) :
  contents (generate up) `sublist_of` concat (up_chunks up).
Proof.
  destruct (generate_shape up) as (frags & st & Hd & _ & _ & ->).
  destruct (drain_pieces _ _ _ _ Hd) as (consumed & Hc & Hs & _).
  cbn [initial_state thinking_buffer app] in Hc. rewrite Hc, contents_app.
  apply sublist_app; [exact Hs|].
  unfold terminal. destruct (up_raises up); apply sublist_nil_l.
Qed.

(** X2. No event of the plain-chat stream carries a whole ["<think>"]:
    an opening marker that arrives in one piece is never forwarded. The
    closing marker is not hidden in this way: a chunk without opening
    marker that is not blank is forwarded as it is, so a ["</think>"]
    that arrives outside a reasoning block is sent to the client. *)
Theorem X2_no_fragment_shows_a_whole_marker (up : upstream) :
  Forall hides_marker (generate up)
  /\ (forall chunk,
        str_in OPEN chunk = false ->
        visible chunk = true ->
        generate (Upstream [chunk] None) = [Data chunk false; Data [] true])
  /\ generate (Upstream [CLOSE] None) = [Data CLOSE false; Data [] true].
Proof.
  assert (Hpass : forall chunk,
             str_in OPEN chunk = false ->
             visible chunk = true ->
             generate (Upstream [chunk] None) = [Data chunk false; Data [] true]).
  { intros chunk Ho Hv. unfold generate, run, initial_state. cbn [up_chunks up_raises].
    rewrite (drain_outside [] [chunk]) by (constructor; [exact Ho|constructor]).
    cbn [List.filter]. rewrite Hv. reflexivity. }
  split; [|split; [exact Hpass|]].
  - destruct (generate_shape up) as (frags & st & Hd & _ & _ & ->).
    destruct (drain_pieces _ _ _ _ Hd) as (consumed & _ & _ & Hm).
    apply Forall_app. split; [exact Hm|].
    unfold terminal. destruct (up_raises up); repeat constructor.
  - apply Hpass; vm_compute; reflexivity.
Qed.

(** X3. When the opening marker arrives whole, the reasoning block is
    suppressed however the rest is cut: for a visible [A] and [C] without
    an opening marker and a reasoning text without a closing one, a
    chunk that ends [A], opens the block and starts the reasoning, then
    any split of the rest of the reasoning and the closing marker, then
    [C], yield [A] and [C] and the completion event, nothing else. *)
Theorem X3_reasoning_is_suppressed (A B0 B C : str) (middle : list str) :
  visible A = true -> str_in OPEN A = false ->
  visible C = true -> str_in OPEN C = false ->
  str_in CLOSE B = false -> str_in CLOSE B0 = false ->
  B0 ++ concat middle = B ++ CLOSE ->
  generate (Upstream ([A ++ OPEN ++ B0] ++ middle ++ [C]) None)
  = [Data A false; Data C false; Data [] true].
Proof.
  intros HvA HoA HvC HoC HB HB0 Hmid.
  assert (Hdrain : forall response rest st,
             drain (SegState response false []) rest = ([Data C false], Ok st) ->
             drain (SegState response true B0) (middle ++ rest)
             = ([Data C false], Ok st)).
  { intros response rest st Hrest.
    assert (Happ : forall chunks1 s1 s2 chunks2 evs r,
               drain s1 chunks1 = ([], Ok s2) -> drain s2 chunks2 = (evs, r) ->
               drain s1 (chunks1 ++ chunks2) = (evs, r)).
    { induction chunks1 as [|c cs IH]; intros s1 s2 chunks2 evs r; cbn [drain app].
      - intros [= <-]. tauto.
      - destruct (on_chunk s1 c) as [[s1' e1]|]; [|discriminate].
        destruct (drain s1' cs) as [e2 r2] eqn:Hcs. intros [= He ->] H2.
        apply app_eq_nil in He as [-> ->].
        rewrite (IH _ _ _ _ _ Hcs H2). reflexivity. }
    eapply Happ; [|exact Hrest].
    exact (drain_closing_any_split B response B0 middle HB HB0 Hmid). }
  unfold generate, run, initial_state. cbn [up_chunks up_raises app drain].
  rewrite (on_chunk_opening [] A B0 HoA HB0), HvA. cbn [app].
  rewrite (Hdrain A [C] (SegState (A ++ C) false [])).
  - reflexivity.
  - cbn [drain]. rewrite (on_chunk_visible A C HvC HoC). reflexivity.
Qed.

Lemma X3_reasoning_is_suppressed_witness :
  generate (Upstream [py "Hello <think>let me"; py " see</th"; py "ink>"; py "world"] None)
  = [Data (py "Hello ") false; Data (py "world") false; Data [] true].
Proof.
  apply (X3_reasoning_is_suppressed (py "Hello ") (py "let me") (py "let me see")
           (py "world") [py " see</th"; py "ink>"]); reflexivity.
Defined.

(** ** The chat handler and the search: what they never do *)

Lemma history_turn_filter_length {A B} (f : A -> option B) (l : list A) :
  (length (omap f l) <= length l)%nat.
Proof.
  induction l as [|a l IH]; [reflexivity|]. cbn [omap list_omap].
  destruct (f a); simpl; lia.
Qed.

Lemma history_turns_last_ten (turns : list (gmap str str)) :
  history_turns (Some turns)
  = history_turns (Some (drop (length turns - 10) turns)).
Proof.
  destruct turns as [|x l]; [reflexivity|].
  set (all := x :: l). unfold history_turns at 1. fold all.
  assert (Hlen : (length (drop (length all - 10) all) <= 10)%nat)
    by (rewrite length_drop; lia).
  destruct (drop (length all - 10) all) as [|y rest] eqn:E; [reflexivity|].
  unfold history_turns.
  replace (length (y :: rest) - 10)%nat with 0%nat by lia. reflexivity.
Qed.

(** X4. The history sent to the model is bounded: at most ten turns, each
    with a role and a content that are not empty, taken from the last ten
    entries of the request's history; older entries never reach the
    model. *)
Theorem X4_history_is_bounded (h : option (list (gmap str str)))
    (old recent : list (gmap str str)) :
  length recent = 10%nat ->
  (length (history_turns h) <= 10)%nat
  /\ Forall (fun t => truthy (role t) = true /\ truthy (content t) = true)
       (history_turns h)
  /\ history_turns (Some (old ++ recent)) = history_turns (Some recent).
Proof.
  intros Hrecent. split; [|split].
  - destruct h as [[|d turns]|]; unfold history_turns; try (simpl; lia).
    etransitivity; [apply history_turn_filter_length|].
    rewrite length_drop. lia.
  - destruct h as [[|d turns]|]; unfold history_turns; try constructor.
    match goal with |- context [omap _ ?l] => generalize l end. intros l.
    induction l as [|x l IH]; [constructor|]. cbn [omap list_omap].
    destruct (x !! py "role") as [r|]; [|exact IH].
    destruct (x !! py "content") as [c|]; [|exact IH].
    destruct (truthy r) eqn:Hr; [|exact IH].
    destruct (truthy c) eqn:Hc; [|exact IH].
    constructor; [split; assumption|exact IH].
  - rewrite (history_turns_last_ten (old ++ recent)).
    rewrite length_app, Hrecent.
    replace (length old + 10 - 10)%nat with (length old) by lia.
    now rewrite drop_app_length.
Qed.

Lemma X4_history_is_bounded_witness :
  history_turns
    (Some ([{[ py "role" := py "user"; py "content" := py "first question" ]}]
           ++ replicate 10 {[ py "role" := py "assistant"; py "content" := py "ok" ]}))
  = replicate 10 (ChatTurn (py "assistant") (py "ok")).
Proof.
  rewrite (proj2 (proj2 (X4_history_is_bounded None
             [{[ py "role" := py "user"; py "content" := py "first question" ]}]
             (replicate 10 {[ py "role" := py "assistant"; py "content" := py "ok" ]})
             eq_refl))).
  vm_compute. reflexivity.
Defined.

(** The search never raises, whatever its collaborators do. *)
Lemma search_knowledge_total get_embeddings search_similar query top_k category :
  exists docs,
    search_knowledge get_embeddings search_similar query top_k category = Ok docs.
Proof.
  unfold search_knowledge, try_except.
  match goal with |- exists docs, match ?b with _ => _ end = _ => destruct b end;
    eauto.
Qed.

(** X5. The search of the knowledge base never raises, whatever the
    embedding call and the store do. It returns no document for a blank
    query; any document it returns is one of the store's answers to the
    first embedding of the query, formatted, none lost, highest
    similarity first. *)
Theorem X5_search_never_raises get_embeddings search_similar
    (query : str) (top_k : Z) (category : option str) :
  exists docs,
    search_knowledge get_embeddings search_similar query top_k category = Ok docs
    /\ StronglySorted not_less_similar docs
    /\ (visible query = false -> docs = [])
    /\ (docs = []
        \/ exists v vs filter results,
             get_embeddings [query] = Ok (v :: vs)
             /\ search_similar v top_k filter = Ok results
             /\ Permutation docs (map format_result results)).
Proof.
  unfold search_knowledge. fold (visible query).
  destruct (visible query) eqn:Hq; cbn [negb].
  2: { exists []. repeat split; try constructor; auto. }
  destruct (get_embeddings [query]) as [[|v vs]|e] eqn:He; cbn.
  1, 3: exists []; repeat split; try constructor; auto; discriminate.
  match goal with
  | |- context [search_similar v top_k ?f] =>
      destruct (search_similar v top_k f) as [results|e] eqn:Hs
  end; cbn.
  - eexists. split; [reflexivity|]. split; [apply formatted_results_sorted|].
    split; [discriminate|]. right. do 4 eexists. split; [reflexivity|].
    split; [exact Hs|]. apply sort_by_similarity_desc_perm.
  - exists []. repeat split; try constructor; auto; discriminate.
Qed.

Lemma str_join_framed (sep before body after : str) :
  str_join sep [before; []; body; []; after]
  = (before ++ sep ++ sep) ++ body ++ (sep ++ sep ++ after).
Proof. cbn [str_join app]. rewrite <- !app_assoc. reflexivity. Qed.

(** X6. The chat handler never answers with an error: whatever the
    request and whatever the embedding service and the store do, it
    makes exactly one call to the model, as its last call, with the kept
    history followed by one user turn that contains the message, and the
    ten-minute keep-alive; its response is the stream of that call. *)
Theorem X6_chat_handler_never_fails get_embeddings search_similar ollama_chat_stream
    (m : ChatMessage) :
  exists calls system_prompt before after,
    chat_stream get_embeddings search_similar ollama_chat_stream m
    = (calls ++ [ChatStream
                   (history_turns (history m)
                    ++ [ChatTurn (py "user") (before ++ message m ++ after)])
                   system_prompt (py "10m")],
       Ok (generate
             (ollama_chat_stream
                (history_turns (history m)
                 ++ [ChatTurn (py "user") (before ++ message m ++ after)])
                system_prompt (py "10m"))))
    /\ Forall (fun c => match c with ChatStream _ _ _ => False | _ => True end) calls.
Proof.
  unfold chat_stream. destruct (dict_truthy (coding_rule m)).
  - eexists [], _, _, _.
    split; [|constructor].
    unfold rule_user_content. rewrite str_join_framed. reflexivity.
  - destruct (search_knowledge_total get_embeddings search_similar (message m) 3 None)
      as [docs ->].
    exists [SearchKnowledge (message m) 3], knowledge_system_prompt, [],
      (match docs with [] => [] | _ => context_info docs end).
    split; [|repeat constructor].
    destruct docs as [|doc docs]; [rewrite app_nil_r|]; reflexivity.
Qed.

(** ** The vector store *)

Lemma list_index_ok {A} (items : list A) i item :
  list_index items i = Ok item <-> items !! i = Some item.
Proof.
  unfold list_index. destruct (items !! i); split; intros H; congruence.
Qed.

Lemma cell_or_ok {A} (rows : option (list (list A))) i fallback cell :
  cell_or rows i fallback = Ok cell ->
  match rows with
  | Some (_ :: _) => first_row rows !! i = Some cell
  | _ => cell = fallback
  end.
Proof.
  destruct rows as [[|row rows]|]; cbn; try congruence.
  apply list_index_ok.
Qed.

(** What one successful run of the loop appends: one result per index,
    made of the cells at that index. *)
Lemma format_rows_ok results row rows indices formatted_results rs :
  format_rows results (row :: rows) indices formatted_results = Ok rs ->
  exists new,
    rs = formatted_results ++ new /\
    Forall2 (fun i r =>
               first_row (Some (qr_ids results)) !! i = Some (sr_id r) /\
               row !! i = Some (sr_content r) /\
               (exists metadata,
                  sr_metadata r = Some metadata /\
                  cell_or (qr_metadatas results) i ∅ = Ok metadata) /\
               (exists distance,
                  sr_distance r = Some distance /\
                  cell_or (qr_distances results) i 0%float = Ok distance))
            indices new.
Proof.
  revert formatted_results.
  induction indices as [|i rest IH]; intros formatted_results H; cbn in H.
  - exists []. rewrite app_nil_r. split; [congruence|constructor].
  - destruct (list_index (qr_ids results) 0) as [ids|] eqn:Hids; [|discriminate].
    cbn in H. destruct (list_index ids i) as [id|] eqn:Hid; [|discriminate].
    cbn in H. destruct (list_index row i) as [content|] eqn:Hc; [|discriminate].
    cbn in H.
    destruct (cell_or (qr_metadatas results) i ∅) as [metadata|] eqn:Hm; [|discriminate].
    cbn in H.
    destruct (cell_or (qr_distances results) i 0%float) as [distance|] eqn:Hd;
      [|discriminate].
    cbn in H. apply IH in H as (new & -> & Hnew).
    eexists (_ :: new). rewrite <- app_assoc. split; [reflexivity|].
    constructor; [|exact Hnew]. cbn.
    apply list_index_ok in Hids, Hid, Hc.
    destruct (qr_ids results) as [|ids' idss]; [discriminate|].
    cbn in Hids. injection Hids as ->. eauto 10.
Qed.

Lemma lookups_take {A B} (f : B -> A) (cells : list A) (new : list B) start n :
  Forall2 (fun i r => cells !! i = Some (f r)) (seq start n) new ->
  map f new = take n (drop start cells).
Proof.
  revert start new. induction n as [|n IH]; intros start new H; cbn in H.
  - apply Forall2_nil_inv_l in H as ->. reflexivity.
  - apply Forall2_cons_inv_l in H as (r & new' & Hr & H & ->).
    rewrite (drop_S _ _ _ Hr). cbn. f_equal. now apply IH.
Qed.

(** A list whose similarities are all the same number is left as it is
    by the sort. *)
Lemma sort_by_similarity_desc_ties (s : float) docs :
  Forall (fun d => doc_similarity d = s) docs ->
  sort_by_similarity_desc docs = docs.
Proof.
  induction 1 as [|x docs Hx Hdocs IH]; [reflexivity|].
  cbn [sort_by_similarity_desc foldr]. fold (sort_by_similarity_desc docs).
  rewrite IH. destruct Hdocs as [|y docs Hy _]; [reflexivity|].
  cbn. rewrite Hx, Hy, float_ltb_irrefl. reflexivity.
Qed.

Lemma search_similar_ok collection query_embedding top_k filter_metadata rs :
  search_similar collection query_embedding top_k filter_metadata = Ok rs ->
  exists query results,
    collection = Some query /\
    query [query_embedding] top_k filter_metadata = Ok results /\
    Forall2 (fun i r =>
               first_row (Some (qr_ids results)) !! i = Some (sr_id r) /\
               first_row (qr_documents results) !! i = Some (sr_content r) /\
               (exists metadata,
                  sr_metadata r = Some metadata /\
                  cell_or (qr_metadatas results) i ∅ = Ok metadata) /\
               (exists distance,
                  sr_distance r = Some distance /\
                  cell_or (qr_distances results) i 0%float = Ok distance))
            (seq 0 (length (first_row (qr_documents results)))) rs.
Proof.
  unfold search_similar. intros H.
  destruct collection as [query|]; [|discriminate].
  destruct (query [query_embedding] top_k filter_metadata) as [results|] eqn:Hq;
    [|discriminate].
  exists query, results. split; [reflexivity|]. split; [exact Hq|].
  cbn in H.
  destruct (qr_documents results) as [[|[|cell row] rows]|];
    try (injection H as <-; constructor).
  apply format_rows_ok in H as (new & -> & H). exact H.
Qed.

(** X7. What a successful vector search returns is aligned with the
    answer of the collection: one result for each document of the first
    row, in the row's order, with the id that stands at the same place
    in the first row of ids; each result carries a metadata and a
    distance, which is [0] throughout when the collection sends no
    distances. A search does not succeed on a store that is not
    initialised or whose query raises. *)
Theorem X7_search_results_are_aligned collection query_embedding top_k
    filter_metadata rs :
  search_similar collection query_embedding top_k filter_metadata = Ok rs ->
  exists query results,
    collection = Some query /\
    query [query_embedding] top_k filter_metadata = Ok results /\
    map sr_content rs = first_row (qr_documents results) /\
    map sr_id rs = take (length rs) (first_row (Some (qr_ids results))) /\
    Forall (fun r => is_Some (sr_metadata r) /\ is_Some (sr_distance r)) rs /\
    (qr_distances results = None ->
     Forall (fun r => sr_distance r = Some 0%float) rs).
Proof.
  intros H. apply search_similar_ok in H as (query & results & -> & Hq & H).
  exists query, results. split; [reflexivity|]. split; [exact Hq|].
  pose proof (Forall2_length _ _ _ H) as Hlen. rewrite length_seq in Hlen.
  repeat split.
  - rewrite (lookups_take sr_content (first_row (qr_documents results)) rs 0
               (length (first_row (qr_documents results)))).
    + cbn. apply firstn_all.
    + eapply Forall2_impl; [exact H|]. cbn. tauto.
  - rewrite <- Hlen.
    apply (lookups_take sr_id (first_row (Some (qr_ids results))) rs 0).
    eapply Forall2_impl; [exact H|]. cbn. tauto.
  - eapply Forall2_Forall_r; [exact H|].
    apply List.Forall_forall. intros i _ r (_ & _ & (m & -> & _) & (d & -> & _)).
    split; eexists; reflexivity.
  - intros Hnone. eapply Forall2_Forall_r; [exact H|].
    apply List.Forall_forall. intros i _ r (_ & _ & _ & (d & -> & Hd)).
    rewrite Hnone in Hd. cbn in Hd. congruence.
Qed.

Lemma X7_search_results_are_aligned_witness :
  exists query results,
    Some two_bare_documents = Some query /\
    query [[]] 3%Z None = Ok results /\
    map sr_content
      [StoreResult (py "id-1") (py "one") (Some ∅) (Some 0%float);
       StoreResult (py "id-2") (py "two") (Some ∅) (Some 0%float)]
    = first_row (qr_documents results).
Proof.
  destruct (X7_search_results_are_aligned (Some two_bare_documents) [] 3 None
              [StoreResult (py "id-1") (py "one") (Some ∅) (Some 0%float);
               StoreResult (py "id-2") (py "two") (Some ∅) (Some 0%float)])
    as (query & results & H1 & H2 & H3 & _).
  - vm_compute. reflexivity.
  - exists query, results. auto.
Defined.

(** X8. When the collection sends no distances, the knowledge search
    gives every document the similarity [1] and returns the documents in
    the order of the store: the contents of its answer are the first row
    of documents. *)
Theorem X8_no_distances_keep_store_order get_embeddings query q top_k v vs results :
  visible q = true ->
  get_embeddings [q] = Ok (v :: vs) ->
  query [v] top_k None = Ok results ->
  qr_distances results = None ->
  (exists rs, search_similar (Some query) v top_k None = Ok rs) ->
  exists docs,
    search_knowledge get_embeddings (search_similar (Some query)) q top_k None
    = Ok docs /\
    map doc_content docs = first_row (qr_documents results) /\
    Forall (fun d => doc_similarity d = 1%float /\ doc_distance d = 0%float) docs.
Proof.
  intros Hq He Hr Hnone [rs Hs].
  destruct (search_similar_ok _ _ _ _ _ Hs) as (query' & results' & Hc & Hq' & H).
  injection Hc as <-. rewrite Hr in Hq'. injection Hq' as <-.
  assert (Hd : Forall (fun r => sr_distance r = Some 0%float) rs).
  { eapply Forall2_Forall_r; [exact H|].
    apply List.Forall_forall. intros i _ r (_ & _ & _ & (d & -> & Hd)).
    rewrite Hnone in Hd. cbn in Hd. congruence. }
  assert (Hsim : Forall (fun d => doc_similarity d = 1%float /\ doc_distance d = 0%float)
                   (map format_result rs)).
  { apply Forall_map. eapply Forall_impl; [exact Hd|].
    intros r Hr0. unfold format_result. cbn. rewrite Hr0. split; reflexivity. }
  exists (map format_result rs).
  rewrite (search_knowledge_found _ _ _ _ _ _ _ Hq He Hs).
  rewrite (sort_by_similarity_desc_ties 1%float)
    by (eapply Forall_impl; [exact Hsim|]; cbn; tauto).
  split; [reflexivity|]. split; [|exact Hsim].
  rewrite map_map. cbn.
  change (map (fun x => sr_content x) rs) with (map sr_content rs).
  rewrite (lookups_take sr_content (first_row (qr_documents results)) rs 0
             (length (first_row (qr_documents results)))).
  - cbn. apply firstn_all.
  - eapply Forall2_impl; [exact H|]. cbn. tauto.
Qed.

Lemma X8_no_distances_keep_store_order_witness :
  exists docs,
    search_knowledge (fun _ => Ok [[]]) (search_similar (Some two_bare_documents))
      (py "q") 3 None = Ok docs /\
    map doc_content docs = [py "one"; py "two"].
Proof.
  destruct (X8_no_distances_keep_store_order (fun _ => Ok [[]]) two_bare_documents
              (py "q") 3 [] []
              (QueryResult [[py "id-1"; py "id-2"]] (Some [[py "one"; py "two"]])
                 None None))
    as (docs & H1 & H2 & _).
  - vm_compute. reflexivity.
  - reflexivity.
  - reflexivity.
  - reflexivity.
  - eexists. vm_compute. reflexivity.
  - exists docs. split; [exact H1|exact H2].
Defined.

(** ** The bot handler *)

Lemma lstrip_idempotent (s : str) : lstrip (lstrip s) = lstrip s.
Proof.
  induction s as [|c s IH]; [reflexivity|]. cbn.
  destruct (isspace c) eqn:E; [exact IH|]. cbn. now rewrite E.
Qed.

Lemma lstrip_snoc (s : str) (c : char) :
  isspace c = false -> lstrip (s ++ [c]) = lstrip s ++ [c].
Proof.
  intros Hc. induction s as [|d s IH]; cbn.
  - now rewrite Hc.
  - destruct (isspace d); [exact IH|reflexivity].
Qed.

Lemma rstrip_idempotent (s : str) : rstrip (rstrip s) = rstrip s.
Proof. unfold rstrip. now rewrite rev_involutive, lstrip_idempotent. Qed.

(** Trimming the right end leaves a trimmed left end as it is. *)
Lemma lstrip_rstrip_lstrip (s : str) : lstrip (rstrip (lstrip s)) = rstrip (lstrip s).
Proof.
  induction s as [|c s IH]; [reflexivity|]. cbn [lstrip].
  destruct (isspace c) eqn:E; [exact IH|].
  unfold rstrip. cbn [rev]. rewrite (lstrip_snoc _ _ E), rev_app_distr.
  cbn. now rewrite E.
Qed.

Lemma strip_idempotent (s : str) : strip (strip s) = strip s.
Proof. unfold strip. now rewrite lstrip_rstrip_lstrip, rstrip_idempotent. Qed.

Lemma bot_collect_filter (chunks : list str) (response_content : str) :
  bot_collect chunks response_content
  = response_content
    ++ concat (List.filter (fun chunk => negb (str_in OPEN chunk)
                                         && negb (str_in CLOSE chunk)) chunks).
Proof.
  revert response_content.
  induction chunks as [|chunk rest IH]; intros response_content; cbn.
  - now rewrite app_nil_r.
  - rewrite IH.
    destruct (negb (str_in OPEN chunk) && negb (str_in CLOSE chunk)); cbn;
      [now rewrite app_assoc|reflexivity].
Qed.

Lemma random_choice_In (entropy : nat) (seq : list str) :
  seq <> [] -> In (random_choice entropy seq) seq.
Proof.
  intros Hseq. unfold random_choice.
  destruct (seq !! (entropy mod length seq)%nat) as [x|] eqn:E.
  - cbn. apply list_elem_of_In. eapply list_elem_of_lookup_2. exact E.
  - apply lookup_ge_None in E.
    assert (Hlen : (length seq <> 0)%nat) by (destruct seq; [congruence|discriminate]).
    pose proof (Nat.mod_upper_bound entropy (length seq) Hlen) as Hup.
    exfalso. exact (Nat.lt_irrefl _ (Nat.lt_le_trans _ _ _ Hup E)).
Qed.

(** X9. The answer of the non-streaming bot branch is never blank and
    is trimmed. It is the apology, or the upstream ended normally and
    the answer is the trimmed concatenation of the chunks that contain
    no marker. *)
Theorem X9_bot_answer_is_never_blank (up : upstream) :
  visible (bot_answer up) = true /\
  strip (bot_answer up) = bot_answer up /\
  (bot_answer up = bot_error_message \/
   up_raises up = None /\
   bot_answer up
   = strip (concat (List.filter (fun chunk => negb (str_in OPEN chunk)
                                              && negb (str_in CLOSE chunk))
                      (up_chunks up)))).
Proof.
  assert (Hsorry : strip bot_error_message = bot_error_message)
    by (vm_compute; reflexivity).
  assert (Hvis : visible bot_error_message = true) by (vm_compute; reflexivity).
  unfold bot_answer. destruct (up_raises up) as [e|].
  - rewrite Hsorry. auto.
  - cbv zeta. rewrite bot_collect_filter. cbn [app].
    match goal with |- context [List.filter ?p ?l] => generalize (concat (List.filter p l)) end.
    intros kept. destruct (truthy (strip kept)) eqn:E; cbn [negb].
    + unfold visible. rewrite strip_idempotent. auto.
    + rewrite Hsorry. auto.
Qed.

(** X10. The non-streaming bot branch does not suppress reasoning that
    arrives in chunks of its own: when the two markers come as separate
    chunks and no other chunk contains a marker, the answer is the
    trimmed text of all the other chunks, reasoning included. *)
Theorem X10_bot_answer_keeps_reasoning_chunks (before reasoning after : list str) :
  Forall (fun chunk => str_in OPEN chunk = false /\ str_in CLOSE chunk = false)
    (before ++ reasoning ++ after) ->
  visible (concat (before ++ reasoning ++ after)) = true ->
  bot_answer (Upstream (before ++ [OPEN] ++ reasoning ++ [CLOSE] ++ after) None)
  = strip (concat (before ++ reasoning ++ after)).
Proof.
  intros Hfree Hvis. unfold bot_answer. cbn [up_raises up_chunks].
  rewrite bot_collect_filter. cbn [app].
  set (keep := fun chunk => negb (str_in OPEN chunk) && negb (str_in CLOSE chunk)).
  assert (Hkeep : forall chunks,
             Forall (fun chunk => str_in OPEN chunk = false
                                  /\ str_in CLOSE chunk = false) chunks ->
             List.filter keep chunks = chunks).
  { induction 1 as [|chunk chunks [Ho Hc] _ IH]; [reflexivity|].
    cbn. unfold keep at 1. rewrite Ho, Hc. cbn. now rewrite IH. }
  apply Forall_app in Hfree as [Hb Hfree]. apply Forall_app in Hfree as [Hr Ha].
  assert (Hopen : keep OPEN = false) by (vm_compute; reflexivity).
  assert (Hclose : keep CLOSE = false) by (vm_compute; reflexivity).
  rewrite List.filter_app. cbn [List.filter]. rewrite Hopen, List.filter_app.
  cbn [List.filter]. rewrite Hclose, !Hkeep by assumption.
  unfold visible in Hvis. rewrite Hvis. reflexivity.
Qed.

Lemma X10_bot_answer_keeps_reasoning_chunks_witness :
  bot_answer (Upstream ([py "A "] ++ [OPEN] ++ [py "why"] ++ [CLOSE] ++ [py " C"]) None)
  = strip (concat ([py "A "] ++ [py "why"] ++ [py " C"])).
Proof.
  apply (X10_bot_answer_keeps_reasoning_chunks [py "A "] [py "why"] [py " C"]).
  - repeat constructor.
  - vm_compute. reflexivity.
Defined.

Section BotFacts.

Variable get_bot_by_id : str -> result (option (gmap str sql_value)).
Variable get_embeddings : list str -> result (list (list float)).
Variable search_similar :
  list float -> Z -> option (gmap str str) -> result (list store_result).
Variable ollama_chat_stream : list chat_turn -> str -> str -> upstream.
Variable entropy : nat.
Variable now : Z.

Lemma bot_model_call_total bot item streaming :
  exists after,
    bot_model_call get_embeddings search_similar bot item streaming
    = Ok ([ChatTurn (py "user") (item_message item ++ after)],
          bot_system_prompt bot streaming).
Proof.
  unfold bot_model_call.
  destruct (search_knowledge_total get_embeddings search_similar (item_message item)
              3 None) as [docs ->].
  cbn [mbind result_bind].
  destruct docs as [|doc docs].
  - exists []. now rewrite app_nil_r.
  - eexists. reflexivity.
Qed.

(** X11. The bot handler fails in two cases only, both before any call
    to the knowledge base or the model: an unknown bot gives the status
    404, which is not turned into a 500, and a failing lookup gives the
    status 500 with the text of the exception. For a bot that exists the
    handler answers, whatever the embedding service, the store and the
    model do. *)
Theorem X11_bot_chat_fails_on_lookup_only (item : BotChatRequest) :
  match get_bot_by_id (item_bot_id item) with
  | Ok (Some bot) =>
      exists response,
        snd (bot_chat get_bot_by_id get_embeddings search_similar ollama_chat_stream
             entropy now item)
        = Ok response
  | Ok None =>
      bot_chat get_bot_by_id get_embeddings search_similar ollama_chat_stream
        entropy now item
      = ([], Raise (HTTPException 404 (py "机器人不存在")))
  | Raise e =>
      exists status detail,
        bot_chat get_bot_by_id get_embeddings search_similar ollama_chat_stream
          entropy now item
        = ([], Raise (HTTPException status detail)) /\
        ((forall s d, e <> HTTPException s d) ->
         status = 500%Z /\ detail = str_of_exn e)
  end.
Proof.
  unfold bot_chat, bot_chat_body.
  destruct (get_bot_by_id (item_bot_id item)) as [[bot|]|e].
  - destruct (knowledge_base_enabled bot).
    + destruct (bot_model_call_total bot item
                  (match item_stream item with Some true => true | _ => false end))
        as [after ->].
      eexists. reflexivity.
    + eexists. reflexivity.
  - reflexivity.
  - destruct e; try (eexists _, _; split; [reflexivity|auto]).
    intros H. now destruct (H status detail).
Qed.

(** X12. A bot whose knowledge base is disabled answers without
    calling the knowledge base or the model: the response is one of the
    five canned sentences of the bot, sent as one content event before
    the sentinel when streaming is asked for. *)
Theorem X12_disabled_bot_calls_nothing (item : BotChatRequest) bot :
  get_bot_by_id (item_bot_id item) = Ok (Some bot) ->
  knowledge_base_enabled bot = false ->
  exists response,
    In response (simple_responses bot) /\
    bot_chat get_bot_by_id get_embeddings search_similar ollama_chat_stream
      entropy now item
    = ([], Ok (match item_stream item with
               | Some true => Streaming [BotData response; BotDone]
               | _ => Answer response
                        (conversation_id_or (item_conversation_id item) now)
               end)).
Proof.
  intros Hbot Hkb. unfold bot_chat, bot_chat_body. rewrite Hbot, Hkb.
  exists (random_choice entropy (simple_responses bot)). split.
  - apply random_choice_In. discriminate.
  - destruct (item_stream item) as [[|]|]; reflexivity.
Qed.

(** X13. A bot whose knowledge base is enabled searches the knowledge
    base once, for the message and three results, and then calls the
    model once, with the bot's system prompt, the keep-alive of ten
    minutes and a single user turn that starts with the message; no
    history is sent. The response is the bot stream of that call, or its
    non-streaming answer. *)
Theorem X13_enabled_bot_calls_search_then_model (item : BotChatRequest) bot :
  get_bot_by_id (item_bot_id item) = Ok (Some bot) ->
  knowledge_base_enabled bot = true ->
  exists after streaming,
    let messages := [ChatTurn (py "user") (item_message item ++ after)] in
    let system_prompt := bot_system_prompt bot streaming in
    let up := ollama_chat_stream messages system_prompt (py "10m") in
    streaming = bool_decide (item_stream item = Some true) /\
    bot_chat get_bot_by_id get_embeddings search_similar ollama_chat_stream
      entropy now item
    = ([SearchKnowledge (item_message item) 3;
        ChatStream messages system_prompt (py "10m")],
       Ok (if streaming then Streaming (bot_generate up)
           else Answer (bot_answer up)
                  (conversation_id_or (item_conversation_id item) now))).
Proof.
  intros Hbot Hkb. unfold bot_chat, bot_chat_body. rewrite Hbot, Hkb.
  destruct (bot_model_call_total bot item
              (match item_stream item with Some true => true | _ => false end))
    as [after ->].
  exists after, (match item_stream item with Some true => true | _ => false end).
  cbv zeta. split; [|reflexivity].
  destruct (item_stream item) as [[|]|]; reflexivity.
Qed.

End BotFacts.

Lemma X12_disabled_bot_calls_nothing_witness :
  exists response,
    In response (simple_responses (example_bot 0)) /\
    bot_chat (fun _ => Ok (Some (example_bot 0))) (fun _ => Ok [])
      (fun _ _ _ => Ok []) (fun _ _ _ => Upstream [] None) 7 1700000000
      {| item_bot_id := py "b1"; item_message := py "hi";
         item_conversation_id := None; item_stream := Some true |}
    = ([], Ok (Streaming [BotData response; BotDone])).
Proof.
  apply (X12_disabled_bot_calls_nothing (fun _ => Ok (Some (example_bot 0)))
           (fun _ => Ok []) (fun _ _ _ => Ok []) (fun _ _ _ => Upstream [] None)
           7 1700000000
           {| item_bot_id := py "b1"; item_message := py "hi";
              item_conversation_id := None; item_stream := Some true |}
           (example_bot 0)).
  - reflexivity.
  - vm_compute. reflexivity.
Defined.

Lemma X13_enabled_bot_calls_search_then_model_witness :
  exists after streaming,
    streaming = false /\
    bot_chat (fun _ => Ok (Some (example_bot 1))) (fun _ => Ok [])
      (fun _ _ _ => Ok []) (fun _ _ _ => Upstream [py "hello"] None) 7 1700000000
      {| item_bot_id := py "b1"; item_message := py "hi";
         item_conversation_id := Some (py "c1"); item_stream := None |}
    = ([SearchKnowledge (py "hi") 3;
        ChatStream [ChatTurn (py "user") (py "hi" ++ after)]
          (bot_system_prompt (example_bot 1) streaming) (py "10m")],
       Ok (if streaming then Streaming (bot_generate (Upstream [py "hello"] None))
           else Answer (bot_answer (Upstream [py "hello"] None)) (py "c1"))).
Proof.
  destruct (X13_enabled_bot_calls_search_then_model
              (fun _ => Ok (Some (example_bot 1)))
              (fun _ => Ok []) (fun _ _ _ => Ok [])
              (fun _ _ _ => Upstream [py "hello"] None) 7 1700000000
              {| item_bot_id := py "b1"; item_message := py "hi";
                 item_conversation_id := Some (py "c1"); item_stream := None |}
              (example_bot 1)) as (after & streaming & Hs & H).
  - reflexivity.
  - vm_compute. reflexivity.
  - exists after, streaming. split; [exact Hs|exact H].
Defined.

(** ** The knowledge base *)

Lemma split_char_not_empty (sep : char) (s : str) : split_char sep s <> [].
Proof.
  destruct s as [|c s]; cbn; [discriminate|].
  destruct (c =? sep); [discriminate|].
  destruct (split_char sep s); discriminate.
Qed.

(** Joining the pieces of a split gives the string back. *)
Lemma join_split_char (sep : char) (s : str) :
  str_join [sep] (split_char sep s) = s.
Proof.
  induction s as [|c s IH]; [reflexivity|]. cbn [split_char].
  pose proof (split_char_not_empty sep s) as Hne.
  destruct (c =? sep) eqn:E.
  - apply N.eqb_eq in E as ->.
    destruct (split_char sep s) as [|piece pieces]; [congruence|].
    cbn [str_join app] in *. now rewrite IH.
  - destruct (split_char sep s) as [|piece pieces]; [congruence|].
    destruct pieces; cbn [str_join app] in *; now rewrite IH.
Qed.

Lemma split_char_plain (sep : char) (piece : str) :
  ~ In sep piece -> split_char sep piece = [piece].
Proof.
  induction piece as [|c piece IH]; intros H; [reflexivity|]. cbn.
  destruct (N.eqb_spec c sep) as [->|_]; [destruct H; now left|].
  rewrite IH; [reflexivity|]. intros Hin. apply H. now right.
Qed.

Lemma split_char_piece (sep : char) (piece rest : str) :
  ~ In sep piece ->
  split_char sep (piece ++ sep :: rest) = piece :: split_char sep rest.
Proof.
  induction piece as [|c piece IH]; intros H; cbn.
  - now rewrite N.eqb_refl.
  - destruct (N.eqb_spec c sep) as [->|_]; [destruct H; now left|].
    rewrite IH; [reflexivity|]. intros Hin. apply H. now right.
Qed.

(** Splitting the join of pieces without separator gives the pieces
    back. *)
Lemma split_char_join (sep : char) (pieces : list str) :
  pieces <> [] ->
  Forall (fun piece => ~ In sep piece) pieces ->
  split_char sep (str_join [sep] pieces) = pieces.
Proof.
  intros Hne H. induction H as [|piece pieces Hp Hps IH]; [now destruct Hne|].
  destruct pieces as [|next pieces].
  - cbn. now apply split_char_plain.
  - cbn [str_join app]. rewrite split_char_piece by exact Hp.
    f_equal. apply IH. discriminate.
Qed.

(** The tags written by [add_knowledge] and [update_knowledge] are read
    back as they were, when no tag is empty or contains a comma. *)
Lemma tags_of_tags_str_of (tags : list str) :
  Forall plain_tag tags -> tags_of (JStr (tags_str_of tags)) = Ok tags.
Proof.
  intros H. destruct tags as [|tag tags]; [reflexivity|].
  assert (Hjoin : tags_str_of (tag :: tags) = str_join [44] (tag :: tags))
    by reflexivity.
  rewrite Hjoin. unfold tags_of. cbn [json_truthy].
  assert (Ht : truthy (str_join [44] (tag :: tags)) = true).
  { apply Forall_cons in H as [[Hne _] _].
    destruct tag as [|c tag]; [now destruct Hne|]. destruct tags; reflexivity. }
  rewrite Ht. cbn [json_split]. f_equal.
  apply split_char_join; [discriminate|].
  eapply Forall_impl; [exact H|]. intros t [_ Ht']. exact Ht'.
Qed.

(** The tags string that [update_knowledge] writes when no tags are
    given is the one it has read. *)
Lemma tags_str_of_tags_of (s : str) :
  exists tags, tags_of (JStr s) = Ok tags /\ tags_str_of tags = s.
Proof.
  unfold tags_of. cbn [json_truthy json_split].
  destruct s as [|c s]; [exists []; split; reflexivity|].
  cbn [truthy]. eexists. split; [reflexivity|].
  pose proof (split_char_not_empty 44 (c :: s)) as Hne.
  pose proof (join_split_char 44 (c :: s)) as Hjoin.
  destruct (split_char 44 (c :: s)) as [|piece pieces]; [congruence|].
  exact Hjoin.
Qed.

(** A [try] whose handler returns does not raise. *)
Lemma traced_try_ok {A} (body : traced A) (handler : exn -> traced A) :
  (forall e, exists a, outcome (handler e) = Ok a) ->
  exists a, outcome (traced_try body handler) = Ok a.
Proof.
  intros H. unfold traced_try. destruct (outcome body) as [a|e] eqn:E.
  - exists a. exact E.
  - exact (H e).
Qed.

Lemma get_document_ok collection document_id :
  exists found, outcome (get_document collection document_id) = Ok found.
Proof. apply traced_try_ok. intros e. eexists. reflexivity. Qed.

(** What the store holds when [get_document] finds a document. *)
Lemma get_document_found collection document_id existing :
  outcome (get_document collection document_id) = Ok (Some existing) ->
  calls (get_document collection document_id) = [CollectionGet [document_id]].
Proof.
  unfold get_document, traced_try, require_collection.
  destruct collection as [c|]; cbn; [|discriminate].
  destruct (collection_get c [document_id]) as [results|]; cbn; [|discriminate].
  destruct (gr_documents results) as [[|[|ch content] rest]|]; cbn;
    try discriminate.
  destruct (list_index (gr_ids results) 0); cbn; [|discriminate].
  destruct (gr_metadatas results) as [[|m ms]|]; cbn; reflexivity.
Qed.

(** What [get_document] makes of an answer of the collection that
    starts with a document that is not empty. *)
Lemma get_document_of c document_id id ids content documents metadata metadatas :
  collection_get c [document_id]
  = Ok (GetResult (id :: ids) (Some (content :: documents))
          (Some (metadata :: metadatas))) ->
  visible content = true ->
  get_document (Some c) document_id
  = Traced [CollectionGet [document_id]]
      (Ok (Some (StoredDocument id content metadata))).
Proof.
  intros Hget Hvis. destruct content as [|ch rest]; [discriminate Hvis|].
  unfold get_document, traced_try, require_collection. cbn. rewrite Hget.
  reflexivity.
Qed.

(** A successful [add_knowledge], in full. *)
Lemma add_knowledge_ok collection get_embeddings now uuid4
    title content category tags entry :
  outcome (add_knowledge collection get_embeddings now uuid4
             title content category tags) = Ok entry ->
  exists embeddings metadata,
    calls (add_knowledge collection get_embeddings now uuid4
             title content category tags)
    = [GetEmbeddings [content];
       CollectionAdd [content] embeddings [metadata] [ke_id entry]] /\
    (visible content = true /\
     get_embeddings [content] = Ok embeddings /\
     embeddings <> []) /\
    (ke_id entry = uuid4 0%nat /\
     ke_created_at entry = JStr (now 1%nat)) /\
    metadata !! py "created_at" = Some (ke_created_at entry) /\
    metadata !! py "title" = Some (JStr title) /\
    metadata !! py "category" = Some (JStr category) /\
    metadata !! py "tags" = Some (JStr (tags_str_of (default [] tags))) /\
    metadata !! py "content_length" = Some (JInt (Z.of_nat (length content))) /\
    metadata !! py "updated_at" = None.
Proof.
  unfold add_knowledge. fold (visible content).
  destruct (visible content); cbn [negb]; [|discriminate].
  destruct (get_embeddings [content]) as [embeddings|] eqn:He; [|discriminate].
  destruct embeddings as [|v vs]; [discriminate|].
  unfold add_documents. destruct collection as [c|]; [|discriminate].
  cbn. destruct (collection_add c _ _ _ _); cbn; [discriminate|].
  intros [= <-]. eexists (v :: vs), _. cbn.
  split; [reflexivity|]. split; [repeat split; discriminate|].
  split; [split; reflexivity|].
  repeat split; vm_compute; reflexivity.
Qed.

(** X14. [add_knowledge] rejects a blank content before any call is
    made. When it succeeds it has asked for the embedding of the content
    and then added exactly one document, the content under the returned
    id, with the title, the category, the joined tags and the length of
    the content as metadata; the creation time it returns is the one the
    store has written into the metadata, the second reading of the
    clock, not the one the manager has read itself. *)
Theorem X14_add_knowledge_stores_once collection get_embeddings now uuid4
    title content category tags :
  (visible content = false ->
   add_knowledge collection get_embeddings now uuid4 title content category tags
   = Traced [] (Raise (ValueError (py "知识内容不能为空")))) /\
  (forall entry,
     outcome (add_knowledge collection get_embeddings now uuid4
                title content category tags) = Ok entry ->
     exists embeddings metadata,
       calls (add_knowledge collection get_embeddings now uuid4
                title content category tags)
       = [GetEmbeddings [content];
          CollectionAdd [content] embeddings [metadata] [ke_id entry]] /\
       get_embeddings [content] = Ok embeddings /\
       ke_created_at entry = JStr (now 1%nat) /\
       metadata !! py "created_at" = Some (ke_created_at entry) /\
       metadata !! py "title" = Some (JStr title) /\
       metadata !! py "category" = Some (JStr category) /\
       metadata !! py "tags" = Some (JStr (tags_str_of (default [] tags))) /\
       metadata !! py "content_length" = Some (JInt (Z.of_nat (length content)))).
Proof.
  split.
  - unfold add_knowledge. fold (visible content). intros ->. reflexivity.
  - intros entry H.
    destruct (add_knowledge_ok _ _ _ _ _ _ _ _ _ H)
      as (embeddings & metadata & Hc & (_ & He & _) & (_ & Ht) & H1 & H2 & H3 & H4 & H5 & _).
    exists embeddings, metadata. auto 10.
Qed.

(** X15. What [add_knowledge] has stored is read back by
    [get_knowledge]: when the collection returns for the id the document
    and the metadata it was given, the item has the id, the title, the
    content and the category of the entry, its creation time and the
    length of the content, no update time, and the same tags, provided
    no tag is empty or contains a comma. *)
Theorem X15_added_knowledge_reads_back c get_embeddings now uuid4
    title content category tags entry :
  Forall plain_tag (default [] tags) ->
  outcome (add_knowledge (Some c) get_embeddings now uuid4
             title content category tags) = Ok entry ->
  (forall documents embeddings metadatas ids,
     In (CollectionAdd documents embeddings metadatas ids)
        (calls (add_knowledge (Some c) get_embeddings now uuid4
                  title content category tags)) ->
     collection_get c ids = Ok (GetResult ids (Some documents) (Some metadatas))) ->
  get_knowledge (Some c) (ke_id entry)
  = Traced [CollectionGet [ke_id entry]]
      (Ok (Some (KnowledgeItem (ke_id entry) (JStr title) content (JStr category)
                   (default [] tags) (JInt (Z.of_nat (length content)))
                   (ke_created_at entry) JNull))).
Proof.
  intros Htags Hadd Hstore.
  destruct (add_knowledge_ok _ _ _ _ _ _ _ _ _ Hadd)
    as (embeddings & metadata & Hc & (Hvis & _) & _ & H1 & H2 & H3 & H4 & H5 & H6).
  rewrite Hc in Hstore.
  specialize (Hstore [content] embeddings [metadata] [ke_id entry]).
  assert (Hget : collection_get c [ke_id entry]
                 = Ok (GetResult [ke_id entry] (Some [content]) (Some [metadata])))
    by (apply Hstore; right; left; reflexivity).
  unfold get_knowledge. rewrite (get_document_of _ _ _ _ _ _ _ _ Hget Hvis).
  cbn [mbind traced_bind outcome calls sd_metadata sd_id sd_content].
  rewrite H1, H2, H3, H4, H5, H6.
  change (default (JStr []) (Some ?v)) with v.
  rewrite (tags_of_tags_str_of _ Htags). reflexivity.
Qed.

Lemma X15_added_knowledge_reads_back_witness :
  get_knowledge (Some (one_document_collection (py "u0") (py "text") example_metadata))
    (py "u0")
  = Traced [CollectionGet [py "u0"]]
      (Ok (Some (KnowledgeItem (py "u0") (JStr (py "T")) (py "text")
                   (JStr (py "general")) [py "a"; py "b"] (JInt 4)
                   (JStr (py "t1")) JNull))).
Proof.
  apply (X15_added_knowledge_reads_back
           (one_document_collection (py "u0") (py "text") example_metadata)
           (fun _ => Ok [[0.5%float]]) example_clock (fun _ => py "u0")
           (py "T") (py "text") (py "general") (Some [py "a"; py "b"])
           (KnowledgeEntry (py "u0") (py "T") (py "general")
              (Some [py "a"; py "b"]) (JStr (py "t1")))).
  - repeat constructor; vm_compute; try discriminate;
      intros [H|[]]; discriminate H.
  - vm_compute. reflexivity.
  - intros documents embeddings metadatas ids H. vm_compute in H.
    destruct H as [H|[H|[]]]; [discriminate H|].
    injection H as <- <- <- <-. vm_compute. reflexivity.
Defined.

(** An update of a document that exists, with no tags given, in
    full. *)
Lemma update_knowledge_found collection get_embeddings now knowledge_id
    title content category existing existing_tags :
  outcome (get_document collection knowledge_id) = Ok (Some existing) ->
  sd_metadata existing !! py "tags" = Some (JStr existing_tags) ->
  outcome (update_knowledge collection get_embeddings now knowledge_id
             title content category None) = Ok true ->
  exists c new_content embedding metadata,
    collection = Some c /\
    calls (update_knowledge collection get_embeddings now knowledge_id
             title content category None)
    = [CollectionGet [knowledge_id];
       GetEmbeddings [new_content];
       CollectionUpdate [knowledge_id] [new_content] [embedding] [metadata]] /\
    collection_update c [knowledge_id] [new_content] [embedding] [metadata] = None /\
    new_content = match content with
                  | Some c => if truthy c then c else sd_content existing
                  | None => sd_content existing
                  end /\
    metadata !! py "tags" = Some (JStr existing_tags) /\
    metadata !! py "created_at"
    = Some (default JNull (sd_metadata existing !! py "created_at")) /\
    metadata !! py "updated_at" = Some (JStr (now 1%nat)) /\
    metadata !! py "title"
    = Some (str_or title (default (JStr (py "无标题"))
                            (sd_metadata existing !! py "title"))) /\
    metadata !! py "category"
    = Some (str_or category (default (JStr (py "general"))
                               (sd_metadata existing !! py "category"))) /\
    metadata !! py "content_length" = Some (JInt (Z.of_nat (length new_content))).
Proof.
  intros Hfound Htags.
  pose proof (get_document_found _ _ _ Hfound) as Hcalls.
  unfold update_knowledge.
  destruct (get_document collection knowledge_id) as [cs found].
  cbn in Hfound, Hcalls. subst cs found.
  destruct (tags_str_of_tags_of existing_tags) as (tags & Hsplit & Hjoin).
  unfold traced_try.
  cbn [mbind traced_bind outcome calls app pure]. rewrite Htags.
  change (default (JStr []) (Some ?v)) with v. rewrite Hsplit.
  cbn [mbind traced_bind outcome calls app pure called default]. rewrite Hjoin.
  set (new_content := match content with
                      | Some c => if truthy c then c else sd_content existing
                      | None => sd_content existing
                      end).
  destruct (get_embeddings [new_content]) as [new_embeddings|];
    [|cbn; discriminate].
  cbn [mbind traced_bind outcome calls app pure called].
  destruct (match content with
            | Some c => truthy c && negb (bool_decide (c = sd_content existing))
            | None => false
            end).
  - destruct new_embeddings as [|first others]; [cbn; discriminate|].
    unfold update_document, traced_try, require_collection.
    destruct collection as [c|]; [|cbn; discriminate].
    cbn. destruct (collection_update c _ _ _ _) eqn:Hup; cbn; [discriminate|].
    intros _. eexists c, new_content, _, _.
    split; [reflexivity|]. split; [reflexivity|]. split; [exact Hup|].
    split; [reflexivity|].
    repeat split; vm_compute; reflexivity.
  - unfold update_document, traced_try, require_collection.
    destruct collection as [c|]; [|cbn; discriminate].
    cbn. destruct (collection_update c _ _ _ _) eqn:Hup; cbn; [discriminate|].
    intros _. eexists c, new_content, _, _.
    split; [reflexivity|]. split; [reflexivity|]. split; [exact Hup|].
    split; [reflexivity|].
    repeat split; vm_compute; reflexivity.
Qed.

(** X16. An update that gives no tags keeps the stored tags string as
    it is, whatever it contains, and an update that succeeds keeps the
    creation time; a title, a content or a category that is missing or
    empty keeps the stored one. The update asks for one embedding, of
    the content that is kept or replaced, and writes one document; the
    update time that is stored is the one the store reads from the
    clock, after the manager's. *)
Theorem X16_update_keeps_what_is_not_given collection get_embeddings now
    knowledge_id title content category existing existing_tags :
  outcome (get_document collection knowledge_id) = Ok (Some existing) ->
  sd_metadata existing !! py "tags" = Some (JStr existing_tags) ->
  outcome (update_knowledge collection get_embeddings now knowledge_id
             title content category None) = Ok true ->
  exists new_content embedding metadata,
    calls (update_knowledge collection get_embeddings now knowledge_id
             title content category None)
    = [CollectionGet [knowledge_id];
       GetEmbeddings [new_content];
       CollectionUpdate [knowledge_id] [new_content] [embedding] [metadata]] /\
    metadata !! py "tags" = Some (JStr existing_tags) /\
    metadata !! py "created_at"
    = Some (default JNull (sd_metadata existing !! py "created_at")) /\
    metadata !! py "updated_at" = Some (JStr (now 1%nat)) /\
    (content = None \/ content = Some [] -> new_content = sd_content existing) /\
    (title = None \/ title = Some [] ->
     metadata !! py "title"
     = Some (default (JStr (py "无标题")) (sd_metadata existing !! py "title"))) /\
    (category = None \/ category = Some [] ->
     metadata !! py "category"
     = Some (default (JStr (py "general")) (sd_metadata existing !! py "category"))).
Proof.
  intros Hfound Htags Hok.
  destruct (update_knowledge_found _ _ _ _ _ _ _ _ _ Hfound Htags Hok)
    as (c & new_content & embedding & metadata & _ & Hcalls & _ & Hnew & H1 & H2
        & H3 & H4 & H5 & _).
  exists new_content, embedding, metadata.
  split; [exact Hcalls|]. split; [exact H1|]. split; [exact H2|].
  split; [exact H3|]. split; [|split].
  - intros [->| ->]; exact Hnew.
  - intros [->| ->]; exact H4.
  - intros [->| ->]; exact H5.
Qed.

Lemma X16_update_keeps_what_is_not_given_witness :
  exists new_content embedding metadata,
    calls (update_knowledge
             (Some (one_document_collection (py "u0") (py "text") example_metadata))
             (fun _ => Ok [[0.5%float]]) example_clock (py "u0")
             (Some (py "New title")) None None None)
    = [CollectionGet [py "u0"];
       GetEmbeddings [new_content];
       CollectionUpdate [py "u0"] [new_content] [embedding] [metadata]] /\
    metadata !! py "tags" = Some (JStr (py "a,b")).
Proof.
  destruct (X16_update_keeps_what_is_not_given
              (Some (one_document_collection (py "u0") (py "text") example_metadata))
              (fun _ => Ok [[0.5%float]]) example_clock (py "u0")
              (Some (py "New title")) None None
              (StoredDocument (py "u0") (py "text") example_metadata) (py "a,b"))
    as (new_content & embedding & metadata & H1 & H2 & _).
  - vm_compute. reflexivity.
  - vm_compute. reflexivity.
  - vm_compute. reflexivity.
  - exists new_content, embedding, metadata. split; [exact H1|exact H2].
Defined.

(** X17. [update_knowledge] never raises: it returns a boolean whatever
    the collection and the embedding service do. For a document that the
    store does not find it returns [False] without asking for an
    embedding and without writing: it makes no call after the lookup.
    The lookup itself makes exactly one call, the collection get for
    that id, and none when the store is not initialised. *)
Theorem X17_update_knowledge_never_raises collection get_embeddings now
    knowledge_id title content category tags :
  (exists updated,
     outcome (update_knowledge collection get_embeddings now knowledge_id
                title content category tags) = Ok updated) /\
  (outcome (get_document collection knowledge_id) = Ok None ->
   update_knowledge collection get_embeddings now knowledge_id
     title content category tags
   = Traced (calls (get_document collection knowledge_id)) (Ok false)) /\
  calls (get_document collection knowledge_id)
  = match collection with
    | Some _ => [CollectionGet [knowledge_id]]
    | None => []
    end.
Proof.
  split; [|split].
  - apply traced_try_ok. intros e. eexists. reflexivity.
  - intros Hnone. unfold update_knowledge, traced_try.
    destruct (get_document collection knowledge_id) as [cs found].
    cbn in Hnone. subst found. cbn. now rewrite app_nil_r.
  - unfold get_document, traced_try, require_collection.
    destruct collection as [c|]; cbn; [|reflexivity].
    destruct (collection_get c [knowledge_id]) as [results|]; cbn;
      [|reflexivity].
    destruct (gr_documents results) as [[|[|ch text] rest]|]; cbn;
      try reflexivity.
    destruct (list_index (gr_ids results) 0); cbn; [|reflexivity].
    destruct (gr_metadatas results) as [[|m ms]|]; cbn; try reflexivity.
Qed.

(** *** Listing and deleting *)

Lemma format_listed_preview (doc : stored_document) :
  (length (li_content (format_listed doc)) <= 203)%nat /\
  (if (200 <? length (sd_content doc))%nat
   then li_content (format_listed doc) = take 200 (sd_content doc) ++ py "..."
   else li_content (format_listed doc) = sd_content doc).
Proof.
  unfold format_listed. cbn [li_content].
  destruct (Nat.ltb_spec 200 (length (sd_content doc))) as [H|H].
  - split; [|reflexivity]. rewrite length_app, length_take.
    change (length (py "...")) with 3%nat. lia.
  - split; [lia|reflexivity].
Qed.

Lemma list_documents_ok collection limit offset filter_metadata :
  exists documents,
    outcome (list_documents collection limit offset filter_metadata) = Ok documents.
Proof. apply traced_try_ok. intros e. eexists. reflexivity. Qed.

Lemma get_collection_stats_exact collection directory :
  outcome (get_collection_stats collection directory)
  = Ok (CollectionStats
          match collection with
          | Some c => match collection_count c with Ok count => count | Raise _ => 0%Z end
          | None => 0%Z
          end
          (py "knowledge_base") directory).
Proof.
  unfold get_collection_stats, traced_try, require_collection.
  destruct collection as [c|]; cbn; [|reflexivity].
  destruct (collection_count c) as [count|]; reflexivity.
Qed.

(** X18. [list_knowledge] never raises. Its answer repeats the page and
    the page size of the request. For a page size other than [0], the
    items are the documents that [list_documents] returns for that
    size, the offset [(page - 1) * size] and the category asked for, one
    item per document in the same order, each with the id of its
    document and with its content, cut to 200 characters followed by an
    ellipsis when it is longer, so at most 203 characters; the total is
    the count of the whole collection, whatever the category asked for,
    and [0] when there is no collection or counting fails; the number of
    pages is [(total + size - 1) // size], the total divided by the size
    rounded up when the size is positive. For the page size [0] the
    answer is the empty page with the total [0], even when the
    collection holds documents. *)
Theorem X18_list_knowledge_pages collection directory category page size :
  exists listing documents,
    outcome (list_knowledge collection directory category page size) = Ok listing /\
    outcome (list_documents collection size ((page - 1) * size)%Z
               match category with
               | Some c => if truthy c then Some {[ py "category" := c ]} else None
               | None => None
               end) = Ok documents /\
    lp_page listing = page /\
    lp_size listing = size /\
    (size = 0%Z -> listing = Listing [] 0 page 0 0) /\
    (size <> 0%Z ->
     lp_items listing = map format_listed documents /\
     map li_id (lp_items listing) = map sd_id documents /\
     map li_content (lp_items listing)
     = map (fun doc =>
              if (200 <? length (sd_content doc))%nat
              then take 200 (sd_content doc) ++ py "..."
              else sd_content doc) documents /\
     lp_total listing
     = match collection with
       | Some c => match collection_count c with Ok count => count | Raise _ => 0%Z end
       | None => 0%Z
       end /\
     lp_pages listing = ((lp_total listing + size - 1) / size)%Z) /\
    ((0 < size)%Z -> (0 <= lp_total listing)%Z ->
     ((lp_pages listing - 1) * size < lp_total listing <= lp_pages listing * size)%Z) /\
    Forall (fun item => (length (li_content item) <= 203)%nat) (lp_items listing).
Proof.
  unfold list_knowledge, traced_try.
  match goal with
  | |- context [list_documents ?c ?l ?o ?f] =>
      destruct (list_documents_ok c l o f) as [documents Hdocs];
      destruct (list_documents c l o f) as [cs1 found]
  end.
  cbn in Hdocs. subst found.
  pose proof (get_collection_stats_exact collection directory) as Hstats.
  destruct (get_collection_stats collection directory) as [cs2 counted].
  cbn in Hstats. subst counted.
  cbn [mbind traced_bind outcome calls pure total_documents].
  set (total := match collection with
                | Some c => match collection_count c with Ok count => count | Raise _ => 0%Z end
                | None => 0%Z
                end).
  unfold floordiv. destruct (Z.eqb_spec size 0) as [->|Hsize].
  - cbn. eexists. exists documents. split; [reflexivity|]. split; [reflexivity|]. cbn.
    split; [reflexivity|]. split; [reflexivity|]. split; [reflexivity|].
    split; [intros H; now destruct H|]. split; [lia|constructor].
  - cbn. eexists. exists documents. split; [reflexivity|]. split; [reflexivity|].
    cbn [lp_page lp_size lp_total lp_pages lp_items].
    split; [reflexivity|]. split; [reflexivity|].
    split; [intros ->; now destruct Hsize|]. split; [|split].
    + intros _. split; [reflexivity|]. split; [|split; [|split; reflexivity]].
      * rewrite map_map. reflexivity.
      * rewrite map_map. reflexivity.
    + intros Hpos Hnonneg.
      pose proof (Z.div_mod (total + size - 1) size Hsize).
      pose proof (Z.mod_pos_bound (total + size - 1) size Hpos).
      nia.
    + apply Forall_map, Forall_forall. intros doc _.
      apply format_listed_preview.
Qed.

(** X19. [delete_knowledge_batch] never raises, and the count it
    reports is the number of ids it was given, duplicates included, and
    not a number of documents found: on success it has made one deletion
    call with all the ids; otherwise the count is [0]. For an empty list
    it fails without any call. *)
Theorem X19_batch_delete_counts_ids collection knowledge_ids :
  exists answer,
    outcome (delete_knowledge_batch collection knowledge_ids) = Ok answer /\
    (if br_success answer
     then br_deleted_count answer = length knowledge_ids /\
          knowledge_ids <> [] /\
          calls (delete_knowledge_batch collection knowledge_ids)
          = [CollectionDelete knowledge_ids] /\
          exists c, collection = Some c /\ collection_delete c knowledge_ids = None
     else br_deleted_count answer = 0%nat) /\
    (knowledge_ids = [] ->
     delete_knowledge_batch collection knowledge_ids
     = Traced [] (Ok (BatchResult false 0 (py "提供的ID列表为空")))).
Proof.
  unfold delete_knowledge_batch, delete_documents, traced_try, require_collection.
  destruct knowledge_ids as [|id ids].
  - eexists. split; [reflexivity|]. split; reflexivity.
  - destruct collection as [c|]; cbn.
    + destruct (collection_delete c (id :: ids)) eqn:E; cbn.
      * eexists. split; [reflexivity|]. split; [reflexivity|discriminate].
      * eexists. split; [reflexivity|]. cbn. split; [|discriminate].
        split; [reflexivity|]. split; [discriminate|]. split; [reflexivity|].
        exists c. auto.
    + eexists. split; [reflexivity|]. split; [reflexivity|discriminate].
Qed.

(** ** The model client *)

Section ChatClientFacts.

Variable self : OllamaClient.
Variable post_chat : chat_request -> result stream_response.
Variable json_loads : str -> option json.
Variable json_dumps : json -> str.
Variable dict_keys : gmap str json -> list str.

Lemma line_content_truthy data contents :
  line_content data = Ok contents ->
  Forall (fun chunk => json_truthy chunk = true) contents.
Proof.
  unfold line_content.
  destruct (json_contains (py "message") data) as [[|]|]; cbn;
    try (intros [= <-]; constructor); try discriminate.
  destruct (json_item data (py "message")) as [message|]; cbn; [|discriminate].
  destruct (json_contains (py "content") message) as [[|]|]; cbn;
    try (intros [= <-]; constructor); try discriminate.
  destruct (json_item message (py "content")) as [content|]; cbn; [|discriminate].
  destruct (json_truthy content) eqn:E; intros [= <-]; repeat constructor.
  exact E.
Qed.

Lemma line_tool_calls_truthy data tool_calls :
  line_tool_calls json_dumps dict_keys data = Ok tool_calls ->
  Forall (fun chunk => json_truthy chunk = true) tool_calls.
Proof.
  unfold line_tool_calls.
  destruct (json_contains (py "message") data) as [[|]|]; cbn;
    try (intros [= <-]; constructor); try discriminate.
  destruct (json_item data (py "message")) as [message|]; cbn; [|discriminate].
  destruct (json_contains (py "tool_calls") message) as [[|]|]; cbn;
    try (intros [= <-]; constructor); try discriminate.
  destruct (json_item message (py "tool_calls")) as [calls|]; cbn; [|discriminate].
  destruct (json_truthy calls); [|intros [= <-]; constructor].
  destruct (json_iter dict_keys calls) as [items|]; cbn; [|discriminate].
  intros [= <-]. apply Forall_map, Forall_forall. intros item _. reflexivity.
Qed.

Lemma on_line_truthy data :
  Forall (fun chunk => json_truthy chunk = true)
    (fst (on_line json_dumps dict_keys data)).
Proof.
  unfold on_line.
  destruct (line_content data) as [contents|] eqn:Hc; [|constructor].
  apply line_content_truthy in Hc.
  destruct (line_tool_calls json_dumps dict_keys data) as [tool_calls|] eqn:Ht;
    [|exact Hc].
  apply line_tool_calls_truthy in Ht. cbn. apply Forall_app. now split.
Qed.

Lemma read_lines_truthy lines :
  Forall (fun chunk => json_truthy chunk = true)
    (fst (read_lines json_loads json_dumps dict_keys lines)).
Proof.
  induction lines as [|line rest IH]; [constructor|]. cbn [read_lines].
  destruct (truthy line); [|exact IH].
  destruct (json_loads line) as [data|]; [|exact IH].
  pose proof (on_line_truthy data) as Hline.
  destruct (on_line json_dumps dict_keys data) as [yielded [[|]|e]];
    cbn [fst] in *; try exact Hline.
  destruct (read_lines json_loads json_dumps dict_keys rest) as [more ending].
  cbn [fst] in *. apply Forall_app. now split.
Qed.

(** X20. No chunk of the model client is empty: whatever the lines of
    the response decode to, every value that [chat_stream] yields is
    truthy, the texts of tool calls included. With a status other than
    200 nothing is yielded and the stream ends with the exception that
    names the status. *)
Theorem X20_chat_chunks_are_not_empty messages model system tools keep_alive :
  Forall (fun chunk => json_truthy chunk = true)
    (cs_chunks (client_chat_stream self post_chat json_loads json_dumps dict_keys
                  messages model system tools keep_alive)) /\
  (forall response,
     post_chat (request_data self messages model system tools keep_alive)
     = Ok response ->
     stream_status response <> 200%Z ->
     client_chat_stream self post_chat json_loads json_dumps dict_keys
       messages model system tools keep_alive
     = ChunkStream []
         (Some (Exception (py "Ollama Chat API 错误: "
                           ++ str_of_Z (stream_status response))))).
Proof.
  unfold client_chat_stream. split.
  - destruct (post_chat _) as [response|]; [|constructor].
    destruct (negb (stream_status response =? 200)%Z); [constructor|].
    pose proof (read_lines_truthy (stream_lines response)) as H.
    destruct (read_lines json_loads json_dumps dict_keys (stream_lines response))
      as [chunks [| |e]]; exact H.
  - intros response -> Hstatus.
    apply Z.eqb_neq in Hstatus. now rewrite Hstatus.
Qed.

(** X21. Empty lines and lines that do not decode are skipped: the
    loop over the lines yields and ends as it does on the lines that
    are left after removing them. *)
Theorem X21_undecodable_lines_are_skipped (lines : list str) :
  read_lines json_loads json_dumps dict_keys lines
  = read_lines json_loads json_dumps dict_keys
      (List.filter (decodable json_loads) lines).
Proof.
  induction lines as [|line rest IH]; [reflexivity|].
  cbn [read_lines List.filter]. unfold decodable at 1.
  destruct (truthy line) eqn:Hline; cbn [andb]; [|exact IH].
  destruct (json_loads line) as [data|] eqn:Hdata.
  - rewrite bool_decide_eq_true_2 by eauto.
    cbn [read_lines]. rewrite Hline, Hdata.
    destruct (on_line json_dumps dict_keys data) as [yielded [[|]|e]];
      try reflexivity.
    now rewrite IH.
  - rewrite bool_decide_eq_false_2 by (intros [? ?]; discriminate). exact IH.
Qed.

(** X22. Nothing is read after a line that is done: the lines that
    follow it change neither what is yielded nor how the loop ends, and
    the loop does not run to the end of the lines, so that a failure of
    the connection after that line is not raised. *)
Theorem X22_nothing_is_read_after_done (before after : list str) (final : str) data :
  truthy final = true ->
  json_loads final = Some data ->
  snd (on_line json_dumps dict_keys data) = Ok true ->
  read_lines json_loads json_dumps dict_keys (before ++ final :: after)
  = read_lines json_loads json_dumps dict_keys (before ++ [final]) /\
  snd (read_lines json_loads json_dumps dict_keys (before ++ final :: after))
  <> Exhausted.
Proof.
  intros Hline Hdata Hdone.
  induction before as [|line rest [IH1 IH2]]; cbn [app read_lines].
  - rewrite Hline, Hdata.
    destruct (on_line json_dumps dict_keys data) as [yielded next].
    cbn in Hdone. subst next. split; [reflexivity|discriminate].
  - destruct (truthy line); [|now split].
    destruct (json_loads line) as [data'|]; [|now split].
    destruct (on_line json_dumps dict_keys data') as [yielded [[|]|e]];
      try (split; [reflexivity|discriminate]).
    rewrite IH1.
    destruct (read_lines json_loads json_dumps dict_keys (rest ++ final :: after))
      as [more ending] eqn:E1.
    rewrite <- IH1. split; [reflexivity|exact IH2].
Qed.

Lemma on_line_ollama_line content done :
  on_line json_dumps dict_keys (ollama_line content done)
  = (if truthy content then [JStr content] else [], Ok done).
Proof. destruct content, done; vm_compute; reflexivity. Qed.

(** X23. On the lines that Ollama sends, objects with a message whose
    content is a text and with the [done] flag, the client yields the
    contents that are not empty, in their order, up to and including
    the first line that is done, where it stops; without such a line it
    reads all the lines. *)
Theorem X23_chunks_of_ollama_lines (lines : list str) (decoded : list (str * bool)) :
  Forall2 (fun line d =>
             truthy line = true /\
             json_loads line = Some (ollama_line (fst d) (snd d)))
    lines decoded ->
  read_lines json_loads json_dumps dict_keys lines
  = (map JStr (ollama_chunks decoded),
     if existsb snd decoded then Broke else Exhausted).
Proof.
  induction 1 as [|line [content done] lines decoded [Hline Hdata] _ IH];
    [reflexivity|].
  cbn [fst snd] in Hdata. cbn [read_lines ollama_chunks existsb snd].
  rewrite Hline, Hdata, on_line_ollama_line.
  destruct done; cbn [orb].
  - rewrite app_nil_r. destruct (truthy content); reflexivity.
  - rewrite IH, map_app. destruct (truthy content); reflexivity.
Qed.

End ChatClientFacts.

Lemma X22_nothing_is_read_after_done_witness :
  read_lines example_loads (fun _ => []) (fun _ => [])
    ([py "more"] ++ py "last" :: [py "more"])
  = read_lines example_loads (fun _ => []) (fun _ => []) ([py "more"] ++ [py "last"]) /\
  snd (read_lines example_loads (fun _ => []) (fun _ => [])
         ([py "more"] ++ py "last" :: [py "more"]))
  <> Exhausted.
Proof.
  apply (X22_nothing_is_read_after_done example_loads (fun _ => []) (fun _ => [])
           [py "more"] [py "more"] (py "last") (ollama_line (py "lo") true)).
  - reflexivity.
  - vm_compute. reflexivity.
  - vm_compute. reflexivity.
Defined.

Lemma X23_chunks_of_ollama_lines_witness :
  read_lines example_loads (fun _ => []) (fun _ => []) [py "more"; py "last"]
  = (map JStr (ollama_chunks [(py "Hel", false); (py "lo", true)]),
     if existsb snd [(py "Hel", false); (py "lo", true)] then Broke else Exhausted).
Proof.
  apply (X23_chunks_of_ollama_lines example_loads (fun _ => []) (fun _ => [])
           [py "more"; py "last"] [(py "Hel", false); (py "lo", true)]).
  repeat constructor; vm_compute; reflexivity.
Defined.

(** ** The legacy embedding endpoint *)

Section LegacyFacts.

Variable post_embeddings : nat -> str -> str -> result http_response.

(** X24. The legacy embedding path treats a refused request and a
    failed request differently. It never raises and returns one entry
    per text, in the order of the texts. When every request is answered,
    with a status other than 200 or with a JSON object, the entry of a
    text is determined by the answer to its own request alone: the value
    under ["embedding"] of an object received with the status 200, the
    zero vector when the object has no such key or the status is not 200;
    so a refused text costs only its own entry. But when the request of
    any one text raises, or its answer with the status 200 cannot be
    decoded, every entry is the zero vector, the embeddings already
    received included. *)
Theorem X24_legacy_embeddings_per_text (texts : list str) (model : str) :
  exists found,
    _get_embeddings_legacy post_embeddings texts model = Ok (JList found) /\
    length found = length texts /\
    ((forall i text,
        texts !! i = Some text ->
        exists response,
          post_embeddings i model text = Ok response /\
          (status_code response <> 200%Z \/
           exists fields, json_body response = Ok (JDict fields))) ->
     forall i text,
       texts !! i = Some text ->
       exists response,
         post_embeddings i model text = Ok response /\
         found !! i
         = Some (if (status_code response =? 200)%Z
                 then match json_body response with
                      | Ok (JDict fields) =>
                          default zero_vector (fields !! py "embedding")
                      | _ => zero_vector
                      end
                 else zero_vector)) /\
    (forall i text e,
       texts !! i = Some text ->
       post_embeddings i model text = Raise e ->
       found = replicate (length texts) zero_vector) /\
    (forall i text response e,
       texts !! i = Some text ->
       post_embeddings i model text = Ok response ->
       status_code response = 200%Z ->
       json_body response = Raise e ->
       found = replicate (length texts) zero_vector).
Proof.
  destruct (get_embeddings_legacy_exact post_embeddings texts model)
    as (found & Hfound & Hlen & Hanswered & Hfails).
  exists found. split; [exact Hfound|]. split; [exact Hlen|]. split; [|split].
  - intros Hall.
    assert (Hentries : forall i text,
               texts !! i = Some text ->
               exists response entry,
                 post_embeddings i model text = Ok response
                 /\ legacy_entry response = Ok entry).
    { intros i text Hi. destruct (Hall i text Hi) as (response & Hpost & Hshape).
      exists response. destruct (legacy_entry_cases response) as [Hrefused Hread].
      destruct Hshape as [Hs|[fields Hbody]].
      - eauto.
      - destruct (Z.eq_dec (status_code response) 200%Z) as [Hs|Hs]; [|eauto].
        destruct (Hread Hs) as [Hdict _]. eauto. }
    intros i text Hi.
    destruct (Hanswered Hentries i text Hi) as (response & entry & Hpost & Hentry & Hat).
    exists response. split; [exact Hpost|]. rewrite Hat. f_equal.
    destruct (Hall i text Hi) as (response' & Hpost' & Hshape).
    assert (response' = response) as -> by congruence.
    destruct (legacy_entry_cases response) as [Hrefused Hread].
    destruct (status_code response =? 200)%Z eqn:Hs.
    + apply Z.eqb_eq in Hs. destruct Hshape as [Hne|[fields Hbody]]; [congruence|].
      destruct (Hread Hs) as [Hdict _]. rewrite Hbody.
      specialize (Hdict fields Hbody). congruence.
    + apply Z.eqb_neq in Hs. specialize (Hrefused Hs). congruence.
  - intros i text e Hi Hpost. apply (Hfails i text Hi).
    intros response Hr. congruence.
  - intros i text response e Hi Hpost Hs Hbody. apply (Hfails i text Hi).
    intros response' Hr. assert (response' = response) as -> by congruence.
    destruct (legacy_entry_cases response) as [_ Hread].
    destruct (Hread Hs) as [_ Hraise]. eauto.
Qed.

End LegacyFacts.

(** ** The endpoints of the knowledge base *)

Lemma get_knowledge_ok collection knowledge_id :
  exists found, outcome (get_knowledge collection knowledge_id) = Ok found.
Proof. apply traced_try_ok. intros e. eexists. reflexivity. Qed.

Lemma update_knowledge_ok collection get_embeddings now knowledge_id
    title content category tags :
  exists updated,
    outcome (update_knowledge collection get_embeddings now knowledge_id
               title content category tags) = Ok updated.
Proof. apply traced_try_ok. intros e. eexists. reflexivity. Qed.

Lemma get_document_stored c document_id id ids content documents metadata metadatas :
  collection_get c [document_id]
  = Ok (GetResult (id :: ids) (Some (content :: documents))
          (Some (metadata :: metadatas))) ->
  content <> [] ->
  get_document (Some c) document_id
  = Traced [CollectionGet [document_id]]
      (Ok (Some (StoredDocument id content metadata))).
Proof.
  intros Hget Hne. destruct content as [|ch rest]; [now destruct Hne|].
  unfold get_document, traced_try, require_collection. cbn. rewrite Hget.
  reflexivity.
Qed.

(** What an update that succeeds has written, whatever tags are given. *)
Lemma update_knowledge_written collection get_embeddings now knowledge_id
    title content category tags existing existing_tags :
  outcome (get_document collection knowledge_id) = Ok (Some existing) ->
  sd_metadata existing !! py "tags" = Some (JStr existing_tags) ->
  outcome (update_knowledge collection get_embeddings now knowledge_id
             title content category tags) = Ok true ->
  exists c new_content embedding metadata,
    collection = Some c /\
    calls (update_knowledge collection get_embeddings now knowledge_id
             title content category tags)
    = [CollectionGet [knowledge_id];
       GetEmbeddings [new_content];
       CollectionUpdate [knowledge_id] [new_content] [embedding] [metadata]] /\
    new_content = match content with
                  | Some c => if truthy c then c else sd_content existing
                  | None => sd_content existing
                  end /\
    metadata !! py "tags"
    = Some (JStr match tags with
                 | Some given => tags_str_of given
                 | None => existing_tags
                 end) /\
    metadata !! py "created_at"
    = Some (default JNull (sd_metadata existing !! py "created_at")) /\
    metadata !! py "updated_at" = Some (JStr (now 1%nat)) /\
    metadata !! py "title"
    = Some (str_or title (default (JStr (py "无标题"))
                            (sd_metadata existing !! py "title"))) /\
    metadata !! py "category"
    = Some (str_or category (default (JStr (py "general"))
                               (sd_metadata existing !! py "category"))) /\
    metadata !! py "content_length" = Some (JInt (Z.of_nat (length new_content))).
Proof.
  intros Hfound Htags.
  pose proof (get_document_found _ _ _ Hfound) as Hcalls.
  unfold update_knowledge.
  destruct (get_document collection knowledge_id) as [cs found].
  cbn in Hfound, Hcalls. subst cs found.
  destruct (tags_str_of_tags_of existing_tags) as (kept & Hsplit & Hjoin).
  unfold traced_try.
  cbn [mbind traced_bind outcome calls app pure]. rewrite Htags.
  change (default (JStr []) (Some ?v)) with v. rewrite Hsplit.
  cbn [mbind traced_bind outcome calls app pure called].
  assert (Hstr : tags_str_of (default kept tags)
                 = match tags with
                   | Some given => tags_str_of given
                   | None => existing_tags
                   end) by (destruct tags; [reflexivity|exact Hjoin]).
  rewrite Hstr. clear Hstr.
  set (tags_str := match tags with
                   | Some given => tags_str_of given
                   | None => existing_tags
                   end).
  set (new_content := match content with
                      | Some c => if truthy c then c else sd_content existing
                      | None => sd_content existing
                      end).
  destruct (get_embeddings [new_content]) as [new_embeddings|];
    [|cbn; discriminate].
  cbn [mbind traced_bind outcome calls app pure called].
  destruct (match content with
            | Some c => truthy c && negb (bool_decide (c = sd_content existing))
            | None => false
            end).
  - destruct new_embeddings as [|first others]; [cbn; discriminate|].
    unfold update_document, traced_try, require_collection.
    destruct collection as [c|]; [|cbn; discriminate].
    cbn. destruct (collection_update c _ _ _ _) eqn:Hup; cbn; [discriminate|].
    intros _. eexists c, new_content, _, _.
    split; [reflexivity|]. split; [reflexivity|].
    split; [reflexivity|].
    repeat split; vm_compute; reflexivity.
  - unfold update_document, traced_try, require_collection.
    destruct collection as [c|]; [|cbn; discriminate].
    cbn. destruct (collection_update c _ _ _ _) eqn:Hup; cbn; [discriminate|].
    intros _. eexists c, new_content, _, _.
    split; [reflexivity|]. split; [reflexivity|].
    split; [reflexivity|].
    repeat split; vm_compute; reflexivity.
Qed.

(** X25. The endpoints that read and update an item never answer with
    the status 500. Reading answers 404 exactly when the manager finds
    no item. Updating answers 404 exactly when the manager reports
    [False], be it for a missing item or for a failure of the embedding
    service or of the store, and then nothing is read back; otherwise
    its data is what the manager reads, after the calls of the update,
    from the collection as the update left it. When that collection
    returns for the id the document and the metadata the update wrote,
    the data is the updated item: the content and the title of the
    request, its category and its tags or the stored ones, the stored
    creation time and the update time the store read from the clock. *)
Theorem X25_knowledge_endpoints_never_500 collection get_embeddings now
    after_update item_id item :
  (match outcome (get_knowledge collection item_id) with
   | Ok (Some found) =>
       outcome (get_knowledge_endpoint collection item_id) = Ok found
   | _ =>
       outcome (get_knowledge_endpoint collection item_id)
       = Raise (HTTPException 404 (py "知识库条目不存在"))
   end) /\
  (match outcome (update_knowledge collection get_embeddings now item_id
                    (Some (item_title item)) (Some (item_content item))
                    (item_category item) (item_tags item)) with
   | Ok true =>
       exists data,
         outcome (get_knowledge (after_update <$> collection) item_id) = Ok data /\
         update_knowledge_endpoint collection get_embeddings now after_update
           item_id item
         = Traced
             (calls (update_knowledge collection get_embeddings now item_id
                       (Some (item_title item)) (Some (item_content item))
                       (item_category item) (item_tags item))
              ++ calls (get_knowledge (after_update <$> collection) item_id))
             (Ok data)
   | _ =>
       update_knowledge_endpoint collection get_embeddings now after_update
         item_id item
       = Traced (calls (update_knowledge collection get_embeddings now item_id
                          (Some (item_title item)) (Some (item_content item))
                          (item_category item) (item_tags item)))
           (Raise (HTTPException 404 (py "知识库条目不存在或更新失败")))
   end) /\
  (forall existing existing_tags,
     outcome (get_document collection item_id) = Ok (Some existing) ->
     sd_metadata existing !! py "tags" = Some (JStr existing_tags) ->
     outcome (update_knowledge collection get_embeddings now item_id
                (Some (item_title item)) (Some (item_content item))
                (item_category item) (item_tags item)) = Ok true ->
     item_content item <> [] ->
     (forall c ids documents embeddings metadatas,
        collection = Some c ->
        In (CollectionUpdate ids documents embeddings metadatas)
           (calls (update_knowledge collection get_embeddings now item_id
                     (Some (item_title item)) (Some (item_content item))
                     (item_category item) (item_tags item))) ->
        collection_get (after_update c) ids
        = Ok (GetResult ids (Some documents) (Some metadatas))) ->
     exists tags,
       tags_of (JStr match item_tags item with
                     | Some given => tags_str_of given
                     | None => existing_tags
                     end) = Ok tags /\
       outcome (update_knowledge_endpoint collection get_embeddings now after_update
                  item_id item)
       = Ok (Some (KnowledgeItem item_id
                     (str_or (Some (item_title item))
                        (default (JStr (py "无标题"))
                           (sd_metadata existing !! py "title")))
                     (item_content item)
                     (str_or (item_category item)
                        (default (JStr (py "general"))
                           (sd_metadata existing !! py "category")))
                     tags
                     (JInt (Z.of_nat (length (item_content item))))
                     (default JNull (sd_metadata existing !! py "created_at"))
                     (JStr (now 1%nat))))).
Proof.
  split; [|split].
  - unfold get_knowledge_endpoint, http_errors.
    destruct (get_knowledge_ok collection item_id) as [found Hfound].
    destruct (get_knowledge collection item_id) as [cs o]. cbn in Hfound. subst o.
    cbn. destruct found; reflexivity.
  - unfold update_knowledge_endpoint, http_errors.
    destruct (update_knowledge_ok collection get_embeddings now item_id
                (Some (item_title item)) (Some (item_content item))
                (item_category item) (item_tags item)) as [updated Hup].
    destruct (update_knowledge _ _ _ _ _ _ _ _) as [cs o]. cbn in Hup. subst o.
    destruct (get_knowledge_ok (after_update <$> collection) item_id)
      as [found Hfound].
    destruct (get_knowledge (after_update <$> collection) item_id) as [cs' o'].
    cbn in Hfound. subst o'.
    cbn. destruct updated; cbn.
    + exists found. split; reflexivity.
    + now rewrite app_nil_r.
  - intros existing existing_tags Hexisting Htags Hok Hcontent Hstore.
    destruct (update_knowledge_written _ _ _ _ _ _ _ _ _ _ Hexisting Htags Hok)
      as (c & new_content & embedding & metadata & -> & Hcalls & Hnew & H1 & H2
          & H3 & H4 & H5 & H6).
    assert (new_content = item_content item) as ->.
    { rewrite Hnew. destruct (item_content item); [now destruct Hcontent|reflexivity]. }
    assert (Hget : collection_get (after_update c) [item_id]
                   = Ok (GetResult [item_id] (Some [item_content item])
                           (Some [metadata]))).
    { apply (Hstore c [item_id] [item_content item] [embedding] [metadata] eq_refl).
      rewrite Hcalls. right. right. left. reflexivity. }
    destruct (tags_str_of_tags_of match item_tags item with
                                  | Some given => tags_str_of given
                                  | None => existing_tags
                                  end) as (tags & Hsplit & _).
    exists tags. split; [exact Hsplit|].
    unfold update_knowledge_endpoint, http_errors.
    destruct (update_knowledge (Some c) get_embeddings now item_id
                (Some (item_title item)) (Some (item_content item))
                (item_category item) (item_tags item)) as [cs o].
    cbn in Hok. subst o.
    cbn [mbind traced_bind outcome calls negb fmap option_fmap option_map].
    unfold get_knowledge.
    rewrite (get_document_stored _ _ _ _ _ _ _ _ Hget Hcontent).
    unfold traced_try.
    cbn [mbind traced_bind outcome calls sd_metadata sd_id sd_content pure].
    rewrite H1, H2, H3, H4, H5, H6.
    change (default (JStr []) (Some ?v)) with v. rewrite Hsplit.
    reflexivity.
Qed.

(** X26. Adding an item with a blank content is answered with the
    status 500, whose detail is the message of the manager, and makes no
    call: no embedding is asked for and nothing is stored. Every other
    failure of adding is a 500 as well. A success returns the entry
    with the title of the request, a category that is not empty,
    ["general"] when none is given, and a list of tags. *)
Theorem X26_add_endpoint_reports_500 collection get_embeddings now uuid4 item :
  (visible (item_content item) = false ->
   add_knowledge_endpoint collection get_embeddings now uuid4 item
   = Traced [] (Raise (HTTPException 500 (py "知识内容不能为空")))) /\
  (forall e,
     outcome (add_knowledge_endpoint collection get_embeddings now uuid4 item)
     = Raise e ->
     exists detail, e = HTTPException 500 detail) /\
  (forall entry,
     outcome (add_knowledge_endpoint collection get_embeddings now uuid4 item)
     = Ok entry ->
     ke_title entry = item_title item /\
     ke_category entry <> [] /\
     (item_category item = None -> ke_category entry = py "general") /\
     exists tags, ke_tags entry = Some tags).
Proof.
  unfold add_knowledge_endpoint.
  set (category := match item_category item with
                   | Some c => if truthy c then c else py "general"
                   | None => py "general"
                   end).
  set (tags := match item_tags item with
               | Some (_ :: _) => item_tags item
               | _ => Some []
               end).
  assert (Hcat : category <> []).
  { unfold category. destruct (item_category item) as [[|ch c]|]; discriminate. }
  assert (Htags : exists ts, tags = Some ts).
  { unfold tags. destruct (item_tags item) as [[|t ts]|]; eauto. }
  assert (Hnone : item_category item = None -> category = py "general").
  { unfold category. now intros ->. }
  clearbody category tags.
  split; [|split].
  - intros Hblank. unfold add_knowledge. fold (visible (item_content item)).
    rewrite Hblank. reflexivity.
  - intros e. unfold http_500.
    destruct (outcome (add_knowledge _ _ _ _ _ _ _ _)) as [entry|e0] eqn:E.
    + rewrite E. discriminate.
    + cbn. intros [= <-]. eauto.
  - intros entry. unfold http_500.
    destruct (outcome (add_knowledge _ _ _ _ _ _ _ _)) as [added|e0] eqn:E;
      [|discriminate].
    rewrite E. intros [= <-].
    destruct (add_knowledge_ok _ _ _ _ _ _ _ _ _ E)
      as (embeddings & metadata & _ & _ & (Hid & Hcreated) & _).
    revert E. unfold add_knowledge.
    destruct (negb (truthy (strip (item_content item)))); [discriminate|].
    destruct (get_embeddings [item_content item]) as [[|v vs]|e0]; cbn;
      try discriminate.
    unfold add_documents. destruct collection as [c|]; [|discriminate].
    cbn. destruct (collection_add c _ _ _ _); cbn; [discriminate|].
    intros [= <-]. cbn. auto.
Qed.

(** ** Web pages *)

Lemma lstrip_In (c : char) (s : str) : In c (lstrip s) -> In c s.
Proof.
  induction s as [|d s IH]; [tauto|]. cbn.
  destruct (isspace d); [|tauto]. intros H. right. now apply IH.
Qed.

Lemma strip_In (c : char) (s : str) : In c (strip s) -> In c s.
Proof.
  unfold strip, rstrip. intros H.
  apply in_rev, lstrip_In in H. apply in_rev in H. now apply lstrip_In.
Qed.

Lemma split_char_pieces (sep : char) (s : str) :
  Forall (fun piece => ~ In sep piece) (split_char sep s).
Proof.
  induction s as [|c s IH]; cbn.
  - repeat constructor. tauto.
  - destruct (N.eqb_spec c sep) as [->|Hc].
    + constructor; [tauto|exact IH].
    + destruct (split_char sep s) as [|piece pieces].
      * repeat constructor. intros [H|[]]. congruence.
      * apply Forall_cons in IH as [Hp Hps]. constructor; [|exact Hps].
        intros [H|H]; [congruence|tauto].
Qed.

(** The lines that the cleaning keeps are trimmed, longer than ten
    characters and without a line break. *)
Lemma cleaned_lines_kept (text_content : str) :
  Forall (fun line => strip line = line
                      /\ (truthy line && (10 <? length line)%nat) = true
                      /\ ~ In 10 line)
    (List.filter (fun line => truthy line && (10 <? length line)%nat)
       (map strip (split_char 10 text_content))).
Proof.
  apply List.Forall_forall. intros line Hline.
  apply List.filter_In in Hline as [Hin Hkeep].
  apply List.in_map_iff in Hin as (raw & <- & Hraw).
  split; [apply strip_idempotent|]. split; [exact Hkeep|].
  intros H. apply strip_In in H.
  pose proof (split_char_pieces 10 text_content) as Hp.
  rewrite List.Forall_forall in Hp. exact (Hp raw Hraw H).
Qed.

(** Cleaning the join of lines that the cleaning keeps changes
    nothing. *)
Lemma clean_kept_lines (lines : list str) :
  Forall (fun line => strip line = line
                      /\ (truthy line && (10 <? length line)%nat) = true
                      /\ ~ In 10 line) lines ->
  List.filter (fun line => truthy line && (10 <? length line)%nat)
    (map strip (split_char 10 (str_join nl lines)))
  = lines.
Proof.
  intros H. destruct lines as [|line lines]; [reflexivity|].
  change nl with [10]. rewrite split_char_join.
  - induction H as [|l ls (Hs & Hk & _) _ IH]; [reflexivity|].
    cbn [map List.filter]. rewrite Hs, Hk. now rewrite IH.
  - discriminate.
  - eapply Forall_impl; [exact H|]. cbn. tauto.
Qed.

(** X27. The cleaning trims every line of the text of a page and keeps,
    in their order, the trimmed lines of more than ten characters: every
    line it keeps is trimmed, longer than ten characters and without a
    line feed. The cleaned text is these lines joined by line breaks,
    cut to 5000 characters followed by an ellipsis when it is longer, so
    it has at most 5003 characters; and cleaning is idempotent on a text
    that was not cut. *)
Theorem X27_clean_text_is_idempotent (text_content : str) :
  exists lines,
    lines = List.filter (fun line => (10 <? length line)%nat)
              (map strip (split_char 10 text_content)) /\
    Forall (fun line => strip line = line
                        /\ (10 < length line)%nat
                        /\ ~ In 10 line) lines /\
    clean_text text_content
    = (if (5000 <? length (str_join nl lines))%nat
       then take 5000 (str_join nl lines) ++ py "..."
       else str_join nl lines) /\
    (length (clean_text text_content) <= 5000 + 3)%nat /\
    ((length (clean_text text_content) <= 5000)%nat ->
     clean_text (clean_text text_content) = clean_text text_content).
Proof.
  assert (Hcut : forall (limit : nat) (content : str),
             (length (if (limit <? length content)%nat
                      then take limit content ++ py "..." else content)
              <= limit + 3)%nat /\
             ((length (if (limit <? length content)%nat
                       then take limit content ++ py "..." else content)
               <= limit)%nat ->
              (limit <? length content)%nat = false)).
  { intros limit content.
    destruct (Nat.ltb_spec limit (length content)) as [H|H].
    - rewrite length_app, length_take. change (length (py "...")) with 3%nat.
      split; [lia|intros Hle; exfalso; lia].
    - split; [lia|reflexivity]. }
  assert (Hkeep : forall pieces : list str,
             List.filter (fun line => truthy line && (10 <? length line)%nat) pieces
             = List.filter (fun line => (10 <? length line)%nat) pieces).
  { intros pieces. apply List.filter_ext. intros [|ch line]; reflexivity. }
  exists (List.filter (fun line => (10 <? length line)%nat)
            (map strip (split_char 10 text_content))).
  split; [reflexivity|].
  set (lines := List.filter (fun line => (10 <? length line)%nat)
                  (map strip (split_char 10 text_content))).
  pose proof (cleaned_lines_kept text_content) as Hkept.
  rewrite Hkeep in Hkept. fold lines in Hkept.
  assert (Hclean : clean_text text_content
                   = (if (5000 <? length (str_join nl lines))%nat
                      then take 5000 (str_join nl lines) ++ py "..."
                      else str_join nl lines)).
  { unfold clean_text. cbv zeta. rewrite Hkeep. reflexivity. }
  destruct (Hcut 5000%nat (str_join nl lines)) as [Hlen Hfit].
  split.
  { eapply Forall_impl; [exact Hkept|]. intros line (Hs & Hk & Hn).
    split; [exact Hs|]. split; [|exact Hn].
    apply andb_true_iff in Hk as [_ Hk]. now apply Nat.ltb_lt in Hk. }
  split; [exact Hclean|].
  rewrite Hclean. split; [exact Hlen|]. intros Hshort. specialize (Hfit Hshort).
  rewrite Hfit. unfold clean_text. cbv zeta.
  rewrite (clean_kept_lines lines Hkept). now rewrite Hfit.
Qed.

Lemma final_content_visible (scraped_data : scraped_page) :
  visible (final_content scraped_data) = true.
Proof.
  apply visible_char. exists 0x1F4C4. split; [|reflexivity].
  unfold final_content.
  change (py "📄 来源：") with (0x1F4C4 :: py " 来源：").
  cbn [app str_join].
  match goal with
  | |- In _ (match ?rest with [] => _ | _ :: _ => _ end) =>
      destruct rest; now left
  end.
Qed.

(** X28. A page that was scraped is answered with success, and with the
    page as data, whatever happens when it is added to the knowledge
    base: a failure of adding is reported in the answer and not as an
    error status. The content that is added is never blank, so that the
    manager never rejects it: the embedding of that content is asked
    for in every request that wants the page added. The answer is
    determined by the outcome of adding. When adding fails with an
    exception, as it does when the embedding service raises, the answer
    has no knowledge id, the text of the exception as its error and the
    message that adding failed followed by that text. When adding
    succeeds, the answer has no error and the id of the new entry as
    its knowledge id, with the message that the page was added, unless
    that id is empty. A knowledge id is part of the answer only when the
    page was added, without an error; a request that does not want the
    page added makes no call and gets the plain message, without id and
    without error. *)
Theorem X28_scraped_page_is_answered collection get_embeddings now uuid4
    validate_url scrape_url request page :
  validate_url (web_url request) = true ->
  scrape_url (web_url request) = Ok page ->
  exists response,
    outcome (parse_web_url collection get_embeddings now uuid4
               validate_url scrape_url request) = Ok response /\
    pr_success response = true /\
    pr_data response = page /\
    visible (final_content page) = true /\
    (if bool_decide (auto_add_to_knowledge request = Some true)
     then exists rest,
            calls (parse_web_url collection get_embeddings now uuid4
                     validate_url scrape_url request)
            = GetEmbeddings [final_content page] :: rest
     else calls (parse_web_url collection get_embeddings now uuid4
                   validate_url scrape_url request) = [] /\
          pr_knowledge_id response = None /\ pr_error response = None) /\
    (forall id, pr_knowledge_id response = Some id ->
       pr_error response = None /\
       exists embeddings metadata,
         last (calls (parse_web_url collection get_embeddings now uuid4
                        validate_url scrape_url request))
         = Some (CollectionAdd [final_content page] embeddings [metadata] [id])) /\
    (auto_add_to_knowledge request = Some true ->
     match outcome (add_knowledge collection get_embeddings now uuid4
                      (if bool_decide (page_title page = py "网页内容")
                       then py "网页内容 - " ++ page_domain page
                       else page_title page)
                      (final_content page)
                      (match web_category request with
                       | Some c => if truthy c then c else py "web_content"
                       | None => py "web_content"
                       end)
                      (Some (web_tags page (web_category request)))) with
     | Raise ke =>
         response
         = ParseResponse true page
             (py "网页解析成功，但添加到知识库失败: " ++ str_of_exn ke)
             None (Some (str_of_exn ke))
     | Ok entry =>
         ke_id entry = uuid4 0%nat /\
         response
         = ParseResponse true page
             (py "网页解析成功"
              ++ (if truthy (ke_id entry) then py "，已添加到知识库" else []))
             (if truthy (ke_id entry) then Some (ke_id entry) else None)
             None
     end) /\
    (auto_add_to_knowledge request = Some true ->
     forall e,
       get_embeddings [final_content page] = Raise e ->
       response
       = ParseResponse true page
           (py "网页解析成功，但添加到知识库失败: " ++ str_of_exn e)
           None (Some (str_of_exn e))) /\
    (auto_add_to_knowledge request <> Some true ->
     response = ParseResponse true page (py "网页解析成功") None None).
Proof.
  intros Hvalid Hscrape. pose proof (final_content_visible page) as Hvis.
  unfold parse_web_url, http_errors. rewrite Hvalid, Hscrape.
  cbn [negb pure mbind traced_bind outcome calls app].
  set (content := final_content page) in *. clearbody content.
  destruct (auto_add_to_knowledge request) as [[|]|].
  2, 3: match goal with
        | |- context [bool_decide (?a = Some true)] =>
            rewrite (bool_decide_eq_false_2 (a = Some true)) by discriminate
        end;
        exists (ParseResponse true page (py "网页解析成功") None None);
        cbn [outcome calls pr_success pr_data pr_knowledge_id pr_error mret traced_ret];
        (split; [reflexivity|]); (split; [reflexivity|]); (split; [reflexivity|]);
        (split; [exact Hvis|]); (split; [repeat split|]);
        (split; [intros added [=]|]); (split; [intros [=]|]);
        (split; [intros [=]|]); reflexivity.
  rewrite (bool_decide_eq_true_2 (Some true = Some true)) by reflexivity.
  match goal with
  | |- context [add_knowledge ?c ?g ?n ?u ?t ?co ?ca ?ta] =>
      pose proof (add_knowledge_ok c g n u t co ca ta) as Hadd;
      assert (Hfirst : (exists rest,
                          calls (add_knowledge c g n u t co ca ta)
                          = GetEmbeddings [co] :: rest)
                       /\ forall e,
                            get_embeddings [co] = Raise e ->
                            outcome (add_knowledge c g n u t co ca ta) = Raise e);
      [|destruct (add_knowledge c g n u t co ca ta) as [cs [result|ke]]]
  end.
  - unfold add_knowledge. unfold visible in Hvis. rewrite Hvis.
    cbn [negb]. destruct (get_embeddings [content]) as [[|v vs]|e]; cbn.
    + split; [eauto|]. intros e [=].
    + split; [eauto|]. intros e [=].
    + split; [eauto|]. intros e' [= <-]. reflexivity.
  - cbn in Hfirst. destruct Hfirst as [[rest ->] Hraise].
    destruct (Hadd result eq_refl)
      as (embeddings & metadata & Hcalls & _ & (Hid & _) & _).
    cbn in Hcalls. cbn. eexists. split; [reflexivity|]. cbn.
    split; [reflexivity|]. split; [reflexivity|]. split; [exact Hvis|].
    split; [eauto|]. split; [|split; [|split]].
    + intros id Hid'. split; [reflexivity|].
      destruct (truthy (ke_id result)); [|discriminate].
      injection Hid' as <-. exists embeddings, metadata. rewrite Hcalls. reflexivity.
    + intros _. split; [exact Hid|reflexivity].
    + intros _ e He. specialize (Hraise e He). discriminate Hraise.
    + intros H. now destruct H.
  - cbn in Hfirst. destruct Hfirst as [[rest ->] Hraise]. cbn.
    eexists. split; [reflexivity|]. cbn.
    split; [reflexivity|]. split; [reflexivity|]. split; [exact Hvis|].
    split; [eauto|]. split; [intros id [=]|]. split; [|split].
    + intros _. reflexivity.
    + intros _ e He. specialize (Hraise e He). injection Hraise as ->. reflexivity.
    + intros H. now destruct H.
Qed.

Lemma X28_scraped_page_is_answered_witness :
  exists response,
    outcome (parse_web_url
               (Some (one_document_collection (py "u0") (py "text") example_metadata))
               (fun _ => Ok [[0.5%float]]) example_clock (fun _ => py "u0")
               (fun _ => true) (fun _ => Ok example_page)
               {| web_url := py "http://example.org/";
                  web_category := None;
                  auto_add_to_knowledge := Some true |}) = Ok response /\
    pr_success response = true.
Proof.
  destruct (X28_scraped_page_is_answered
              (Some (one_document_collection (py "u0") (py "text") example_metadata))
              (fun _ => Ok [[0.5%float]]) example_clock (fun _ => py "u0")
              (fun _ => true) (fun _ => Ok example_page)
              {| web_url := py "http://example.org/";
                 web_category := None;
                 auto_add_to_knowledge := Some true |}
              example_page) as (response & H1 & H2 & _).
  - reflexivity.
  - reflexivity.
  - exists response. split; [exact H1|exact H2].
Defined.

(** X29. The note about an incomplete extraction is appended to the
    cleaned text of a scraped page, after an empty line, exactly when
    the cleaned text has less than 100 characters and the description
    has less than ten, an empty description included; in every other
    case the content is the cleaned text as it is. So the content of a
    page is empty only for a page without cleaned text whose
    description has at least ten characters. *)
Theorem X29_short_pages_get_a_note url domain title description text_content keywords :
  ((length (clean_text text_content) < 100)%nat /\ (length description < 10)%nat ->
   page_content (scraped url domain title description text_content keywords)
   = clean_text text_content ++ nl ++ nl
     ++ py "注意：内容提取可能不完整，该网站可能限制了自动内容抓取。建议直接从浏览器打开链接并手动复制内容。") /\
  ((100 <= length (clean_text text_content))%nat \/ (10 <= length description)%nat ->
   page_content (scraped url domain title description text_content keywords)
   = clean_text text_content) /\
  (page_content (scraped url domain title description text_content keywords) = []
   <-> clean_text text_content = [] /\ (10 <= length description)%nat).
Proof.
  unfold scraped, with_short_note. cbn [page_content].
  generalize (clean_text text_content). intros content.
  assert (Hdesc : (negb (truthy description) || (length description <? 10)%nat)
                  = (length description <? 10)%nat).
  { destruct description; reflexivity. }
  rewrite Hdesc. clear Hdesc.
  destruct (Nat.ltb_spec (length content) 100) as [Hshort|Hlong];
    destruct (Nat.ltb_spec (length description) 10) as [Hd|Hd]; cbn [andb].
  - split; [reflexivity|]. split; [intros [H|H]; exfalso; lia|].
    split; [intros H; now apply app_eq_nil in H as [_ H]|intros [_ H]; exfalso; lia].
  - split; [intros [_ H]; exfalso; lia|]. split; [reflexivity|].
    split; [intros ->; split; [reflexivity|exact Hd]|now intros [-> _]].
  - split; [intros [H _]; exfalso; lia|]. split; [reflexivity|].
    split; [intros ->; cbn in Hlong; exfalso; lia|intros [_ H]; exfalso; lia].
  - split; [intros [H _]; exfalso; lia|]. split; [reflexivity|].
    split; [intros ->; cbn in Hlong; exfalso; lia|intros [-> _]; cbn in Hlong; exfalso; lia].
Qed.

(** ** Uploading a file *)

Lemma added_documents_app cs1 cs2 :
  added_documents (cs1 ++ cs2) = added_documents cs1 ++ added_documents cs2.
Proof. unfold added_documents. now rewrite map_app, concat_app. Qed.

(** A call of [add_knowledge] adds its content, or nothing when it
    fails before it reaches the collection. *)
Lemma add_knowledge_added collection get_embeddings now uuid4
    title content category tags :
  (added_documents (calls (add_knowledge collection get_embeddings now uuid4
                             title content category tags)) = [] \/
   added_documents (calls (add_knowledge collection get_embeddings now uuid4
                             title content category tags)) = [content]) /\
  (forall entry,
     outcome (add_knowledge collection get_embeddings now uuid4
                title content category tags) = Ok entry ->
     added_documents (calls (add_knowledge collection get_embeddings now uuid4
                               title content category tags)) = [content]).
Proof.
  split.
  - unfold add_knowledge.
    destruct (negb (truthy (strip content))); [now left|].
    destruct (get_embeddings [content]) as [[|v vs]|e]; cbn; try now left.
    unfold add_documents. destruct collection as [c|]; [|now left].
    cbn. destruct (collection_add c _ _ _ _); cbn; now right.
  - intros entry H.
    destruct (add_knowledge_ok _ _ _ _ _ _ _ _ _ H) as (embeddings & metadata & -> & _).
    reflexivity.
Qed.

(** The loop of an upload adds the texts that are not blank, in
    their order, up to the first failure. *)
Lemma upload_texts_in_order collection get_embeddings now uuid4
    (filename : str) (texts : list str) (i count : nat) :
  exists k,
    added_documents (calls (upload_texts collection get_embeddings now uuid4
                              filename texts i count))
    = take k (map strip (List.filter visible texts)) /\
    (forall n,
       outcome (upload_texts collection get_embeddings now uuid4
                  filename texts i count) = Ok n ->
       n = (count + length (List.filter visible texts))%nat /\
       added_documents (calls (upload_texts collection get_embeddings now uuid4
                                 filename texts i count))
       = map strip (List.filter visible texts)).
Proof.
  revert i count. induction texts as [|text rest IH]; intros i count.
  - exists 0%nat. split; [reflexivity|]. cbn. intros n [= <-].
    split; [lia|reflexivity].
  - cbn [upload_texts List.filter]. fold (visible text).
    destruct (visible text); [|exact (IH (S i) count)].
    cbn [map length].
    match goal with
    | |- context [add_knowledge ?c ?g ?n ?u ?t ?co ?ca ?ta] =>
        destruct (add_knowledge_added c g n u t co ca ta) as [Hsome Hall];
        destruct (add_knowledge c g n u t co ca ta) as [cs [entry|e]]
    end.
    + specialize (Hall entry eq_refl). cbn [calls] in Hall.
      destruct (IH (S i) (S count)) as (k & Hk & Hok).
      exists (S k). cbn [mbind traced_bind outcome calls].
      rewrite added_documents_app, Hall. split; [now rewrite Hk|].
      intros n Hn. destruct (Hok n Hn) as [-> Hfull].
      split; [lia|]. now rewrite Hfull.
    + cbn [mbind traced_bind outcome calls]. cbn [calls] in Hsome.
      destruct Hsome as [-> | ->].
      * exists 0%nat. split; [reflexivity|]. discriminate.
      * exists 1%nat. split; [reflexivity|]. discriminate.
Qed.

(** X30. An upload adds the texts of the file that are not blank,
    trimmed, one by one and in their order, and it is not atomic:
    whatever happens, the documents sent to the collection are the first
    [k] of these texts, so that an upload that fails has sent the texts
    before the failing one. An upload that succeeds has sent all of
    them, and it returns their number and the name of the file. The
    texts are selected by the extension of the lowered file name, the
    first that fits in this order: the decoded content of a [.txt] file,
    the texts of the parser of a [.pdf], of a [.docx], of an [.xlsx] or
    [.xls], of a [.json] file. A file of another type, a file without
    name, a file that cannot be read and a text file that cannot be
    decoded raise before anything is sent. *)
Theorem X30_upload_is_not_atomic collection get_embeddings now uuid4 lower
    read_fails decode_utf8 _parse_pdf _parse_docx _parse_excel _parse_json
    (ch : char) (name : str) :
  (forall filename,
     filename = None \/ filename = Some [] ->
     upload_file collection get_embeddings now uuid4 lower read_fails
          decode_utf8 _parse_pdf _parse_docx _parse_excel _parse_json
          filename
     = Traced [] (Raise (ValueError (py "文件名不能为空")))) /\
  (forall e,
     read_fails = Some e ->
     upload_file collection get_embeddings now uuid4 lower read_fails
          decode_utf8 _parse_pdf _parse_docx _parse_excel _parse_json
          (Some (ch :: name))
     = Traced [] (Raise e)) /\
  (read_fails = None ->
   (forall e,
      endswith (py ".txt") (lower (ch :: name)) = true ->
      decode_utf8 = Raise e ->
      upload_file collection get_embeddings now uuid4 lower read_fails
          decode_utf8 _parse_pdf _parse_docx _parse_excel _parse_json
          (Some (ch :: name))
      = Traced [] (Raise e)) /\
   (endswith (py ".txt") (lower (ch :: name)) = false ->
    endswith (py ".pdf") (lower (ch :: name)) = false ->
    endswith (py ".docx") (lower (ch :: name)) = false ->
    endswith (py ".xlsx") (lower (ch :: name)) = false ->
    endswith (py ".xls") (lower (ch :: name)) = false ->
    endswith (py ".json") (lower (ch :: name)) = false ->
    upload_file collection get_embeddings now uuid4 lower read_fails
          decode_utf8 _parse_pdf _parse_docx _parse_excel _parse_json
          (Some (ch :: name))
    = Traced [] (Raise (ValueError (py "不支持的文件类型: " ++ lower (ch :: name))))) /\
   (forall texts,
      (endswith (py ".txt") (lower (ch :: name)) = true
       /\ exists text, decode_utf8 = Ok text /\ texts = [text])
      \/ (endswith (py ".txt") (lower (ch :: name)) = false
          /\ endswith (py ".pdf") (lower (ch :: name)) = true
          /\ texts = _parse_pdf)
      \/ (endswith (py ".txt") (lower (ch :: name)) = false
          /\ endswith (py ".pdf") (lower (ch :: name)) = false
          /\ endswith (py ".docx") (lower (ch :: name)) = true
          /\ texts = _parse_docx)
      \/ (endswith (py ".txt") (lower (ch :: name)) = false
          /\ endswith (py ".pdf") (lower (ch :: name)) = false
          /\ endswith (py ".docx") (lower (ch :: name)) = false
          /\ (endswith (py ".xlsx") (lower (ch :: name)) = true
              \/ endswith (py ".xls") (lower (ch :: name)) = true)
          /\ texts = _parse_excel)
      \/ (endswith (py ".txt") (lower (ch :: name)) = false
          /\ endswith (py ".pdf") (lower (ch :: name)) = false
          /\ endswith (py ".docx") (lower (ch :: name)) = false
          /\ endswith (py ".xlsx") (lower (ch :: name)) = false
          /\ endswith (py ".xls") (lower (ch :: name)) = false
          /\ endswith (py ".json") (lower (ch :: name)) = true
          /\ texts = _parse_json) ->
      exists k,
        added_documents
          (calls (upload_file collection get_embeddings now uuid4 lower read_fails
          decode_utf8 _parse_pdf _parse_docx _parse_excel _parse_json
          (Some (ch :: name))))
        = take k (map strip (List.filter visible texts)) /\
        (forall uploaded,
           outcome (upload_file collection get_embeddings now uuid4 lower read_fails
          decode_utf8 _parse_pdf _parse_docx _parse_excel _parse_json
          (Some (ch :: name))) = Ok uploaded ->
           uploaded = UploadResult (length (List.filter visible texts)) (ch :: name) /\
           added_documents
             (calls (upload_file collection get_embeddings now uuid4 lower read_fails
          decode_utf8 _parse_pdf _parse_docx _parse_excel _parse_json
          (Some (ch :: name))))
           = map strip (List.filter visible texts)))).
Proof.
  assert (Hloop : forall full texts,
             exists k,
               added_documents
                 (calls (count ← upload_texts collection get_embeddings now uuid4
                                   full texts 0 0;
                         mret (UploadResult count full)))
               = take k (map strip (List.filter visible texts)) /\
               (forall uploaded,
                  outcome (count ← upload_texts collection get_embeddings now uuid4
                                     full texts 0 0;
                           mret (UploadResult count full)) = Ok uploaded ->
                  uploaded = UploadResult (length (List.filter visible texts)) full /\
                  added_documents
                    (calls (count ← upload_texts collection get_embeddings now uuid4
                                      full texts 0 0;
                            mret (UploadResult count full)))
                  = map strip (List.filter visible texts))).
  { intros full texts.
    destruct (upload_texts_in_order collection get_embeddings now uuid4
                full texts 0 0) as (k & Hk & Hok).
    exists k.
    destruct (upload_texts collection get_embeddings now uuid4 full texts 0 0)
      as [cs [count|e]]; cbn [mbind traced_bind outcome calls mret traced_ret] in *.
    - rewrite app_nil_r. split; [exact Hk|]. intros uploaded [= <-].
      destruct (Hok count eq_refl) as [-> Hfull]. auto.
    - split; [exact Hk|]. discriminate. }
  split; [|split].
  - intros filename [-> | ->]; reflexivity.
  - intros e ->. reflexivity.
  - intros ->. unfold upload_file.
    cbn [unit_result pure mbind traced_bind outcome calls app].
    set (full := ch :: name) in *.
    split; [|split].
    + intros e -> ->. reflexivity.
    + intros -> -> -> -> -> ->. reflexivity.
    + intros texts Hsel.
      destruct Hsel as [(-> & text & Hdec & ->)
                       |[(-> & -> & ->)
                        |[(-> & -> & -> & ->)
                         |[(-> & -> & -> & Hx & ->)
                          |(-> & -> & -> & -> & -> & -> & ->)]]]].
      * rewrite Hdec.
        cbn [mbind result_bind outcome calls app]. apply Hloop.
      * cbn [outcome calls app]. apply Hloop.
      * cbn [outcome calls app]. apply Hloop.
      * assert ((endswith (py ".xlsx") (lower full)
                 || endswith (py ".xls") (lower full)) = true) as ->
          by (destruct Hx as [-> | ->]; [reflexivity|apply orb_true_r]).
        cbn [outcome calls app]. apply Hloop.
      * cbn [orb outcome calls app]. apply Hloop.
Qed.
